(** * Transpiler installer: version state, registry lookups, discovery and
      the backup / install / commit-or-rollback protocol.

    Shallow embedding of [databricks/labs/remorph/install.py]
    ([TranspilerInstaller], [PypiInstaller], [MavenInstaller]).

    Modelling conventions.
    - Python [str] is a Rocq [string], one character per code point below
      256.  File contents are kept as text; byte encodings are not modelled.
      A JSON text of such characters can still spell, with [\uXXXX]
      escapes, a string that has characters beyond them: [json.loads]
      gives a [pystr], which tells these wide strings from the others and
      keeps of them what the installer can look at.
    - A [pathlib.Path] is the list of its components, root first.  [p </> s]
      appends one component: product names, artifact ids and file names are
      single components (no separator inside).
    - The file system is a tree of directories and regular files with POSIX
      semantics; permissions and symbolic links are not modelled.
    - Python code runs in a state-and-exception monad over a [World]: the
      file system, the working directory and the trace of external events
      (network requests, subprocesses, log records).  A raised exception
      keeps the world reached so far.
    - What the interpreter's environment decides (the home directory, the
      platform, the clock, the registries' replies, what a subprocess does,
      the XML, zip and YAML readers) is a field of [Env]. *)

From Stdlib Require Import ZArith Ascii String List Bool Lia.
From stdpp Require Import base option gmap strings list fin_maps pretty.

Local Open Scope string_scope.
Local Open Scope list_scope.

(** ** Exceptions *)

(** The exception classes the installer can meet. *)
Inductive exn :=
  | FileNotFoundError | FileExistsError | NotADirectoryError | IsADirectoryError
  | OSError           (* any other [OSError], e.g. ENOTEMPTY, [shutil.Error] *)
  | HTTPError | URLError
  | ValueError | JSONDecodeError
  | KeyError | AttributeError
  | CalledProcessError
  | BadZipFile | ParseError
  | IllTyped          (* not a Python exception: the run has left the types
                         the module declares or the strings the model
                         holds *).

(** The classes named in the module's [except] clauses. *)
Inductive exn_class :=
  | CHTTPError | CURLError | CValueError | CKeyError | CCalledProcessError.

(** [isinstance e c], following the standard class hierarchy:
    [HTTPError] derives from [URLError], [JSONDecodeError] from
    [ValueError]. *)
Definition isinstance (e : exn) (c : exn_class) : bool :=
  match c, e with
  | CHTTPError, HTTPError => true
  | CURLError, (URLError | HTTPError) => true
  | CValueError, (ValueError | JSONDecodeError) => true
  | CKeyError, KeyError => true
  | CCalledProcessError, CalledProcessError => true
  | _, _ => false
  end.

Definition caught_by (cs : list exn_class) (e : exn) : bool :=
  existsb (isinstance e) cs.

(** ** File system *)

#[warnings="-register-all"]
Inductive node :=
  | File (content : string)
  | Dir (entries : gmap string node).

Definition Path := list string.

Definition path_div (p : Path) (s : string) : Path := p ++ [s].
Infix "</>" := path_div (at level 40, left associativity).

(** [Path(f"{p!s}{suffix}")]: the suffix lands in the last component. *)
Fixpoint path_append_str (p : Path) (suffix : string) : Path :=
  match p with
  | [] => [suffix]
  | [x] => [x +:+ suffix]
  | x :: p' => x :: path_append_str p' suffix
  end.

(** [str(p)] for an absolute path. *)
Definition path_str (p : Path) : string :=
  match p with
  | [] => "/"
  | _ => String.concat "" (map (fun c => "/" +:+ c) p)
  end.

(** [p.relative_to(base)]; [ValueError] when [base] is not a prefix. *)
Fixpoint relative_to (p base : Path) : exn + Path :=
  match base, p with
  | [], _ => inr p
  | b :: base', x :: p' => if String.eqb b x then relative_to p' base' else inl ValueError
  | _ :: _, [] => inl ValueError
  end.

Module FS.

Definition is_dir_node (n : node) : bool :=
  match n with Dir _ => true | File _ => false end.

(** Walk [p] down from [n].  ENOENT when a component is missing, ENOTDIR
    when a regular file stands where a directory is needed. *)
Fixpoint resolve (p : Path) (n : node) : exn + node :=
  match p with
  | [] => inr n
  | x :: p' =>
      match n with
      | File _ => inl NotADirectoryError
      | Dir m =>
          match m !! x with
          | Some c => resolve p' c
          | None => inl FileNotFoundError
          end
      end
  end.

Definition lookup (p : Path) (n : node) : option node :=
  match resolve p n with inr c => Some c | inl _ => None end.

(** [Path.exists], [Path.is_dir], [Path.is_file]: false rather than an
    error when the path cannot be walked. *)
Definition exists_ (p : Path) (n : node) : bool :=
  match lookup p n with Some _ => true | None => false end.

Definition is_dir (p : Path) (n : node) : bool :=
  match lookup p n with Some (Dir _) => true | _ => false end.

Definition is_file (p : Path) (n : node) : bool :=
  match lookup p n with Some (File _) => true | _ => false end.

(** Set ([Some]) or remove ([None]) the entry at [p].  Every strict prefix
    of [p] has to be a directory already; otherwise nothing changes. *)
Fixpoint put (p : Path) (o : option node) (n : node) : node :=
  match p with
  | [] => match o with Some n' => n' | None => n end
  | x :: p' =>
      match n with
      | File _ => n
      | Dir m =>
          match p' with
          | [] => Dir (match o with Some c => <[x:=c]> m | None => delete x m end)
          | _ :: _ =>
              match m !! x with
              | Some c => Dir (<[x:=put p' o c]> m)
              | None => n
              end
          end
      end
  end.

(** The parent directory and the final name of a path. *)
Fixpoint split_last (p : Path) : option (Path * string) :=
  match p with
  | [] => None
  | [x] => Some ([], x)
  | x :: p' =>
      match split_last p' with
      | Some (q, y) => Some (x :: q, y)
      | None => None
      end
  end.

(** The entries of the directory that is to hold the last component of
    [p], with that component's name. *)
Definition parent_entries (p : Path) (n : node)
  : exn + (gmap string node * string) :=
  match split_last p with
  | None => inl FileExistsError          (* the root itself *)
  | Some (q, x) =>
      match resolve q n with
      | inl e => inl e
      | inr (File _) => inl NotADirectoryError
      | inr (Dir m) => inr (m, x)
      end
  end.

End FS.

(** ** Worlds and the monad of Python code *)

Inductive level := DEBUG | INFO | WARNING | ERROR.

(** What the installer does to the outside, in order. *)
Inductive event :=
  | EvUrlopen (url : string)
  | EvUrlretrieve (url : string)
  | EvRun (args : list string) (shell : bool) (at_cwd : Path)
  | EvLog (lvl : level) (msg : string).

Record World := mkWorld {
  fs : node;
  cwd : Path;
  trace : list event
}.

Inductive outcome (A : Type) :=
  | Ok (a : A)
  | Raise (e : exn).
Arguments Ok {A} a.
Arguments Raise {A} e.

Definition M (A : Type) : Type := World -> outcome A * World.

#[global] Instance M_ret : MRet M := fun A a w => (Ok a, w).

#[global] Instance M_bind : MBind M := fun A B k m w =>
  match m w with
  | (Ok a, w') => k a w'
  | (Raise e, w') => (Raise e, w')
  end.

Definition raise {A} (e : exn) : M A := fun w => (Raise e, w).

(** [try: body except cs as e: handler e]. *)
Definition try_except {A} (body : M A) (cs : list exn_class) (handler : exn -> M A)
  : M A := fun w =>
  match body w with
  | (Raise e, w') => if caught_by cs e then handler e w' else (Raise e, w')
  | r => r
  end.

(** [try: body finally: cleanup]. *)
Definition try_finally {A} (body : M A) (cleanup : M unit) : M A := fun w =>
  match body w with
  | (r, w') =>
      match cleanup w' with
      | (Ok _, w'') => (r, w'')
      | (Raise e, w'') => (Raise e, w'')
      end
  end.

Definition get_fs : M node := fun w => (Ok (fs w), w).
Definition set_fs (n : node) : M unit := fun w =>
  (Ok tt, mkWorld n (cwd w) (trace w)).
Definition emit (ev : event) : M unit := fun w =>
  (Ok tt, mkWorld (fs w) (cwd w) (trace w ++ [ev])).
Definition lift {A} (r : exn + A) : M A :=
  match r with inr a => mret a | inl e => raise e end.

Module logger.
Definition debug (msg : string) : M unit := emit (EvLog DEBUG msg).
Definition info (msg : string) : M unit := emit (EvLog INFO msg).
Definition warning (msg : string) : M unit := emit (EvLog WARNING msg).
Definition error (msg : string) : M unit := emit (EvLog ERROR msg).
End logger.

(** ** The file-system calls of [pathlib], [os] and [shutil] *)

Definition path_exists (p : Path) : M bool := n ← get_fs; mret (FS.exists_ p n).
Definition path_is_dir (p : Path) : M bool := n ← get_fs; mret (FS.is_dir p n).
Definition path_is_file (p : Path) : M bool := n ← get_fs; mret (FS.is_file p n).

(** [Path.mkdir()]: the parent has to exist, the path must not. *)
Definition path_mkdir (p : Path) : M unit :=
  n ← get_fs;
  '(m, x) ← lift (FS.parent_entries p n);
  match m !! x with
  | Some _ => raise FileExistsError
  | None => set_fs (FS.put p (Some (Dir ∅)) n)
  end.

Definition fs_update (f : node -> exn + node) : M unit :=
  n ← get_fs; n' ← lift (f n); set_fs n'.

Definition fs_read {A} (f : node -> exn + A) : M A :=
  n ← get_fs; lift (f n).

Module FSOps.
Import FS.

(** A chain of fresh, nested directories. *)
Definition fresh_dirs (p : Path) : node :=
  foldr (fun x c => Dir {[x := c]}) (Dir ∅) p.

(** [Path.mkdir(parents=True)] with [exist_ok] left false: missing
    ancestors are created, an existing target is an error. *)
Fixpoint mkdir_parents (p : Path) (n : node) : exn + node :=
  match p with
  | [] => inl FileExistsError
  | x :: p' =>
      match n with
      | File _ => inl NotADirectoryError
      | Dir m =>
          match m !! x with
          | Some c =>
              match mkdir_parents p' c with
              | inr c' => inr (Dir (<[x:=c']> m))
              | inl e => inl e
              end
          | None => inr (Dir (<[x:=fresh_dirs p']> m))
          end
      end
  end.

Definition is_prefix (p q : Path) : bool :=
  match relative_to q p with inr _ => true | inl _ => false end.

Definition path_eqb (p q : Path) : bool := bool_decide (p = q).

(** [os.rename(src, dst)].  On POSIX a directory may replace an empty
    directory and a file may replace a file; on Windows an existing
    destination is an error. *)
Definition rename (win32 : bool) (src dst : Path) (n : node) : exn + node :=
  match resolve src n with
  | inl e => inl e
  | inr s =>
      match parent_entries dst n with
      | inl e => inl (match e with FileExistsError => OSError | _ => e end)
      | inr (m, x) =>
          if path_eqb src dst then inr n
          else if is_prefix src dst then inl OSError
          else
            let moved := put dst (Some s) (put src None n) in
            match m !! x with
            | None => inr moved
            | Some d =>
                if win32 then inl FileExistsError
                else
                  match d, s with
                  | Dir dm, Dir _ =>
                      if bool_decide (dm = ∅) then inr moved else inl OSError
                  | File _, Dir _ => inl NotADirectoryError
                  | Dir _, File _ => inl IsADirectoryError
                  | File _, File _ => inr moved
                  end
            end
      end
  end.

(** [shutil.rmtree(p)]. *)
Definition rmtree (p : Path) (n : node) : exn + node :=
  match resolve p n with
  | inl e => inl e
  | inr (File _) => inl NotADirectoryError
  | inr (Dir _) =>
      match p with
      | [] => inl OSError         (* the root stays *)
      | _ :: _ => inr (put p None n)
      end
  end.

(** [os.rmdir(p)]: only an empty directory goes. *)
Definition rmdir (p : Path) (n : node) : exn + node :=
  match resolve p n with
  | inl e => inl e
  | inr (File _) => inl NotADirectoryError
  | inr (Dir m) =>
      match p with
      | [] => inl OSError
      | _ :: _ => if bool_decide (m = ∅) then inr (put p None n) else inl OSError
      end
  end.

(** [os.listdir(p)]; the order is the directory's own. *)
Definition listdir (p : Path) (n : node) : exn + list string :=
  match resolve p n with
  | inl e => inl e
  | inr (File _) => inl NotADirectoryError
  | inr (Dir m) => inr (fst <$> map_to_list m)
  end.

(** [p.read_text()]. *)
Definition read_text (p : Path) (n : node) : exn + string :=
  match resolve p n with
  | inl e => inl e
  | inr (Dir _) => inl IsADirectoryError
  | inr (File s) => inr s
  end.

(** Opening [p] for writing, writing [s] and closing: the file is created
    or truncated. *)
Definition write_text (p : Path) (s : string) (n : node) : exn + node :=
  match parent_entries p n with
  | inl e => inl (match e with FileExistsError => IsADirectoryError | _ => e end)
  | inr (m, x) =>
      match m !! x with
      | Some (Dir _) => inl IsADirectoryError
      | _ => inr (put p (Some (File s)) n)
      end
  end.

(** [shutil.move(src, dst)] inside the tree: into [dst] when it is a
    directory, else onto it.  A file replaces a file on every platform
    (by [os.rename], or by the copy that [shutil] falls back to); any
    other failure is the one of [os.rename]. *)
Definition move (win32 : bool) (src dst : Path) (n : node) : exn + node :=
  let real_dst :=
    if is_dir dst n
    then match split_last src with Some (_, b) => dst </> b | None => dst end
    else dst in
  if is_dir dst n && exists_ real_dst n then inl OSError
  else
    match resolve src n, lookup real_dst n with
    | inr (File c), Some (File _) =>
        inr (put real_dst (Some (File c)) (put src None n))
    | _, _ => rename win32 src real_dst n
    end.

(** [shutil.move(tmp, target)] for a file fetched by [urlretrieve]: the
    temporary file sits in the system's temporary directory, outside the
    tree; [tmp_name] is its base name and [body] its content. *)
Definition move_fetched (tmp_name body : string) (target : Path) (n : node)
  : exn + node :=
  let real_dst := if is_dir target n then target </> tmp_name else target in
  if is_dir target n && exists_ real_dst n then inl OSError
  else write_text real_dst body n.

(** [shutil.copytree(..., dirs_exist_ok=True)] below the top: the source
    entry [s], named [x], is copied over the destination entry [d] of the
    same name.  A file replaces a file; met by a directory, it is copied
    into that directory under its own name (as [copy2] does), unless a
    directory of that name is in the way.  A directory is merged into a
    directory and cannot replace a file.  The flag tells whether an entry
    could not be copied, in which case that entry is left as it was. *)
Fixpoint overlay (s : node) : string -> option node -> node * bool :=
  match s with
  | File c => fun x d =>
      match d with
      | Some (Dir dm) =>
          match dm !! x with
          | Some (Dir _) => (Dir dm, true)
          | _ => (Dir (<[x := File c]> dm), false)
          end
      | _ => (File c, false)
      end
  | Dir sm => fun _ d =>
      match d with
      | Some (File c) => (File c, true)
      | _ =>
          let dm := match d with Some (Dir dm) => dm | _ => ∅ end in
          let met :=
            merge (fun (og : option (string -> option node -> node * bool))
                       (od : option node) =>
                     match og, od with
                     | Some g, _ => Some (inl (g, od))
                     | None, Some c => Some (inr c)
                     | None, None => None
                     end) (overlay <$> sm) dm in
          let r :=
            map_imap (fun x v =>
                        Some (match v with
                              | inl (g, od) => g x od
                              | inr c => (c, false)
                              end)) met in
          (Dir (fst <$> r), map_fold (fun _ x acc => snd x || acc) false r)
      end
  end.

End FSOps.

Definition os_rename (win32 : bool) (src dst : Path) : M unit :=
  fs_update (FSOps.rename win32 src dst).
Definition path_mkdir_parents (p : Path) : M unit := fs_update (FSOps.mkdir_parents p).
Definition rmtree (p : Path) : M unit := fs_update (FSOps.rmtree p).
Definition os_rmdir (p : Path) : M unit := fs_update (FSOps.rmdir p).
Definition os_listdir (p : Path) : M (list string) := fs_read (FSOps.listdir p).
Definition path_read_text (p : Path) : M string := fs_read (FSOps.read_text p).
Definition path_write_text (p : Path) (s : string) : M unit :=
  fs_update (FSOps.write_text p s).
Definition shutil_move (win32 : bool) (src dst : Path) : M unit :=
  fs_update (FSOps.move win32 src dst).

(** [shutil.copytree(src, dst, dirs_exist_ok=True)].  The source is read as
    it stood at the call.  Entries that cannot be copied are skipped and
    reported together at the end ([shutil.Error], an [OSError]), with the
    rest of the copy in place. *)
Definition shutil_copytree (src dst : Path) : M unit :=
  n ← get_fs;
  s ← lift (FS.resolve src n);
  match s with
  | File _ => raise NotADirectoryError
  | Dir _ =>
      match FS.lookup dst n with
      | Some (File _) => raise FileExistsError
      | Some (Dir dm) =>
          let '(c, failed) := FSOps.overlay s EmptyString (Some (Dir dm)) in
          set_fs (FS.put dst (Some c) n);;
          if failed then raise OSError else mret tt
      | None =>
          n' ← lift (FSOps.mkdir_parents dst n);
          let '(c, failed) := FSOps.overlay s EmptyString None in
          set_fs (FS.put dst (Some c) n');;
          if failed then raise OSError else mret tt
      end
  end.

(** ** JSON, as [json.loads] and [json.dump] read and write it *)

(** A string as [json.loads] decodes it: [Plain s] when every character is
    below 256, so that the model holds it; otherwise [Wide before], a string
    with a character of code point 256 or more (written as a [\uXXXX]
    escape), of which only the part before the first such character is
    kept.  A wide string is not empty, differs from every string of the
    model, and starts with a given character of the model exactly when
    [before] does. *)
Inductive pystr :=
  | Plain (s : string)
  | Wide (before : string).

#[warnings="-register-all"]
Inductive json :=
  | JNull
  | JBool (b : bool)
  | JInt (z : Z)
  | JFloat (lexeme : string)   (* also [NaN], [Infinity], [-Infinity] *)
  | JString (s : pystr)
  | JArray (items : list json)
  | JObject (members : list (pystr * json)).

Module Json.

Definition DQ : ascii := "034"%char.     (* the double quote *)
Definition BS : ascii := "\"%char.
Definition code (c : ascii) : N := N_of_ascii c.

(** The reader's results: a value, or the exception raised
    ([JSONDecodeError], or the [ValueError] of an integer literal too long
    to convert). *)
#[global] Instance result_ret : MRet (sum exn) := fun A a => inr a.
#[global] Instance result_bind : MBind (sum exn) := fun A B k r =>
  match r with
  | inr a => k a
  | inl e => inl e
  end.

(** A scan that finds no match is a [JSONDecodeError]. *)
Definition matched {A} (o : option A) : exn + A :=
  match o with
  | Some a => inr a
  | None => inl JSONDecodeError
  end.

(** [c] put in front of a decoded string. *)
Definition cons_char (c : ascii) (t : pystr) : pystr :=
  match t with
  | Plain s => Plain (String c s)
  | Wide before => Wide (String c before)
  end.

Definition is_ws (c : ascii) : bool :=
  let n := code c in
  (n =? 32)%N || (n =? 9)%N || (n =? 10)%N || (n =? 13)%N.

Definition is_digit (c : ascii) : bool :=
  let n := code c in (48 <=? n)%N && (n <=? 57)%N.

Fixpoint skip_ws (s : string) : string :=
  match s with
  | String c s' => if is_ws c then skip_ws s' else s
  | EmptyString => s
  end.

Definition hex_val (c : ascii) : option N :=
  let n := code c in
  if (48 <=? n)%N && (n <=? 57)%N then Some (n - 48)%N
  else if (97 <=? n)%N && (n <=? 102)%N then Some (n - 87)%N
  else if (65 <=? n)%N && (n <=? 70)%N then Some (n - 55)%N
  else None.

Definition hex4 (a b c d : ascii) : option N :=
  x ← hex_val a; y ← hex_val b; z ← hex_val c; t ← hex_val d;
  Some (((x * 16 + y) * 16 + z) * 16 + t)%N.

(** The one-letter escapes of [json.decoder.BACKSLASH]. *)
Definition unescape (e : ascii) : option ascii :=
  if Ascii.eqb e DQ then Some DQ
  else if Ascii.eqb e BS then Some BS
  else if Ascii.eqb e "/" then Some "/"%char
  else if Ascii.eqb e "b" then Some "008"%char
  else if Ascii.eqb e "f" then Some "012"%char
  else if Ascii.eqb e "n" then Some "010"%char
  else if Ascii.eqb e "r" then Some "013"%char
  else if Ascii.eqb e "t" then Some "009"%char
  else None.

(** [scanstring], from just after the opening quote: the decoded string
    and what follows the closing quote.  Control characters are refused
    (strict mode).  An escape [\uXXXX] denoting a code point of 256 or more,
    a surrogate included, makes the string a wide one. *)
Fixpoint scanstring (s : string) : option (pystr * string) :=
  match s with
  | EmptyString => None
  | String c s' =>
      if Ascii.eqb c DQ then Some (Plain EmptyString, s')
      else if Ascii.eqb c BS then
        match s' with
        | EmptyString => None
        | String e s'' =>
            if Ascii.eqb e "u" then
              match s'' with
              | String h1 (String h2 (String h3 (String h4 r))) =>
                  match hex4 h1 h2 h3 h4 with
                  | Some n =>
                      '(t, r') ← scanstring r;
                      Some (if (n <? 256)%N then cons_char (ascii_of_N n) t
                            else Wide EmptyString, r')
                  | None => None
                  end
              | _ => None
              end
            else
              match unescape e with
              | Some ch => '(t, r') ← scanstring s''; Some (cons_char ch t, r')
              | None => None
              end
        end
      else if (code c <? 32)%N then None
      else '(t, r') ← scanstring s'; Some (cons_char c t, r')
  end.

(** The longest run of digits at the head of [s], and the rest. *)
Fixpoint span_digits (s : string) : string * string :=
  match s with
  | String c s' =>
      if is_digit c then let '(d, r) := span_digits s' in (String c d, r)
      else (EmptyString, s)
  | EmptyString => (EmptyString, EmptyString)
  end.

Fixpoint digits_value (acc : Z) (s : string) : Z :=
  match s with
  | String c s' => digits_value (acc * 10 + Z.of_N (code c - 48)) s'
  | EmptyString => acc
  end.

(** [NUMBER_RE]: an optional minus sign, then a lone zero or a digit from
    one to nine with any digits after it; an optional fraction (a dot and
    at least one digit); an optional exponent (e or E, an optional sign, at
    least one digit).  An integer literal becomes an [int], anything with a
    fraction or an exponent a [float].  [int] refuses a literal of more
    than 4300 digits with a [ValueError] (the interpreter's default limit);
    [float] has no limit. *)
Definition scan_integer_part (s : string) : option (string * string) :=
  match s with
  | String c s' =>
      if Ascii.eqb c "0" then Some ("0", s')
      else if is_digit c then let '(d, r) := span_digits s' in Some (String c d, r)
      else None
  | EmptyString => None
  end.

Definition scan_frac (s : string) : string * string :=
  match s with
  | String "." s' =>
      match span_digits s' with
      | (EmptyString, _) => (EmptyString, s)
      | (d, r) => (String "." d, r)
      end
  | _ => (EmptyString, s)
  end.

Definition scan_exp (s : string) : string * string :=
  match s with
  | String c s' =>
      if Ascii.eqb c "e" || Ascii.eqb c "E" then
        let '(sign, s'') :=
          match s' with
          | String "-" t => ("-", t)
          | String "+" t => ("+", t)
          | _ => (EmptyString, s')
          end in
        match span_digits s'' with
        | (EmptyString, _) => (EmptyString, s)
        | (d, r) => (String c (sign +:+ d), r)
        end
      else (EmptyString, s)
  | EmptyString => (EmptyString, s)
  end.

Definition max_str_digits : nat := 4300.

(** [None] when no number starts [s]. *)
Definition scan_number (s : string) : option (exn + json * string) :=
  let '(neg, s1) :=
    match s with String "-" t => (true, t) | _ => (false, s) end in
  '(ip, s2) ← scan_integer_part s1;
  let '(fp, s3) := scan_frac s2 in
  let '(ep, s4) := scan_exp s3 in
  let sign := if neg then "-" else EmptyString in
  match fp, ep with
  | EmptyString, EmptyString =>
      if (max_str_digits <? String.length ip)%nat then Some (inl ValueError)
      else
        let z := digits_value 0 ip in
        Some (inr (JInt (if neg then - z else z), s4))
  | _, _ => Some (inr (JFloat (sign +:+ ip +:+ fp +:+ ep), s4))
  end.

(** [s] when [lit] is a prefix of it, without that prefix. *)
Fixpoint strip_prefix (lit s : string) : option string :=
  match lit, s with
  | EmptyString, _ => Some s
  | String a lit', String b s' => if Ascii.eqb a b then strip_prefix lit' s' else None
  | _, _ => None
  end.

(** [s] without its first character when that is [c]. *)
Definition starts (c : ascii) (s : string) : option string :=
  match s with
  | String c' r => if Ascii.eqb c' c then Some r else None
  | EmptyString => None
  end.

(** [scan_once] and the object and array readers of [json.decoder].  Every
    call hands a strictly shorter text to the next one, so fuel above the
    length of the text is never used up. *)
Fixpoint parse_value (fuel : nat) (s : string) {struct fuel}
  : exn + json * string :=
  match fuel with
  | O => inl JSONDecodeError
  | S fuel' =>
      match s with
      | EmptyString => inl JSONDecodeError
      | String c s' =>
          if Ascii.eqb c DQ then
            '(t, r) ← matched (scanstring s'); mret (JString t, r)
          else if Ascii.eqb c "{" then
            let s1 := skip_ws s' in
            match starts "}" s1 with
            | Some r => mret (JObject [], r)
            | None => '(kvs, r) ← parse_members fuel' s1; mret (JObject kvs, r)
            end
          else if Ascii.eqb c "[" then
            let s1 := skip_ws s' in
            match starts "]" s1 with
            | Some r => mret (JArray [], r)
            | None => '(l, r) ← parse_elements fuel' s1; mret (JArray l, r)
            end
          else if Ascii.eqb c "n" then
            r ← matched (strip_prefix "ull" s'); mret (JNull, r)
          else if Ascii.eqb c "t" then
            r ← matched (strip_prefix "rue" s'); mret (JBool true, r)
          else if Ascii.eqb c "f" then
            r ← matched (strip_prefix "alse" s'); mret (JBool false, r)
          else
            match scan_number s with
            | Some res => res
            | None =>
                if Ascii.eqb c "N" then
                  r ← matched (strip_prefix "aN" s'); mret (JFloat "NaN", r)
                else if Ascii.eqb c "I" then
                  r ← matched (strip_prefix "nfinity" s'); mret (JFloat "Infinity", r)
                else if Ascii.eqb c "-" then
                  r ← matched (strip_prefix "Infinity" s'); mret (JFloat "-Infinity", r)
                else inl JSONDecodeError
            end
      end
  end
with parse_members (fuel : nat) (s : string) {struct fuel}
  : exn + list (pystr * json) * string :=
  match fuel with
  | O => inl JSONDecodeError
  | S fuel' =>
      s1 ← matched (starts DQ s);
      '(k, r1) ← matched (scanstring s1);
      r2 ← matched (starts ":" (skip_ws r1));
      '(v, r3) ← parse_value fuel' (skip_ws r2);
      let s3 := skip_ws r3 in
      match starts "}" s3 with
      | Some r4 => mret ([(k, v)], r4)
      | None =>
          r4 ← matched (starts "," s3);
          '(kvs, r5) ← parse_members fuel' (skip_ws r4);
          mret ((k, v) :: kvs, r5)
      end
  end
with parse_elements (fuel : nat) (s : string) {struct fuel}
  : exn + list json * string :=
  match fuel with
  | O => inl JSONDecodeError
  | S fuel' =>
      '(v, r1) ← parse_value fuel' s;
      let s1 := skip_ws r1 in
      match starts "]" s1 with
      | Some r2 => mret ([v], r2)
      | None =>
          r2 ← matched (starts "," s1);
          '(l, r3) ← parse_elements fuel' (skip_ws r2);
          mret (v :: l, r3)
      end
  end.

(** [json.loads]: the value, or the exception raised. *)
Definition loads (s : string) : exn + json :=
  '(j, r) ← parse_value (S (String.length s)) (skip_ws s);
  match skip_ws r with
  | EmptyString => mret j
  | _ => inl JSONDecodeError
  end.

(** [d.get(k)] on the [dict] built from the members: the last one wins. *)
Fixpoint dict_get (k : string) (kvs : list (pystr * json)) : option json :=
  match kvs with
  | [] => None
  | (k', v) :: rest =>
      match dict_get k rest with
      | Some v' => Some v'
      | None =>
          match k' with
          | Plain s => if String.eqb k s then Some v else None
          | Wide _ => None
          end
      end
  end.

Definition exp_value (ep : string) : Z :=
  match ep with
  | String _ (String "-" d) => - digits_value 0 d
  | String _ (String "+" d) => digits_value 0 d
  | String _ d => digits_value 0 d
  | EmptyString => 0
  end.

(** Whether [float(lexeme) == 0.0]: a zero mantissa, or a value at most
    2^-1075, which rounds to zero. *)
Definition float_is_zero (lexeme : string) : bool :=
  let s1 := match lexeme with String "-" t => t | _ => lexeme end in
  match scan_integer_part s1 with
  | None => false
  | Some (ip, s2) =>
      let '(fp, s3) := scan_frac s2 in
      let '(ep, _) := scan_exp s3 in
      let fd := match fp with String _ d => d | EmptyString => EmptyString end in
      let mant := digits_value 0 (ip +:+ fd) in
      let ex := (exp_value ep - Z.of_nat (String.length fd))%Z in
      (mant =? 0)%Z || ((ex <? 0)%Z && (mant * 2 ^ 1075 <=? 10 ^ (- ex))%Z)
  end.

(** Python truth value of a decoded JSON value. *)
Definition truthy (j : json) : bool :=
  match j with
  | JNull => false
  | JBool b => b
  | JInt z => negb (z =? 0)%Z
  | JFloat lx => negb (float_is_zero lx)
  | JString (Plain s) => negb (String.eqb s EmptyString)
  | JString (Wide _) => true
  | JArray l => match l with [] => false | _ => true end
  | JObject kvs => match kvs with [] => false | _ => true end
  end.

(** *** Writing *)

Definition hex_digit (n : N) : ascii :=
  if (n <? 10)%N then ascii_of_N (48 + n) else ascii_of_N (87 + n).

(** [ESCAPE_ASCII] with [ESCAPE_DCT]: what [ensure_ascii] writes for one
    character. *)
Definition escape_char (c : ascii) : string :=
  let n := code c in
  if Ascii.eqb c DQ then String BS (String DQ EmptyString)
  else if Ascii.eqb c BS then String BS (String BS EmptyString)
  else if (n =? 10)%N then "\n"
  else if (n =? 13)%N then "\r"
  else if (n =? 9)%N then "\t"
  else if (n =? 8)%N then "\b"
  else if (n =? 12)%N then "\f"
  else if (32 <=? n)%N && (n <=? 126)%N then String c EmptyString
  else "\u00" +:+ String (hex_digit (n / 16)) (String (hex_digit (n mod 16)) EmptyString).

Fixpoint escape (s : string) : string :=
  match s with
  | EmptyString => EmptyString
  | String c s' => escape_char c +:+ escape s'
  end.

Definition encode_string (s : string) : string :=
  String DQ (escape s +:+ String DQ EmptyString).

(** [json.dumps] of a [dict] from [str] to [str], with the default
    separators. *)
Definition dumps_str_dict (kvs : list (string * string)) : string :=
  "{" +:+ String.concat ", "
            (map (fun kv => encode_string kv.1 +:+ ": " +:+ encode_string kv.2) kvs)
      +:+ "}".

End Json.

(** ** XML elements and the paths of [xml.etree.ElementPath] *)

#[warnings="-register-all"]
Inductive element :=
  | Element (tag : string) (text : option string) (children : list element).

Module ET.

Definition tag_of (e : element) : string := let 'Element t _ _ := e in t.
Definition text_of (e : element) : option string := let 'Element _ t _ := e in t.
Definition children_of (e : element) : list element := let 'Element _ _ cs := e in cs.

(** The compiled steps of a path: [.], a child tag, and the predicate
    [[last()]]. *)
Inductive step :=
  | Self
  | Child (tag : string)
  | Last.

(** An element met while a path is walked, with what tells it apart from
    its look-alikes: its parent and its rank among the parent's children
    (the element the search starts from has no parent). *)
Record item := mkItem {
  elem : element;
  parent : option element;
  rank : nat
}.

(** The ranks, counted from [i], of the elements of [cs] tagged [t]. *)
Fixpoint tagged_from (i : nat) (t : string) (cs : list element) : list nat :=
  match cs with
  | [] => []
  | c :: cs' =>
      (if String.eqb (tag_of c) t then [i] else []) ++ tagged_from (S i) t cs'
  end.

(** [prepare_child]: the children with the tag, in document order. *)
Fixpoint children_items (p : element) (i : nat) (t : string) (cs : list element)
  : list item :=
  match cs with
  | [] => []
  | c :: cs' =>
      (if String.eqb (tag_of c) t then [mkItem c (Some p) i] else [])
        ++ children_items p (S i) t cs'
  end.

(** [prepare_predicate] for [[last()]]: [parent.findall(elem.tag)[-1] is
    elem]; an element without a parent is dropped. *)
Definition is_last (it : item) : bool :=
  match parent it with
  | None => false
  | Some p =>
      match last (tagged_from 0 (tag_of (elem it)) (children_of p)) with
      | Some i => Nat.eqb i (rank it)
      | None => false
      end
  end.

Definition select (s : step) (result : list item) : list item :=
  match s with
  | Self => result
  | Child t =>
      flat_map (fun it => children_items (elem it) 0 t (children_of (elem it))) result
  | Last => filter (fun it => is_last it = true) result
  end.

Definition iterfind (root : element) (path : list step) : list item :=
  foldl (fun result s => select s result) [mkItem root None 0] path.

(** [Element.findtext(path)]: the text of the first match, the empty
    string when that element has no text, [None] without a match. *)
Definition findtext (root : element) (path : list step) : option string :=
  match iterfind root path with
  | it :: _ => Some (default EmptyString (text_of (elem it)))
  | [] => None
  end.

End ET.

(** ** Engine descriptors *)

Inductive LSPPromptMethod := FORCE | CONFIRM | QUESTION | CHOICE.

(** Modelled from the spec: [LSPConfigOptionV1] is declared in the
    [config] module, which is not among the sources; an option descriptor
    is [{flag, prompt, default, method, choices}]. *)
Record LSPConfigOptionV1 := mkOption {
  flag : string;
  method : LSPPromptMethod;
  prompt : option string;
  choices : option (list string);
  default_value : option string
}.

Record RemorphLSPConfig := mkRemorph { dialects : list string }.

(** Modelled from the spec: [LSPConfig] is declared in the [lsp_engine]
    module, which is not among the sources; the installer reads its
    [name], [remorph.dialects], [options] and [path]. *)
Record LSPConfig := mkLSPConfig {
  name : string;
  remorph : RemorphLSPConfig;
  options : gmap string (list LSPConfigOptionV1);
  path : Path
}.

(** ** The environment *)

Record Env := mkEnv {
  (** [Path.home()], [sys.platform == "win32"], [sys.executable] *)
  home : Path;
  win32 : bool;
  sys_executable : string;
  (** [datetime.now(timezone.utc).isoformat()] *)
  utcnow_isoformat : string;
  (** the base name [urlretrieve] gives its temporary file, and
      [tempfile.gettempdir()], the directory it makes the file in *)
  tmp_name : string;
  tmp_dir : Path;
  (** [request.urlopen(url).read()] and [request.urlretrieve(url)]: the
      body, or what the call raises *)
  urlopen : string -> exn + string;
  urlretrieve : string -> exn + string;
  (** [subprocess.run(args, shell=.., cwd=..)] on a file system: the return
      code or what the call raises, and the file system it leaves *)
  subprocess_run : list string -> bool -> Path -> node -> (exn + Z) * node;
  (** [ET.fromstring]; [None] stands for [ParseError] *)
  ET_fromstring : string -> option element;
  (** the members of a zip archive by name; [None] stands for [BadZipFile] *)
  ZipFile_members : string -> option (gmap string string);
  (** Modelled from the spec: [LSPConfig.load] is defined in the
      [lsp_engine] module, which is not among the sources.  It parses the
      text of a [config.yml] found at a path; [None] stands for the
      [ValueError] of a file that does not parse. *)
  LSPConfig_parse : Path -> string -> option LSPConfig
}.

(** ** Python helpers *)

Definition startswith (s pre : string) : bool :=
  match Json.strip_prefix pre s with Some _ => true | None => false end.

(** [s[1:]] *)
Definition drop_first (s : string) : string :=
  match s with String _ s' => s' | EmptyString => EmptyString end.

(** [s.startswith(pre)] for a decoded string and a string of the model: the
    first wide character of [s] matches no character of [pre]. *)
Definition decoded_startswith (s : pystr) (pre : string) : bool :=
  match s with
  | Plain v => startswith v pre
  | Wide before => startswith before pre
  end.

(** [s.replace(a, b)] for single characters. *)
Fixpoint replace_char (a b : ascii) (s : string) : string :=
  match s with
  | EmptyString => EmptyString
  | String c s' => String (if Ascii.eqb c a then b else c) (replace_char a b s')
  end.

(** [loads(text)] *)
Definition json_loads (text : string) : M json := lift (Json.loads text).

(** [data.get(k, dflt)]; only a [dict] has [get]. *)
Definition py_get (data : json) (k : string) (dflt : json) : M json :=
  match data with
  | JObject kvs => mret (default dflt (Json.dict_get k kvs))
  | _ => raise AttributeError
  end.

(** ** [class TranspilerInstaller] *)

Module TranspilerInstaller.
Section WithEnv.
Context (E : Env).

Definition labs_path : Path := home E </> ".databricks" </> "labs".

Definition transpilers_path : Path := labs_path </> "remorph-transpilers".

Definition get_installed_version (product_name : string) (is_transpiler : bool)
  : M (option string) :=
  let product_path :=
    (if is_transpiler then transpilers_path else labs_path) </> product_name in
  let current_version_path := product_path </> "state" </> "version.json" in
  found ← path_exists current_version_path;
  if negb found then mret None
  else
    text ← path_read_text current_version_path;
    data ← json_loads text;
    version ← py_get data "version" JNull;
    if negb (Json.truthy version) then mret None
    else
      match version with
      | JString s =>
          if decoded_startswith s "v" then
            match s with
            | Plain v => mret (Some (drop_first v))
            | Wide _ => raise IllTyped     (* [version[1:]] is a wide string *)
            end
          else mret None
      | _ => raise AttributeError          (* no [startswith] on this value *)
      end.

(** [LSPConfig.load(path)] *)
Definition LSPConfig_load (config_path : Path) : M LSPConfig :=
  text ← path_read_text config_path;
  match LSPConfig_parse E config_path text with
  | Some c => mret c
  | None => raise ValueError
  end.

Definition _transpiler_config (path : Path) : M (option LSPConfig) :=
  d ← path_is_dir path;
  dl ← path_is_dir (path </> "lib");
  if negb d || negb dl then mret None
  else
    let config_path := path </> "lib" </> "config.yml" in
    f ← path_is_file config_path;
    if negb f then mret None
    else
      try_except (c ← LSPConfig_load config_path; mret (Some c))
        [CValueError]
        (fun _ => logger.error ("Could not load config: " +:+ path_str path);; mret None).

(** The loop of the generator [_all_transpiler_configs], over the names
    that [os.listdir] gave. *)
Fixpoint _configs_of (files : list string) : M (list LSPConfig) :=
  match files with
  | [] => mret ([] : list LSPConfig)
  | file :: files' =>
      config ← _transpiler_config (transpilers_path </> file);
      rest ← _configs_of files';
      mret (match config with Some c => c :: rest | None => rest end)
  end.

Definition _all_transpiler_configs : M (list LSPConfig) :=
  found ← path_exists transpilers_path;
  if found : bool
  then all_files ← os_listdir transpilers_path; _configs_of all_files
  else mret [].

(** [{config.name: config for config in all_configs}]: a later config
    replaces an earlier one of the same name. *)
Definition all_transpiler_configs : M (gmap string LSPConfig) :=
  all_configs ← _all_transpiler_configs;
  mret (foldl (fun m config => <[name config := config]> m) ∅ all_configs).

Definition all_transpiler_names : M (gset string) :=
  all_configs ← all_transpiler_configs; mret (dom all_configs).

Definition all_dialects : M (gset string) :=
  configs ← _all_transpiler_configs;
  mret (foldl (fun acc config => acc ∪ list_to_set (dialects (remorph config)))
          ∅ configs).

Definition transpilers_with_dialect (dialect : string) : M (gset string) :=
  all_configs ← all_transpiler_configs;
  mret (dom (filter (fun kv => dialect ∈ dialects (remorph kv.2)) all_configs)).

Definition transpiler_config_path (transpiler_name : string) : M Path :=
  all_configs ← all_transpiler_configs;
  match all_configs !! transpiler_name with
  | None => raise ValueError
  | Some config => mret (path config)
  end.

Definition transpiler_config_options (transpiler_name source_dialect : string)
  : M (list LSPConfigOptionV1) :=
  all_configs ← all_transpiler_configs;
  match all_configs !! transpiler_name with
  | None => mret ([] : list LSPConfigOptionV1)
  | Some config =>
      mret (default (default [] (options config !! "all"))
              (options config !! source_dialect))
  end.

Definition _store_product_state (product_path : Path) (version : string) : M unit :=
  let state_path := product_path </> "state" in
  path_mkdir state_path;;
  let version_data :=
    [("version", "v" +:+ version); ("date", utcnow_isoformat E)] in
  let version_path := state_path </> "version.json" in
  path_write_text version_path
    (Json.dumps_str_dict version_data +:+ String "010" EmptyString).

End WithEnv.
End TranspilerInstaller.

(** ** Processes and the working directory *)

Definition os_getcwd : M Path := fun w => (Ok (cwd w), w).

Definition os_chdir (p : Path) : M unit := fun w =>
  match FS.resolve p (fs w) with
  | inl e => (Raise e, w)
  | inr (File _) => (Raise NotADirectoryError, w)
  | inr (Dir _) => (Ok tt, mkWorld (fs w) p (trace w))
  end.

(** [subprocess.run(args, shell=shell, cwd=at_dir, check=check)]: the
    return code; [CalledProcessError] on a non-zero code under [check]. *)
Definition run (E : Env) (args : list string) (shell : bool)
    (at_dir : option Path) (check : bool) : M Z := fun w =>
  let dir := default (cwd w) at_dir in
  let '(r, n') := subprocess_run E args shell dir (fs w) in
  let w' := mkWorld n' (cwd w) (trace w ++ [EvRun args shell dir]) in
  match r with
  | inl e => (Raise e, w')
  | inr returncode =>
      if check && negb (returncode =? 0)%Z then (Raise CalledProcessError, w')
      else (Ok returncode, w')
  end.

(** [str(p)] for a relative path. *)
Definition rel_path_str (E : Env) (p : Path) : string :=
  String.concat (if win32 E then "\" else "/") p.

(** ** [class PypiInstaller] *)

Module PypiInstaller.
Import TranspilerInstaller.
Section WithEnv.
Context (E : Env).

(** The result is declared [str | None]: a reply whose [info.version] is
    neither a string nor null leaves the declared types, and one whose
    [info.version] is a wide string leaves the strings of the model; such
    a run ends in [IllTyped], which is not a Python exception. *)
Definition get_pypi_artifact_version (product_name : string) : M (option string) :=
  try_except
    (emit (EvUrlopen ("https://pypi.org/pypi/" +:+ product_name +:+ "/json"));;
     text ← lift (urlopen E ("https://pypi.org/pypi/" +:+ product_name +:+ "/json"));
     data ← json_loads text;
     info ← py_get data "info" (JObject []);
     version ← py_get info "version" JNull;
     match version with
     | JNull => mret None
     | JString (Plain v) => mret (Some v)
     | _ => raise IllTyped
     end)
    [CHTTPError]
    (fun _ =>
       logger.error ("Error while fetching PyPI metadata: " +:+ product_name);;
       mret None).

Definition _locate_site_packages_windows (_venv : Path) : M Path :=
  let packages := _venv </> "Lib" </> "site-packages" in
  found ← path_exists packages;
  if found : bool then mret packages else raise ValueError.

Fixpoint _first_site_packages (lib : Path) (dirs : list string) : M Path :=
  match dirs with
  | [] => raise ValueError
  | dir_ :: dirs' =>
      if startswith dir_ "python" then
        let packages := lib </> dir_ </> "site-packages" in
        found ← path_exists packages;
        if found : bool then mret packages else _first_site_packages lib dirs'
      else _first_site_packages lib dirs'
  end.

Definition _locate_site_packages_linux_or_macos (_venv : Path) : M Path :=
  let lib := _venv </> "lib" in
  dirs ← os_listdir lib;
  _first_site_packages lib dirs.

Definition _locate_site_packages (_venv : Path) : M Path :=
  if win32 E then _locate_site_packages_windows _venv
  else _locate_site_packages_linux_or_macos _venv.

(** Returns [(self._venv, self._site_packages)]. *)
Definition _create_venv (_install_path : Path) : M (Path * Path) :=
  let _venv := _install_path </> ".venv" in
  cwd0 ← os_getcwd;
  try_finally
    (os_chdir _install_path;;
     run E [sys_executable E +:+ " -m venv .venv"] true None true;;
     _site_packages ← _locate_site_packages _venv;
     mret (_venv, _site_packages))
    (os_chdir cwd0).

Definition _locate_pip (_venv : Path) : Path :=
  if win32 E then _venv </> "Scripts" </> "pip3.exe" else _venv </> "bin" </> "pip3".

Definition _install_from_pip (_pypi_name : string)
    (_install_path _venv _site_packages : Path) : M unit :=
  let pip := _locate_pip _venv in
  cwd0 ← os_getcwd;
  try_finally
    (os_chdir _install_path;;
     pip' ← lift (relative_to pip _install_path);
     target ← lift (relative_to _site_packages _install_path);
     let args :=
       [rel_path_str E pip'; "install"; _pypi_name; "-t"; rel_path_str E target] in
     returncode ← run E args false None false;
     if (returncode =? 0)%Z then mret tt else raise CalledProcessError)
    (os_chdir cwd0).

Definition _copy_lsp_resources (_install_path _site_packages : Path) : M unit :=
  let lsp := _site_packages </> "lsp" in
  found ← path_exists lsp;
  if negb found then raise ValueError
  else shutil_copytree lsp _install_path.

Definition _run_custom_installer (_install_path installer : Path) : M unit :=
  run E [path_str installer] false (Some _install_path) true;; mret tt.

Definition _post_install (_product_path _install_path : Path) (version : string)
  : M (option Path) :=
  let config := _install_path </> "config.yml" in
  found ← path_exists config;
  if negb found then raise ValueError
  else
    let install_ext := if win32 E then "ps1" else "sh" in
    let install_script := "installer." +:+ install_ext in
    let installer := _install_path </> install_script in
    has_installer ← path_exists installer;
    (if has_installer : bool then _run_custom_installer _install_path installer
     else mret tt);;
    _store_product_state E _product_path version;;
    mret (Some _install_path).

Definition _unsafe_install_latest_version (_pypi_name : string)
    (_product_path _install_path : Path) (version : string) : M (option Path) :=
  '(_venv, _site_packages) ← _create_venv _install_path;
  _install_from_pip _pypi_name _install_path _venv _site_packages;;
  _copy_lsp_resources _install_path _site_packages;;
  _post_install _product_path _install_path version.

Definition _install_latest_version (_product_name _pypi_name version : string)
  : M (option Path) :=
  logger.info ("Installing Databricks " +:+ _product_name +:+ " transpiler v" +:+ version);;
  let _product_path := transpilers_path E </> _product_name in
  let backup_path := path_append_str _product_path "-saved" in
  had_product ← path_exists _product_path;
  (if had_product : bool then os_rename (win32 E) _product_path backup_path else mret tt);;
  path_mkdir_parents _product_path;;
  let _install_path := _product_path </> "lib" in
  path_mkdir _install_path;;
  try_except
    (result ← _unsafe_install_latest_version _pypi_name _product_path _install_path version;
     logger.info ("Successfully installed " +:+ _pypi_name +:+ " v" +:+ version);;
     has_backup ← path_exists backup_path;
     (if has_backup : bool then rmtree backup_path else mret tt);;
     mret result)
    [CCalledProcessError; CValueError]
    (fun _ =>
       logger.error ("Failed to install " +:+ _pypi_name +:+ " v" +:+ version);;
       rmtree _product_path;;
       has_backup ← path_exists backup_path;
       (if has_backup : bool then os_rename (win32 E) backup_path _product_path
        else mret tt);;
       mret None).

Definition _install_checking_versions (_product_name _pypi_name : string)
  : M (option Path) :=
  latest_version ← get_pypi_artifact_version _pypi_name;
  match latest_version with
  | None =>
      logger.warning ("Could not determine the latest version of " +:+ _pypi_name);;
      logger.error ("Failed to install transpiler: " +:+ _product_name);;
      mret None
  | Some latest =>
      installed_version ← get_installed_version E _product_name true;
      if bool_decide (installed_version = Some latest) then
        logger.info (_pypi_name +:+ " v" +:+ latest +:+ " already installed");;
        mret None
      else _install_latest_version _product_name _pypi_name latest
  end.

Definition install (_product_name _pypi_name : string) : M (option Path) :=
  _install_checking_versions _product_name _pypi_name.

End WithEnv.
End PypiInstaller.

(** ** [class MavenInstaller] *)

Module MavenInstaller.
Import TranspilerInstaller.
Section WithEnv.
Context (E : Env).

Definition _maven_central_repo : string := "https://repo.maven.apache.org/maven2/".

Definition _artifact_base_url (group_id artifact_id : string) : string :=
  let group_path := replace_char "." "/" group_id in
  _maven_central_repo +:+ group_path +:+ "/" +:+ artifact_id +:+ "/".

Definition artifact_metadata_url (group_id artifact_id : string) : string :=
  _artifact_base_url group_id artifact_id +:+ "maven-metadata.xml".

Definition artifact_url (group_id artifact_id version : string)
    (classifier : option string) (extension : string) : string :=
  let _classifier :=
    match classifier with
    | Some c => if String.eqb c EmptyString then EmptyString else "-" +:+ c
    | None => EmptyString
    end in
  let artifact_base_url := _artifact_base_url group_id artifact_id in
  artifact_base_url +:+ version +:+ "/" +:+ artifact_id +:+ "-" +:+ version
    +:+ _classifier +:+ "." +:+ extension.

(** The three paths of [_extract_latest_release_version], compiled:
    [./versioning/<label>] and [./versioning/versions/version[last()]]. *)
Definition label_path (label : string) : list ET.step :=
  [ET.Self; ET.Child "versioning"; ET.Child label].

Definition last_version_path : list ET.step :=
  [ET.Self; ET.Child "versioning"; ET.Child "versions"; ET.Child "version"; ET.Last].

(** The [for label in ("release", "latest")] loop. *)
Fixpoint _first_label (root : element) (labels : list string) : option string :=
  match labels with
  | [] => None
  | label :: labels' =>
      match ET.findtext root (label_path label) with
      | Some version => Some version
      | None => _first_label root labels'
      end
  end.

Definition _extract_latest_release_version (maven_metadata : string)
  : M (option string) :=
  match ET_fromstring E maven_metadata with
  | None => raise ParseError
  | Some root =>
      match _first_label root ["release"; "latest"] with
      | Some version => mret (Some version)
      | None => mret (ET.findtext root last_version_path)
      end
  end.

Definition get_current_maven_artifact_version (group_id artifact_id : string)
  : M (option string) :=
  let url := artifact_metadata_url group_id artifact_id in
  fetched ←
    try_except
      (emit (EvUrlopen url);; text ← lift (urlopen E url); mret (Some text))
      [CHTTPError]
      (fun _ =>
         logger.error ("Error while fetching maven metadata: " +:+ group_id
                         +:+ ":" +:+ artifact_id);;
         mret None);
  match fetched with
  | None => mret None
  | Some text =>
      logger.debug ("Maven metadata for " +:+ group_id +:+ ":" +:+ artifact_id
                      +:+ ": " +:+ text);;
      _extract_latest_release_version text
  end.

Definition download_artifact_from_maven (group_id artifact_id version : string)
    (target : Path) (classifier : option string) (extension : string) : M bool :=
  found ← path_exists target;
  if found : bool then
    logger.warning ("Skipping download of " +:+ group_id +:+ ":" +:+ artifact_id
                      +:+ ":" +:+ version +:+ "; target already exists: "
                      +:+ path_str target);;
    mret true
  else
    let url := artifact_url group_id artifact_id version classifier extension in
    fetched ←
      try_except
        (emit (EvUrlretrieve url);;
         body ← lift (urlretrieve E url);
         logger.debug ("Downloaded maven artefact from " +:+ url);;
         mret (Some body))
        [CURLError]
        (fun _ =>
           logger.error ("Unable to download maven artefact: " +:+ group_id
                           +:+ ":" +:+ artifact_id +:+ ":" +:+ version);;
           mret None);
    match fetched with
    | None => mret false
    | Some body =>
        logger.debug ("Moving to " +:+ path_str target);;
        fs_update (FSOps.move_fetched (tmp_name E) body target);;
        logger.info ("Successfully installed: " +:+ group_id +:+ ":" +:+ artifact_id
                       +:+ ":" +:+ version);;
        mret true
    end.

(** [ZipFile(jar).extract("lsp/config.yml", install_path)], then the move
    of the extracted file to [install_path / "config.yml"] and the removal
    of the emptied [lsp] directory. *)
Definition _copy_lsp_config (_install_path jar_file_path : Path) : M unit :=
  bytes ← path_read_text jar_file_path;
  match ZipFile_members E bytes with
  | None => raise BadZipFile
  | Some members =>
      match members !! "lsp/config.yml" with
      | None => raise KeyError
      | Some content =>
          has_lsp ← path_exists (_install_path </> "lsp");
          (if has_lsp : bool then mret tt
           else path_mkdir (_install_path </> "lsp"));;
          path_write_text (_install_path </> "lsp" </> "config.yml") content;;
          shutil_move (win32 E) (_install_path </> "lsp" </> "config.yml")
            (_install_path </> "config.yml");;
          os_rmdir (_install_path </> "lsp")
      end
  end.

Definition _unsafe_install_version (_product_name _group_id _artifact_id : string)
    (_install_path : Path) (version : string) : M bool :=
  let jar_file_path := _install_path </> (_artifact_id +:+ ".jar") in
  success ←
    download_artifact_from_maven _group_id _artifact_id version jar_file_path
      None "jar";
  if negb success then
    logger.error ("Failed to install Databricks " +:+ _product_name
                    +:+ " transpiler v" +:+ version);;
    mret false
  else
    _copy_lsp_config _install_path jar_file_path;;
    mret true.

Definition _install_version (_product_name _group_id _artifact_id version : string)
  : M (option Path) :=
  logger.info ("Installing Databricks " +:+ _product_name +:+ " transpiler v" +:+ version);;
  let _product_path := transpilers_path E </> _product_name in
  let backup_path := path_append_str _product_path "-saved" in
  stale ← path_exists backup_path;
  (if stale : bool then rmtree backup_path else mret tt);;
  had_product ← path_exists _product_path;
  (if had_product : bool then os_rename (win32 E) _product_path backup_path else mret tt);;
  path_mkdir_parents _product_path;;
  let _install_path := _product_path </> "lib" in
  path_mkdir _install_path;;
  returned ←
    try_except
      (ok ← _unsafe_install_version _product_name _group_id _artifact_id
              _install_path version;
       if ok : bool then
         logger.info ("Successfully installed " +:+ _product_name +:+ " v" +:+ version);;
         _store_product_state E _product_path version;;
         has_backup ← path_exists backup_path;
         (if has_backup : bool then rmtree backup_path else mret tt);;
         mret (Some _product_path)
       else mret None)
      [CKeyError; CValueError]
      (fun _ =>
         logger.error ("Failed to install " +:+ _product_name +:+ " v" +:+ version);;
         mret None);
  match returned with
  | Some p => mret (Some p)
  | None =>
      rmtree _product_path;;
      has_backup ← path_exists backup_path;
      (if has_backup : bool then os_rename (win32 E) backup_path _product_path
       else mret tt);;
      mret None
  end.

Definition _install_checking_versions (_product_name _group_id _artifact_id : string)
  : M (option Path) :=
  latest_version ← get_current_maven_artifact_version _group_id _artifact_id;
  match latest_version with
  | None =>
      logger.warning ("Could not determine the latest version of Databricks "
                        +:+ _product_name +:+ " transpiler");;
      logger.error "Failed to install transpiler: Databricks {self._product_name} transpiler";;
      mret None
  | Some latest =>
      installed_version ← get_installed_version E _product_name true;
      if bool_decide (installed_version = Some latest) then
        logger.info ("Databricks " +:+ _product_name +:+ " transpiler v" +:+ latest
                       +:+ " already installed");;
        mret None
      else _install_version _product_name _group_id _artifact_id latest
  end.

Definition install (_product_name _group_id _artifact_id : string) : M (option Path) :=
  _install_checking_versions _product_name _group_id _artifact_id.

End WithEnv.
End MavenInstaller.

(** * Properties *)

(** ** JSON: what [dump] writes, [loads] reads back *)

#[local] Arguments String.append !s1 s2 : simpl nomatch.

Module JsonFacts.
Import Json.

Lemma append_assoc (a b c : string) : (a +:+ b) +:+ c = a +:+ (b +:+ c).
Proof. induction a as [|x a IH]; cbn; [reflexivity | now rewrite IH]. Qed.

Lemma append_String (x : ascii) (a b : string) :
  String x a +:+ b = String x (a +:+ b).
Proof. reflexivity. Qed.

Definition scan_more (c : ascii) (s : string) : option (pystr * string) :=
  '(t, r) ← scanstring s; Some (cons_char c t, r).

(** The three ways [scanstring] takes one character in. *)
Lemma scan_plain (c : ascii) (s : string) :
  Ascii.eqb c DQ = false -> Ascii.eqb c BS = false -> (code c <? 32)%N = false ->
  scanstring (String c s) = scan_more c s.
Proof. intros H1 H2 H3. cbn [scanstring]. now rewrite H1, H2, H3. Qed.

Lemma scan_short (e ch : ascii) (s : string) :
  Ascii.eqb e "u" = false -> unescape e = Some ch ->
  scanstring (String BS (String e s)) = scan_more ch s.
Proof.
  intros H1 H2. cbn [scanstring].
  change (Ascii.eqb BS DQ) with false. change (Ascii.eqb BS BS) with true.
  cbv iota. now rewrite H1, H2.
Qed.

Lemma scan_u (h1 h2 h3 h4 : ascii) (n : N) (s : string) :
  hex4 h1 h2 h3 h4 = Some n -> (n <? 256)%N = true ->
  scanstring (String BS (String "u" (String h1 (String h2 (String h3 (String h4 s))))))
  = scan_more (ascii_of_N n) s.
Proof.
  intros H1 H2. cbn [scanstring].
  change (Ascii.eqb BS DQ) with false. change (Ascii.eqb BS BS) with true.
  change (Ascii.eqb "u" "u") with true.
  cbv iota. rewrite H1. unfold scan_more.
  destruct (scanstring s) as [[t r]|]; [|reflexivity].
  cbn [mbind option_bind]. now rewrite H2.
Qed.

(** One escaped character is read back as that character. *)
Lemma scanstring_escape_char (c : ascii) (tail t r : string) :
  scanstring tail = Some (Plain t, r) ->
  scanstring (escape_char c +:+ tail) = Some (Plain (String c t), r).
Proof.
  intros H.
  assert (Hm : forall ch, scan_more ch tail = Some (Plain (String ch t), r))
    by (intros ch; unfold scan_more; now rewrite H).
  destruct c as [[] [] [] [] [] [] [] []];
    match goal with
    | |- scanstring (escape_char ?C +:+ _) = _ =>
        let e := eval vm_compute in (escape_char C) in
        change (escape_char C) with e; cbn [String.append];
        first
          [ rewrite scan_plain by reflexivity
          | rewrite (scan_short _ C) by reflexivity
          | rewrite (scan_u _ _ _ _ (N_of_ascii C)) by reflexivity ];
        apply Hm
    end.
Qed.

Lemma scanstring_escape (s rest : string) :
  scanstring (escape s +:+ String DQ rest) = Some (Plain s, rest).
Proof.
  induction s as [|c s IH]; [reflexivity|].
  cbn [escape]. rewrite append_assoc. now apply scanstring_escape_char.
Qed.

Lemma scanstring_encode (s rest : string) :
  scanstring (escape s +:+ String DQ EmptyString +:+ rest) = Some (Plain s, rest).
Proof. apply scanstring_escape. Qed.

Lemma skip_ws_stop (c : ascii) (s : string) :
  is_ws c = false -> skip_ws (String c s) = String c s.
Proof. intros H. cbn [skip_ws]. now rewrite H. Qed.

Lemma skip_ws_step (c : ascii) (s : string) :
  is_ws c = true -> skip_ws (String c s) = skip_ws s.
Proof. intros H. cbn [skip_ws]. now rewrite H. Qed.

Lemma starts_here (c c' : ascii) (s : string) :
  Ascii.eqb c' c = true -> starts c (String c' s) = Some s.
Proof. intros H. cbn [starts]. now rewrite H. Qed.

Lemma starts_not (c c' : ascii) (s : string) :
  Ascii.eqb c' c = false -> starts c (String c' s) = None.
Proof. intros H. cbn [starts]. now rewrite H. Qed.

Lemma parse_value_string (fuel : nat) (s rest : string) :
  parse_value (S fuel) (String DQ (escape s +:+ String DQ rest))
  = inr (JString (Plain s), rest).
Proof.
  cbn [parse_value]. change (Ascii.eqb DQ DQ) with true. cbv iota.
  now rewrite scanstring_escape.
Qed.

(** A [dict] of two strings, as [dump] writes it. *)
Definition two_members (k1 v1 k2 v2 rest : string) : string :=
  String DQ (escape k1 +:+ String DQ (": " +:+
  String DQ (escape v1 +:+ String DQ (", " +:+
  String DQ (escape k2 +:+ String DQ (": " +:+
  String DQ (escape v2 +:+ String DQ ("}" +:+ rest)))))))).

Lemma dumps_two (k1 v1 k2 v2 rest : string) :
  dumps_str_dict [(k1, v1); (k2, v2)] +:+ rest
  = String "{" (two_members k1 v1 k2 v2 rest).
Proof.
  unfold dumps_str_dict, two_members, encode_string. cbn.
  repeat (rewrite !append_assoc; cbn). reflexivity.
Qed.

Ltac json_step :=
  first
    [ rewrite skip_ws_stop by reflexivity
    | rewrite skip_ws_step by reflexivity
    | rewrite starts_here by reflexivity
    | rewrite starts_not by reflexivity
    | rewrite parse_value_string
    | rewrite scanstring_escape
    | progress cbn [mbind mret option_bind result_bind result_ret matched String.append]
    | progress cbv beta iota zeta ].

Lemma parse_members_two (fuel : nat) (k1 v1 k2 v2 rest : string) :
  parse_members (S (S (S fuel))) (two_members k1 v1 k2 v2 rest)
  = inr ([(Plain k1, JString (Plain v1)); (Plain k2, JString (Plain v2))], rest).
Proof.
  unfold two_members. cbn [parse_members]. repeat json_step. reflexivity.
Qed.

Lemma length_append_String (a b : string) (c : ascii) :
  String.length (a +:+ String c b) = S (String.length (a +:+ b)).
Proof. induction a as [|x a IH]; cbn; [reflexivity | now rewrite IH]. Qed.

(** The round trip of a two-field record through [dump] and [loads]. *)
Lemma loads_two (k1 v1 k2 v2 : string) :
  loads (dumps_str_dict [(k1, v1); (k2, v2)] +:+ String "010" EmptyString)
  = inr (JObject [(Plain k1, JString (Plain v1)); (Plain k2, JString (Plain v2))]).
Proof.
  rewrite dumps_two. unfold loads.
  rewrite skip_ws_stop by reflexivity.
  assert (Hlen : exists n,
    String.length (String "{" (two_members k1 v1 k2 v2 (String "010" EmptyString)))
    = S (S (S n))).
  { unfold two_members. cbn [String.length]. rewrite length_append_String.
    eexists. reflexivity. }
  destruct Hlen as [n ->].
  cbn [parse_value]. change (Ascii.eqb "{" DQ) with false.
  change (Ascii.eqb "{" "{") with true. cbv iota zeta.
  unfold two_members at 1 2. rewrite skip_ws_stop by reflexivity.
  rewrite starts_not by reflexivity.
  fold (two_members k1 v1 k2 v2 (String "010" EmptyString)).
  rewrite parse_members_two. cbn [mbind mret result_bind result_ret].
  rewrite skip_ws_step by reflexivity. reflexivity.
Qed.

(** What the reader raises: [JSONDecodeError], or the [ValueError] of an
    integer literal that is too long. *)
Definition reader_error (e : exn) : Prop := e = JSONDecodeError \/ e = ValueError.

Lemma matched_error {A} (o : option A) (e : exn) :
  matched o = inl e -> reader_error e.
Proof. destruct o; [discriminate|]. intros [= <-]. now left. Qed.

Lemma scan_number_error (s : string) (e : exn) :
  scan_number s = Some (inl e) -> e = ValueError.
Proof.
  unfold scan_number.
  destruct (match s with String "-" t => (true, t) | _ => (false, s) end) as [neg s1].
  destruct (scan_integer_part s1) as [[ip s2]|]; [|discriminate].
  cbn [mbind option_bind]. destruct (scan_frac s2) as [fp s3].
  destruct (scan_exp s3) as [ep s4].
  destruct fp; [destruct ep|]; try discriminate.
  destruct (max_str_digits <? String.length ip)%nat; [|discriminate].
  now intros [= <-].
Qed.

Ltac reader_head H :=
  lazymatch type of H with
  | inl _ = inl _ => injection H as <-
  | inr _ = inl _ => discriminate H
  | mret _ = inl _ => discriminate H
  | (if ?b then _ else _) = inl _ => destruct b
  | match starts ?c ?s with _ => _ end = inl _ => destruct (starts c s)
  | match scan_number ?s with _ => _ end = inl _ =>
      let Hn := fresh "Hn" in
      destruct (scan_number s) as [?|] eqn:Hn;
      [subst; right; exact (scan_number_error _ _ Hn)|]
  | mbind _ ?r = inl _ =>
      let Hr := fresh "Hr" in
      let v := fresh "v" in
      destruct r as [?|v] eqn:Hr; cbn [mbind result_bind] in H;
      [|try destruct v; cbv beta iota zeta in H]
  end.

Lemma parse_error (fuel : nat) :
  (forall s e, parse_value fuel s = inl e -> reader_error e)
  /\ (forall s e, parse_members fuel s = inl e -> reader_error e)
  /\ (forall s e, parse_elements fuel s = inl e -> reader_error e).
Proof.
  induction fuel as [|fuel (IHv & IHm & IHe)].
  - repeat split; intros s e [= <-]; now left.
  - repeat split; intros s e H.
    + cbn [parse_value] in H. destruct s as [|c s']; [injection H as <-; now left|].
      cbv zeta in H.
      repeat reader_head H;
        first [ now left
              | eapply matched_error; eassumption
              | eapply IHm; eassumption
              | eapply IHe; eassumption ].
    + cbn [parse_members] in H. cbv zeta in H.
      repeat reader_head H;
        first [ now left
              | eapply matched_error; eassumption
              | eapply IHv; eassumption
              | eapply IHm; eassumption ].
    + cbn [parse_elements] in H. cbv zeta in H.
      repeat reader_head H;
        first [ now left
              | eapply matched_error; eassumption
              | eapply IHv; eassumption
              | eapply IHe; eassumption ].
Qed.

Lemma loads_error (text : string) (e : exn) :
  loads text = inl e -> reader_error e.
Proof.
  unfold loads. intros H.
  destruct (parse_value (S (String.length text)) (skip_ws text)) as [e'|[j r]] eqn:Hp;
    cbn [mbind result_bind] in H.
  - injection H as <-. exact (proj1 (parse_error _) _ _ Hp).
  - destruct (skip_ws r); [discriminate|]. injection H as <-. now left.
Qed.

End JsonFacts.

(** ** The file-system tree *)

Module FSFacts.
Import FS.

Lemma resolve_app (p q : Path) (n : node) :
  resolve (p ++ q) n =
  match resolve p n with
  | inr c => resolve q c
  | inl e => inl e
  end.
Proof.
  revert n. induction p as [|x p IH]; intros n; [reflexivity|].
  cbn [app resolve]. destruct n as [s|m]; [reflexivity|].
  destruct (m !! x); [apply IH | reflexivity].
Qed.

Lemma resolve_snoc (p : Path) (x : string) (n : node) :
  resolve (p </> x) n =
  match resolve p n with
  | inr (Dir m) =>
      match m !! x with
      | Some c => inr c
      | None => inl FileNotFoundError
      end
  | inr (File _) => inl NotADirectoryError
  | inl e => inl e
  end.
Proof.
  unfold path_div. rewrite resolve_app.
  destruct (resolve p n) as [e|[s|m]]; reflexivity.
Qed.

Lemma split_last_snoc (p : Path) (x : string) : split_last (p </> x) = Some (p, x).
Proof.
  unfold path_div. induction p as [|y p IH]; [reflexivity|].
  cbn [app split_last]. rewrite IH. now destruct (p ++ [x]) eqn:Hp; [destruct p|].
Qed.

Lemma parent_entries_snoc (p : Path) (x : string) (n : node) :
  parent_entries (p </> x) n =
  match resolve p n with
  | inl e => inl e
  | inr (File _) => inl NotADirectoryError
  | inr (Dir m) => inr (m, x)
  end.
Proof. unfold parent_entries. now rewrite split_last_snoc. Qed.

(** Writing below [p] is writing into the node at [p]. *)
Lemma put_app (p q : Path) (o : option node) (n c : node) :
  resolve p n = inr c -> q <> [] ->
  put (p ++ q) o n = put p (Some (put q o c)) n.
Proof.
  revert n. induction p as [|x p IH]; intros n Hr Hq.
  - cbn in *. now inversion Hr.
  - cbn [resolve] in Hr. destruct n as [s|m]; [discriminate|].
    destruct (m !! x) as [d|] eqn:Hx; [|discriminate].
    cbn [app put]. rewrite Hx.
    destruct p as [|y p].
    + cbn in Hr. inversion Hr; subst d. cbn [app].
      destruct q as [|z q]; [contradiction|]. reflexivity.
    + cbn [app]. rewrite <- (IH d Hr Hq). reflexivity.
Qed.

Lemma put_snoc (p : Path) (x : string) (o : option node) (n : node)
    (m : gmap string node) :
  resolve p n = inr (Dir m) ->
  put (p </> x) o n =
  put p (Some (Dir (match o with Some c => <[x:=c]> m | None => delete x m end))) n.
Proof. intros Hr. unfold path_div. now rewrite (put_app p [x] o n (Dir m)). Qed.

Lemma put_cons2 (x y : string) (p : Path) (o : option node) (m : gmap string node) :
  put (x :: y :: p) o (Dir m) =
  match m !! x with
  | Some c => Dir (<[x:=put (y :: p) o c]> m)
  | None => Dir m
  end.
Proof. reflexivity. Qed.

Lemma resolve_put (p : Path) (n c c' : node) :
  resolve p n = inr c -> resolve p (put p (Some c') n) = inr c'.
Proof.
  revert n. induction p as [|x p IH]; intros n Hr; [reflexivity|].
  cbn [resolve] in Hr. destruct n as [s|m]; [discriminate|].
  destruct (m !! x) as [d|] eqn:Hx; [|discriminate].
  destruct p as [|y p].
  - cbn [put resolve]. now rewrite lookup_insert_eq.
  - rewrite put_cons2, Hx. cbn [resolve]. rewrite lookup_insert_eq. now apply IH.
Qed.

Lemma put_put (p : Path) (a b : node) (n : node) :
  put p (Some a) (put p (Some b) n) = put p (Some a) n.
Proof.
  revert n. induction p as [|x p IH]; intros n; [reflexivity|].
  destruct n as [s|m]; [reflexivity|].
  destruct p as [|y p].
  - cbn [put]. now rewrite insert_insert_eq.
  - rewrite !put_cons2. destruct (m !! x) as [d|] eqn:Hx.
    + rewrite put_cons2, lookup_insert_eq, insert_insert_eq. now rewrite IH.
    + now rewrite put_cons2, Hx.
Qed.

Lemma put_id (p : Path) (n c : node) :
  resolve p n = inr c -> put p (Some c) n = n.
Proof.
  revert n. induction p as [|x p IH]; intros n Hr.
  - cbn in *. now inversion Hr.
  - cbn [resolve] in Hr. destruct n as [s|m]; [discriminate|].
    destruct (m !! x) as [d|] eqn:Hx; [|discriminate].
    destruct p as [|y p].
    + cbn in Hr. inversion Hr; subst d. cbn [put]. now rewrite insert_id.
    + rewrite put_cons2, Hx. rewrite (IH d Hr). now rewrite insert_id.
Qed.

End FSFacts.

(** ** Running monadic code *)

Lemma bind_run {A B} (m : M A) (k : A -> M B) (w : World) :
  (m ≫= k) w =
  match m w with
  | (Ok a, w') => k a w'
  | (Raise e, w') => (Raise e, w')
  end.
Proof. reflexivity. Qed.

Lemma ret_run {A} (a : A) (w : World) : (mret a : M A) w = (Ok a, w).
Proof. reflexivity. Qed.

Lemma world_eta (w : World) : mkWorld (fs w) (cwd w) (trace w) = w.
Proof. now destruct w. Qed.

(** Unfold the monad and the calls built on it, and run what can run. *)
Ltac msimpl :=
  cbv beta iota zeta delta
    [mbind mret M_bind M_ret get_fs set_fs emit raise lift fs_update fs_read
     path_exists path_is_dir path_is_file path_mkdir path_mkdir_parents
     path_read_text path_write_text os_rename rmtree os_rmdir os_listdir
     shutil_move try_except try_finally
     logger.debug logger.info logger.warning logger.error];
  cbn [fs cwd trace].

Ltac mred := cbv beta iota; cbn [fs cwd trace fst snd negb orb andb].

(** ** Concrete worlds for the examples *)

Module Demo.

(** A host whose network is down and whose subprocesses do nothing. *)
Definition offline : Env := {|
  home := ["home"; "user"];
  win32 := false;
  sys_executable := "/usr/bin/python3";
  utcnow_isoformat := "2025-01-01T00:00:00+00:00";
  tmp_name := "tmpk3x9";
  tmp_dir := ["tmp"];
  urlopen := fun _ => inl URLError;
  urlretrieve := fun _ => inl URLError;
  subprocess_run := fun _ _ _ n => (inr 0%Z, n);
  ET_fromstring := fun _ => None;
  ZipFile_members := fun _ => None;
  LSPConfig_parse := fun _ _ => None
|}.

(** The tree holding [n] at [p] and nothing else. *)
Definition tree_at (p : Path) (n : node) : node :=
  foldr (fun x c => Dir {[x := c]}) n p.

Definition world_of (n : node) : World := mkWorld n [] [].

(** An engine directory [demo] whose version record holds [text]. *)
Definition engine_with_record (text : string) : node :=
  tree_at (TranspilerInstaller.transpilers_path offline)
    (Dir {["demo" := Dir {["lib" := Dir ∅;
                           "state" := Dir {["version.json" := File text]}]}]}).

End Demo.

(** ** Version state *)

Section VersionState.
Import TranspilerInstaller.
Context (E : Env).

Definition version_file (product_name : string) (is_transpiler : bool) : Path :=
  (if is_transpiler then transpilers_path E else labs_path E)
    </> product_name </> "state" </> "version.json".

Lemma read_text_exists (p : Path) (n : node) (text : string) :
  FSOps.read_text p n = inr text -> FS.exists_ p n = true.
Proof.
  unfold FSOps.read_text, FS.exists_, FS.lookup.
  destruct (FS.resolve p n) as [e|[c|m]]; congruence.
Qed.

(** What [get_installed_version] does with a record it can read as text. *)
Lemma get_installed_version_read (product_name : string) (is_transpiler : bool)
    (w : World) (text : string) :
  FSOps.read_text (version_file product_name is_transpiler) (fs w) = inr text ->
  get_installed_version E product_name is_transpiler w =
  match Json.loads text with
  | inl e => (Raise e, w)
  | inr (JObject members) =>
      match Json.dict_get "version" members with
      | None => (Ok None, w)
      | Some version =>
          if negb (Json.truthy version) then (Ok None, w)
          else
            match version with
            | JString s =>
                if decoded_startswith s "v" then
                  match s with
                  | Plain v => (Ok (Some (drop_first v)), w)
                  | Wide _ => (Raise IllTyped, w)
                  end
                else (Ok None, w)
            | _ => (Raise AttributeError, w)
            end
      end
  | inr _ => (Raise AttributeError, w)
  end.
Proof.
  intros Hread.
  unfold get_installed_version. fold (version_file product_name is_transpiler).
  unfold path_exists, path_read_text, fs_read, get_fs, json_loads, py_get.
  rewrite !bind_run, ret_run. rewrite (read_text_exists _ _ _ Hread). cbn [negb].
  rewrite !bind_run. rewrite Hread. cbn [lift]. rewrite ret_run.
  rewrite bind_run.
  destruct (Json.loads text) as [e|data]; cbn [lift]; [reflexivity|].
  rewrite ret_run.
  destruct data as [| | | | | |members]; try reflexivity.
  rewrite bind_run, ret_run.
  destruct (Json.dict_get "version" members) as [version|]; cbn [from_option id].
  - destruct (negb (Json.truthy version)); [reflexivity|].
    destruct version as [| | | |s| |]; try reflexivity.
    destruct (decoded_startswith s "v"); [|reflexivity]. now destruct s.
  - reflexivity.
Qed.

(** What [get_installed_version] returns on a record that [loads] reads as
    an object. *)
Lemma get_installed_version_object (product_name : string) (is_transpiler : bool)
    (w : World) (text : string) (members : list (pystr * json)) :
  FSOps.read_text (version_file product_name is_transpiler) (fs w) = inr text ->
  Json.loads text = inr (JObject members) ->
  get_installed_version E product_name is_transpiler w =
  match Json.dict_get "version" members with
  | None => (Ok None, w)
  | Some version =>
      if negb (Json.truthy version) then (Ok None, w)
      else
        match version with
        | JString s =>
            if decoded_startswith s "v" then
              match s with
              | Plain v => (Ok (Some (drop_first v)), w)
              | Wide _ => (Raise IllTyped, w)
              end
            else (Ok None, w)
        | _ => (Raise AttributeError, w)
        end
  end.
Proof.
  intros Hread Hloads.
  now rewrite (get_installed_version_read _ _ _ _ Hread), Hloads.
Qed.

End VersionState.

Section VersionStateClaims.
Import TranspilerInstaller.
Context (E : Env).


(** The text [_store_product_state] writes. *)
Definition record_text (version : string) : string :=
  Json.dumps_str_dict [("version", "v" +:+ version); ("date", utcnow_isoformat E)]
    +:+ String "010" EmptyString.

Lemma store_product_state_run (product_path : Path) (version : string) (w : World)
    (m : gmap string node) :
  FS.resolve product_path (fs w) = inr (Dir m) ->
  m !! "state" = None ->
  _store_product_state E product_path version w =
  (Ok tt,
   mkWorld
     (FS.put product_path
        (Some (Dir (<["state" := Dir {["version.json" := File (record_text version)]}]> m)))
        (fs w))
     (cwd w) (trace w)).
Proof.
  intros Hr Hm. unfold _store_product_state, path_mkdir, path_write_text, fs_update,
    get_fs, set_fs, FSOps.write_text.
  rewrite !bind_run. cbn [fs cwd trace].
  rewrite FSFacts.parent_entries_snoc, Hr. cbn [lift]. rewrite ret_run, Hm.
  cbn [fs cwd trace]. rewrite !bind_run. cbn [fs cwd trace].
  rewrite (FSFacts.put_snoc _ _ _ _ _ Hr).
  set (m1 := <["state" := Dir ∅]> m).
  assert (Hr1 : FS.resolve product_path (FS.put product_path (Some (Dir m1)) (fs w))
                = inr (Dir m1)) by (eapply FSFacts.resolve_put; eassumption).
  assert (Hs1 : FS.resolve (product_path </> "state")
                  (FS.put product_path (Some (Dir m1)) (fs w)) = inr (Dir ∅)).
  { rewrite FSFacts.resolve_snoc, Hr1. unfold m1. now rewrite lookup_insert_eq. }
  rewrite FSFacts.parent_entries_snoc, Hs1. cbn [lift]. rewrite lookup_empty.
  cbn [lift]. rewrite ret_run. cbn [fs cwd trace].
  rewrite (FSFacts.put_snoc _ _ _ _ _ Hs1), (FSFacts.put_snoc _ _ _ _ _ Hr1).
  rewrite FSFacts.put_put. unfold m1. rewrite insert_insert_eq.
  reflexivity.
Qed.

Lemma store_product_state_inv (product_path : Path) (version : string) (w w' : World) :
  _store_product_state E product_path version w = (Ok tt, w') ->
  exists m, FS.resolve product_path (fs w) = inr (Dir m) /\ m !! "state" = None.
Proof.
  unfold _store_product_state, path_mkdir, get_fs.
  rewrite !bind_run. cbn [fs cwd trace].
  rewrite FSFacts.parent_entries_snoc.
  destruct (FS.resolve product_path (fs w)) as [e|[s|m]]; cbn [lift]; try discriminate.
  rewrite ret_run. destruct (m !! "state") eqn:Hm; [discriminate|].
  intros _. now exists m.
Qed.

Lemma get_after_store (product_name version : string) (w : World)
    (m : gmap string node) :
  FS.resolve (transpilers_path E </> product_name) (fs w) = inr (Dir m) ->
  let w' :=
    mkWorld
      (FS.put (transpilers_path E </> product_name)
         (Some (Dir (<["state" := Dir {["version.json" := File (record_text version)]}]> m)))
         (fs w))
      (cwd w) (trace w) in
  get_installed_version E product_name true w' = (Ok (Some version), w').
Proof.
  intros Hr w'.
  assert (Hread : FSOps.read_text (version_file E product_name true) (fs w')
                  = inr (record_text version)).
  { unfold FSOps.read_text, version_file. cbv iota.
    do 2 rewrite FSFacts.resolve_snoc.
    unfold w'. cbn [fs]. rewrite (FSFacts.resolve_put _ _ _ _ Hr).
    rewrite lookup_insert_eq, lookup_singleton_eq. reflexivity. }
  rewrite (get_installed_version_object E product_name true w' _ _ Hread
             (JsonFacts.loads_two _ _ _ _)).
  reflexivity.
Qed.

(** C6.  After [_store_product_state] has written the record of [version]
    for a product whose state directory did not exist,
    [get_installed_version] returns exactly [version]. *)
Theorem version_state_round_trip (product_name version : string) (w w' : World) :
  FS.exists_ (transpilers_path E </> product_name </> "state") (fs w) = false ->
  _store_product_state E (transpilers_path E </> product_name) version w = (Ok tt, w') ->
  get_installed_version E product_name true w' = (Ok (Some version), w').
Proof.
  intros _ Hstore.
  destruct (store_product_state_inv _ _ _ _ Hstore) as (m & Hr & Hm).
  rewrite (store_product_state_run _ version w m Hr Hm) in Hstore.
  inversion Hstore; subst w'. now apply get_after_store.
Qed.

(** The write of C6 goes through whenever the product directory exists and
    has no [state] entry. *)
Lemma store_product_state_succeeds (product_name version : string) (w : World) :
  FS.is_dir (transpilers_path E </> product_name) (fs w) = true ->
  FS.exists_ (transpilers_path E </> product_name </> "state") (fs w) = false ->
  exists w', _store_product_state E (transpilers_path E </> product_name) version w
             = (Ok tt, w').
Proof.
  unfold FS.is_dir, FS.exists_, FS.lookup.
  rewrite (FSFacts.resolve_snoc (transpilers_path E </> product_name) "state").
  destruct (FS.resolve (transpilers_path E </> product_name) (fs w)) as [e|[s|m]] eqn:Hr;
    intros Hdir Hst; try discriminate Hdir.
  destruct (m !! "state") eqn:Hm; [discriminate Hst|].
  eexists. eapply store_product_state_run; eassumption.
Qed.

End VersionStateClaims.

Module VersionStateExamples.
Import TranspilerInstaller Demo.







(** A freshly prepared engine directory: [lib] and no [state]. *)
Definition engine_without_state : node :=
  tree_at (transpilers_path offline) (Dir {["demo" := Dir {["lib" := Dir ∅]}]}).

Lemma version_state_round_trip_witness :
  exists w',
    _store_product_state offline (transpilers_path offline </> "demo") "1.2.3"
      (world_of engine_without_state) = (Ok tt, w')
    /\ get_installed_version offline "demo" true w' = (Ok (Some "1.2.3"), w').
Proof.
  eexists. split; [vm_compute; reflexivity|].
  eapply (version_state_round_trip offline "demo" "1.2.3" (world_of engine_without_state)).
  - vm_compute. reflexivity.
  - vm_compute. reflexivity.
Defined.

End VersionStateExamples.

(** ** Registry lookups *)

Section PypiLookup.
Import PypiInstaller.
Context (E : Env).

Definition pypi_url (product_name : string) : string :=
  "https://pypi.org/pypi/" +:+ product_name +:+ "/json".

Definition pypi_lookup_failed (product_name : string) (w : World) : World :=
  mkWorld (fs w) (cwd w)
    (trace w ++ [EvUrlopen (pypi_url product_name);
                 EvLog ERROR ("Error while fetching PyPI metadata: " +:+ product_name)]).

Lemma app_snoc_snoc {A} (l : list A) (a b : A) : (l ++ [a]) ++ [b] = l ++ [a; b].
Proof. now rewrite <- app_assoc. Qed.

(** What the lookup does, by the reply of the registry. *)
Lemma get_pypi_artifact_version_run (product_name : string) (w : World) :
  get_pypi_artifact_version E product_name w =
  let w1 := mkWorld (fs w) (cwd w) (trace w ++ [EvUrlopen (pypi_url product_name)]) in
  match urlopen E (pypi_url product_name) with
  | inl e =>
      if isinstance e CHTTPError then (Ok None, pypi_lookup_failed product_name w)
      else (Raise e, w1)
  | inr text =>
      match Json.loads text with
      | inl e => (Raise e, w1)
      | inr (JObject members) =>
          match default (JObject []) (Json.dict_get "info" members) with
          | JObject info =>
              match default JNull (Json.dict_get "version" info) with
              | JNull => (Ok None, w1)
              | JString (Plain v) => (Ok (Some v), w1)
              | _ => (Raise IllTyped, w1)
              end
          | _ => (Raise AttributeError, w1)
          end
      | inr _ => (Raise AttributeError, w1)
      end
  end.
Proof.
  unfold get_pypi_artifact_version, try_except. fold (pypi_url product_name).
  unfold emit, json_loads, py_get. rewrite !bind_run. cbn [fs cwd trace].
  destruct (urlopen E (pypi_url product_name)) as [e|text]; cbn [lift].
  - unfold raise, caught_by. cbn [existsb]. rewrite orb_false_r.
    destruct (isinstance e CHTTPError); [|reflexivity].
    unfold logger.error, emit. rewrite bind_run. cbn [fs cwd trace].
    unfold pypi_lookup_failed. now rewrite app_snoc_snoc.
  - rewrite ret_run, bind_run.
    destruct (Json.loads text) as [e|[| | | | |items|members]] eqn:Hloads;
      cbn [lift]; try reflexivity.
    { now destruct (JsonFacts.loads_error _ _ Hloads) as [-> | ->]. }
    rewrite ret_run, bind_run.
    destruct (default (JObject []) (Json.dict_get "info" members))
      as [| | | | |items|info]; try reflexivity.
    rewrite ret_run, bind_run, ret_run.
    destruct (default JNull (Json.dict_get "version" info)) as [| | | |[v|before]| |];
      reflexivity.
Qed.

(** C4 (as amended).  When fetching the metadata fails with an
    [HTTPError] (a not-found reply among them) the lookup logs the error
    and returns [None]; and whatever the registry replies, the lookup never
    raises an [HTTPError]. *)
Theorem get_pypi_artifact_version_http_error (product_name : string) (w : World) :
  (forall e, urlopen E (pypi_url product_name) = inl e ->
             isinstance e CHTTPError = true ->
             get_pypi_artifact_version E product_name w
             = (Ok None, pypi_lookup_failed product_name w))
  /\ (forall e w', get_pypi_artifact_version E product_name w = (Raise e, w') ->
                   isinstance e CHTTPError = false).
Proof.
  rewrite get_pypi_artifact_version_run. cbv zeta. split.
  - intros e -> ->. reflexivity.
  - intros e w'.
    destruct (urlopen E (pypi_url product_name)) as [e0|text].
    + destruct (isinstance e0 CHTTPError) eqn:He0; [discriminate|].
      intros H; inversion H; subst. exact He0.
    + destruct (Json.loads text) as [e1|[| | | | |items|members]] eqn:Hloads;
        try (intros H; inversion H; subst; reflexivity).
      { intros H; inversion H; subst.
        now destruct (JsonFacts.loads_error _ _ Hloads) as [-> | ->]. }
      destruct (default (JObject []) (Json.dict_get "info" members))
        as [| | | | |items|info]; try (intros H; inversion H; subst; reflexivity).
      destruct (default JNull (Json.dict_get "version" info)) as [| | | |[v|before]| |];
        intros H; inversion H; subst; reflexivity.
Qed.

End PypiLookup.

Module PypiLookupExamples.
Import PypiInstaller Demo.

(** A registry that answers every request with an HTTP error. *)
Definition not_found : Env := {|
  home := home offline; win32 := false;
  sys_executable := sys_executable offline;
  utcnow_isoformat := utcnow_isoformat offline;
  tmp_name := tmp_name offline;
  tmp_dir := tmp_dir offline;
  urlopen := fun _ => inl HTTPError;
  urlretrieve := fun _ => inl HTTPError;
  subprocess_run := subprocess_run offline;
  ET_fromstring := ET_fromstring offline;
  ZipFile_members := ZipFile_members offline;
  LSPConfig_parse := LSPConfig_parse offline
|}.

Lemma get_pypi_artifact_version_http_error_witness :
  get_pypi_artifact_version not_found "databricks-labs-remorph" (world_of (Dir ∅))
  = (Ok None, pypi_lookup_failed "databricks-labs-remorph" (world_of (Dir ∅)))
  /\ isinstance URLError CHTTPError = false.
Proof.
  split.
  - eapply (proj1 (get_pypi_artifact_version_http_error not_found _ _));
      vm_compute; reflexivity.
  - eapply (proj2 (get_pypi_artifact_version_http_error offline
                     "databricks-labs-remorph" (world_of (Dir ∅)))).
    vm_compute. reflexivity.
Defined.

(** C4, as stated, fails: with the network down [urlopen] raises a
    [URLError], and the lookup lets it through to the caller. *)
Lemma get_pypi_artifact_version_raises_url_error :
  get_pypi_artifact_version offline "databricks-labs-remorph" (world_of (Dir ∅))
  = (Raise URLError,
     mkWorld (Dir ∅) []
       [EvUrlopen "https://pypi.org/pypi/databricks-labs-remorph/json"]).
Proof. vm_compute. reflexivity. Qed.

End PypiLookupExamples.

Section MavenDownload.
Import MavenInstaller.
Context (E : Env).

Definition log_to (w : World) (evs : list event) : World :=
  mkWorld (fs w) (cwd w) (trace w ++ evs).

Lemma log_to_log_to (w : World) (a b : list event) :
  log_to (log_to w a) b = log_to w (a ++ b).
Proof. unfold log_to. cbn [fs cwd trace]. now rewrite <- app_assoc. Qed.

Lemma emit_run (ev : event) (w : World) : emit ev w = (Ok tt, log_to w [ev]).
Proof. reflexivity. Qed.

Lemma is_dir_exists (p : Path) (n : node) :
  FS.exists_ p n = false -> FS.is_dir p n = false.
Proof. unfold FS.exists_, FS.is_dir. now destruct (FS.lookup p n) as [[]|]. Qed.

Variables (group_id artifact_id version : string) (target : Path)
          (classifier : option string) (extension : string).

Let url := artifact_url group_id artifact_id version classifier extension.

Definition skipped_download (w : World) : World :=
  log_to w [EvLog WARNING ("Skipping download of " +:+ group_id +:+ ":" +:+ artifact_id
                             +:+ ":" +:+ version +:+ "; target already exists: "
                             +:+ path_str target)].

Definition failed_download (w : World) : World :=
  log_to w [EvUrlretrieve url;
            EvLog ERROR ("Unable to download maven artefact: " +:+ group_id
                         +:+ ":" +:+ artifact_id +:+ ":" +:+ version)].


(** What the download does, by the state of the target and the reply of
    the repository. *)
Lemma download_artifact_from_maven_run (w : World) :
  download_artifact_from_maven E group_id artifact_id version target classifier extension w
  =
  if FS.exists_ target (fs w) then (Ok true, skipped_download w)
  else
    match urlretrieve E url with
    | inl e =>
        if isinstance e CURLError then (Ok false, failed_download w)
        else (Raise e, log_to w [EvUrlretrieve url])
    | inr body =>
        match FSOps.write_text target body (fs w) with
        | inr n' =>
            (Ok true,
             mkWorld n' (cwd w)
               (trace w ++ [EvUrlretrieve url;
                            EvLog DEBUG ("Downloaded maven artefact from " +:+ url);
                            EvLog DEBUG ("Moving to " +:+ path_str target);
                            EvLog INFO ("Successfully installed: " +:+ group_id +:+ ":"
                             +:+ artifact_id +:+ ":" +:+ version)]))
        | inl e =>
            (Raise e,
             log_to w [EvUrlretrieve url;
                       EvLog DEBUG ("Downloaded maven artefact from " +:+ url);
                       EvLog DEBUG ("Moving to " +:+ path_str target)])
        end
    end.
Proof.
  unfold download_artifact_from_maven. fold url.
  unfold path_exists, get_fs. rewrite !bind_run, ret_run.
  destruct (FS.exists_ target (fs w)) eqn:Hex.
  - unfold logger.warning. rewrite bind_run, emit_run. reflexivity.
  - rewrite bind_run. unfold try_except. rewrite bind_run, emit_run, bind_run.
    destruct (urlretrieve E url) as [e|body]; cbn [lift].
    + unfold raise, caught_by. cbn [existsb]. rewrite orb_false_r.
      destruct (isinstance e CURLError); [|reflexivity].
      unfold logger.error. rewrite bind_run, emit_run, ret_run, log_to_log_to.
      reflexivity.
    + rewrite ret_run. unfold logger.debug, logger.info.
      rewrite bind_run, emit_run, ret_run, bind_run, emit_run.
      unfold fs_update, get_fs. rewrite !bind_run. cbn [fs cwd trace log_to].
      unfold FSOps.move_fetched. rewrite (is_dir_exists _ _ Hex). cbn [andb].
      destruct (FSOps.write_text target body (fs w)) as [e|n']; cbn [lift].
      * unfold raise, log_to. cbn [fs cwd trace]. now rewrite <- !app_assoc.
      * rewrite ret_run. unfold set_fs. cbn [fs cwd trace].
        rewrite bind_run, emit_run, ret_run. unfold log_to. cbn [fs cwd trace].
        now rewrite <- !app_assoc.
Qed.


End MavenDownload.

Module MavenDownloadExamples.
Import MavenInstaller Demo.

(** A repository that serves the same archive for every artifact. *)
Definition serving (body : string) : Env := {|
  home := home offline; win32 := false;
  sys_executable := sys_executable offline;
  utcnow_isoformat := utcnow_isoformat offline;
  tmp_name := tmp_name offline;
  tmp_dir := tmp_dir offline;
  urlopen := urlopen offline;
  urlretrieve := fun _ => inr body;
  subprocess_run := subprocess_run offline;
  ET_fromstring := ET_fromstring offline;
  ZipFile_members := ZipFile_members offline;
  LSPConfig_parse := LSPConfig_parse offline
|}.




End MavenDownloadExamples.

(** ** Maven version resolution *)

Module VersionResolution.
Import ET.

(** *** The resolution in the words of the specification *)

Definition children_tagged (t : string) (e : element) : list element :=
  filter (fun c => tag_of c = t) (children_of e).

Definition text_or_empty (e : element) : string := default EmptyString (text_of e).

(** The elements tagged [t] under the [versioning] elements of the root, in
    document order. *)
Definition under_versioning (root : element) (t : string) : list element :=
  flat_map (children_tagged t) (children_tagged "versioning" root).

(** The text of the [<release>] (or [<latest>]) element, if present. *)
Definition label_text (root : element) (label : string) : option string :=
  text_or_empty <$> head (under_versioning root label).

(** The text of the last [<version>] element listed under [<versions>]. *)
Definition last_version_text (root : element) : option string :=
  text_or_empty <$>
    head (flat_map (fun vs => option_list (last (children_tagged "version" vs)))
            (under_versioning root "versions")).

(** [<release>], else [<latest>], else the last [<version>], else absent. *)
Definition resolved_version (root : element) : option string :=
  match label_text root "release" with
  | Some v => Some v
  | None =>
      match label_text root "latest" with
      | Some v => Some v
      | None => last_version_text root
      end
  end.

(** *** The path walk computes it *)

Lemma children_items_elems (p : element) (i : nat) (t : string) (cs : list element) :
  elem <$> children_items p i t cs = filter (fun c => tag_of c = t) cs.
Proof.
  revert i. induction cs as [|c cs IH]; intros i; [reflexivity|].
  cbn [children_items]. rewrite fmap_app, IH, filter_cons.
  destruct (String.eqb_spec (tag_of c) t) as [Heq|Hne].
  - now rewrite decide_True.
  - now rewrite decide_False.
Qed.

Lemma children_items_ranks (p : element) (i : nat) (t : string) (cs : list element) :
  rank <$> children_items p i t cs = tagged_from i t cs.
Proof.
  revert i. induction cs as [|c cs IH]; intros i; [reflexivity|].
  cbn [children_items tagged_from]. rewrite fmap_app, IH.
  now destruct (String.eqb (tag_of c) t).
Qed.

Lemma children_items_shape (p : element) (i : nat) (t : string) (cs : list element)
    (it : item) :
  it ∈ children_items p i t cs -> parent it = Some p /\ tag_of (elem it) = t.
Proof.
  revert i. induction cs as [|c cs IH]; intros i Hin.
  - now apply elem_of_nil in Hin.
  - cbn [children_items] in Hin. apply elem_of_app in Hin as [Hin|Hin].
    + destruct (String.eqb_spec (tag_of c) t) as [Heq|Hne].
      * apply list_elem_of_singleton in Hin. subst it. now split.
      * now apply elem_of_nil in Hin.
    + now apply (IH (S i)).
Qed.

Lemma tagged_from_ge (i : nat) (t : string) (cs : list element) (r : nat) :
  r ∈ tagged_from i t cs -> i <= r.
Proof.
  revert i. induction cs as [|c cs IH]; intros i Hin.
  - now apply elem_of_nil in Hin.
  - cbn [tagged_from] in Hin. apply elem_of_app in Hin as [Hin|Hin].
    + destruct (String.eqb (tag_of c) t).
      * apply list_elem_of_singleton in Hin. lia.
      * now apply elem_of_nil in Hin.
    + apply IH in Hin. lia.
Qed.

Lemma tagged_from_NoDup (i : nat) (t : string) (cs : list element) :
  NoDup (tagged_from i t cs).
Proof.
  revert i. induction cs as [|c cs IH]; intros i; [constructor|].
  cbn [tagged_from]. destruct (String.eqb (tag_of c) t); cbn [app]; [|apply IH].
  constructor; [|apply IH].
  intros Hin. apply tagged_from_ge in Hin. lia.
Qed.

Lemma filter_none {A} (P : A -> Prop) `{forall x, Decision (P x)} (l : list A) :
  Forall (fun x => ~ P x) l -> filter P l = [].
Proof.
  induction 1 as [|x l Hx _ IH]; [reflexivity|].
  now rewrite filter_cons, decide_False.
Qed.

(** Among items of distinct ranks, only the last has the last one's rank. *)
Lemma filter_last_rank (l : list item) :
  NoDup (rank <$> l) ->
  filter (fun it => (rank <$> last l) = Some (rank it)) l = option_list (last l).
Proof.
  induction l as [|x l IH] using rev_ind; intros Hnd; [reflexivity|].
  rewrite last_snoc, filter_app. cbn [fmap option_fmap option_map option_list].
  rewrite fmap_app in Hnd. apply NoDup_app in Hnd as (_ & Hdisj & _).
  rewrite filter_none.
  - rewrite filter_cons, decide_True by reflexivity. reflexivity.
  - apply Forall_forall. intros y Hy Heq. inversion Heq as [Hr].
    apply (Hdisj (rank y)); [now apply list_elem_of_fmap_2|].
    rewrite <- Hr. cbn. apply list_elem_of_here.
Qed.

Lemma filter_ext_in {A} (P1 P2 : A -> Prop)
    `{forall x, Decision (P1 x)} `{forall x, Decision (P2 x)} (l : list A) :
  (forall x, x ∈ l -> (P1 x <-> P2 x)) -> filter P1 l = filter P2 l.
Proof.
  induction l as [|a l IH]; intros Hiff; [reflexivity|].
  rewrite !filter_cons.
  rewrite IH by (intros x Hx; apply Hiff; now apply elem_of_cons; right).
  pose proof (Hiff a (list_elem_of_here a l)) as Ha.
  destruct (decide (P1 a)), (decide (P2 a)); tauto.
Qed.

(** Of the children of [p] tagged [t], [[last()]] keeps the last. *)
Lemma last_of_children (p : element) (t : string) :
  elem <$> filter (fun it => is_last it = true)
             (children_items p 0 t (children_of p))
  = option_list (last (children_tagged t p)).
Proof.
  set (items := children_items p 0 t (children_of p)).
  rewrite (filter_ext_in _ (fun it => (rank <$> last items) = Some (rank it))).
  - rewrite filter_last_rank.
    + unfold children_tagged. rewrite <- (children_items_elems p 0), fmap_last.
      fold items. now destruct (last items).
    + unfold items. rewrite children_items_ranks. apply tagged_from_NoDup.
  - intros it Hin. apply children_items_shape in Hin as [Hp Ht].
    unfold is_last. rewrite Hp, Ht.
    rewrite <- (children_items_ranks p 0), fmap_last. fold items.
    destruct (last items) as [x|]; cbn.
    + rewrite Nat.eqb_eq. split; congruence.
    + split; discriminate.
Qed.

Lemma select_child_elems (t : string) (result : list item) :
  elem <$> select (Child t) result = flat_map (children_tagged t) (elem <$> result).
Proof.
  induction result as [|it result IH]; [reflexivity|].
  cbn [select flat_map fmap list_fmap] in *. rewrite fmap_app, IH.
  now rewrite children_items_elems.
Qed.

Lemma select_child_last_elems (t : string) (result : list item) :
  elem <$> select Last (select (Child t) result)
  = flat_map (fun p => option_list (last (children_tagged t p))) (elem <$> result).
Proof.
  induction result as [|it result IH]; [reflexivity|].
  cbn [select flat_map fmap list_fmap] in *. rewrite filter_app, fmap_app, IH.
  now rewrite last_of_children.
Qed.

Lemma findtext_head (root : element) (path : list step) :
  findtext root path = text_or_empty <$> head (elem <$> iterfind root path).
Proof. unfold findtext. now destruct (iterfind root path). Qed.

Lemma findtext_label (root : element) (label : string) :
  findtext root (MavenInstaller.label_path label) = label_text root label.
Proof.
  rewrite findtext_head. unfold iterfind, MavenInstaller.label_path. cbn [foldl].
  rewrite !select_child_elems. cbn [select fmap list_fmap elem flat_map].
  now rewrite app_nil_r.
Qed.

Lemma findtext_last_version (root : element) :
  findtext root MavenInstaller.last_version_path = last_version_text root.
Proof.
  rewrite findtext_head. unfold iterfind, MavenInstaller.last_version_path.
  cbn [foldl]. rewrite select_child_last_elems, !select_child_elems.
  cbn [select fmap list_fmap elem flat_map]. now rewrite app_nil_r.
Qed.

(** The metadata of the specification's example: versions 1.0 and 2.0 and
    neither [release] nor [latest]. *)
Definition two_versions : element :=
  Element "metadata" None
    [Element "versioning" None
       [Element "versions" None
          [Element "version" (Some "1.0") []; Element "version" (Some "2.0") []]]].

Section Claim.
Context (E : Env).

Lemma extract_latest_release_version_run (maven_metadata : string) (w : World) :
  MavenInstaller._extract_latest_release_version E maven_metadata w =
  match ET_fromstring E maven_metadata with
  | Some root => (Ok (resolved_version root), w)
  | None => (Raise ParseError, w)
  end.
Proof.
  unfold MavenInstaller._extract_latest_release_version.
  destruct (ET_fromstring E maven_metadata) as [root|]; [|reflexivity].
  unfold resolved_version. cbn [MavenInstaller._first_label].
  rewrite !findtext_label, findtext_last_version.
  destruct (label_text root "release"); [reflexivity|].
  destruct (label_text root "latest"); reflexivity.
Qed.

(** C3.  On a document that parses, [_extract_latest_release_version]
    returns the text of [<release>] if present, else that of [<latest>] if
    present, else that of the last [<version>] under [<versions>], else
    nothing; and on the metadata listing only versions 1.0 and 2.0 it
    returns ["2.0"]. *)
Theorem extract_latest_release_version_resolves (maven_metadata : string) (w : World) :
  MavenInstaller._extract_latest_release_version E maven_metadata w =
  match ET_fromstring E maven_metadata with
  | Some root => (Ok (resolved_version root), w)
  | None => (Raise ParseError, w)
  end
  /\ (ET_fromstring E maven_metadata = Some two_versions ->
      MavenInstaller._extract_latest_release_version E maven_metadata w
      = (Ok (Some "2.0"), w)).
Proof.
  split; [apply extract_latest_release_version_run|].
  intros Hparse. rewrite extract_latest_release_version_run, Hparse. reflexivity.
Qed.

End Claim.

End VersionResolution.

Module VersionResolutionExamples.
Import VersionResolution Demo.

Definition two_versions_text : string :=
  "<metadata><versioning><versions><version>1.0</version><version>2.0</version></versions></versioning></metadata>".

(** An XML reader that knows this one document. *)
Definition reading_two_versions : Env := {|
  home := home offline; win32 := false;
  sys_executable := sys_executable offline;
  utcnow_isoformat := utcnow_isoformat offline;
  tmp_name := tmp_name offline;
  tmp_dir := tmp_dir offline;
  urlopen := fun _ => inr two_versions_text;
  urlretrieve := urlretrieve offline;
  subprocess_run := subprocess_run offline;
  ET_fromstring := fun text =>
    if String.eqb text two_versions_text then Some two_versions else None;
  ZipFile_members := ZipFile_members offline;
  LSPConfig_parse := LSPConfig_parse offline
|}.

Lemma extract_latest_release_version_resolves_witness :
  MavenInstaller._extract_latest_release_version reading_two_versions
    two_versions_text (world_of (Dir ∅))
  = (Ok (Some "2.0"), world_of (Dir ∅)).
Proof.
  apply (proj2 (extract_latest_release_version_resolves reading_two_versions
                  two_versions_text (world_of (Dir ∅)))).
  vm_compute. reflexivity.
Defined.

End VersionResolutionExamples.

(** ** Discovery *)

Section Discovery.
Import TranspilerInstaller.
Context (E : Env).

(** C9.  For a known transpiler, [transpiler_config_options] gives the
    options listed for the dialect when the config has an entry for it,
    otherwise those under ["all"] when that entry exists, otherwise the
    empty list. *)
Theorem transpiler_config_options_fallback (transpiler_name source_dialect : string)
    (w w' : World) (all_configs : gmap string LSPConfig) (config : LSPConfig) :
  all_transpiler_configs E w = (Ok all_configs, w') ->
  all_configs !! transpiler_name = Some config ->
  transpiler_config_options E transpiler_name source_dialect w =
  (Ok match options config !! source_dialect with
      | Some dialect_options => dialect_options
      | None =>
          match options config !! "all" with
          | Some all_options => all_options
          | None => []
          end
      end, w').
Proof.
  intros Hall Hknown. unfold transpiler_config_options.
  rewrite bind_run, Hall, Hknown, ret_run.
  destruct (options config !! source_dialect); [reflexivity|].
  now destruct (options config !! "all").
Qed.

(** The descriptor of the engine a directory entry holds, if it holds one:
    the entry is a directory with a [lib] directory whose [config.yml] is a
    regular file that parses. *)
Definition config_file (file : string) : Path :=
  transpilers_path E </> file </> "lib" </> "config.yml".

Definition config_text (entry : node) : option string :=
  match entry with
  | Dir em =>
      match em !! "lib" with
      | Some (Dir lm) =>
          match lm !! "config.yml" with
          | Some (File text) => Some text
          | _ => None
          end
      | _ => None
      end
  | File _ => None
  end.

Definition engine_at (file : string) (entry : node) : option LSPConfig :=
  text ← config_text entry; LSPConfig_parse E (config_file file) text.

(** The record logged for an entry whose [config.yml] does not parse. *)
Definition parse_failure (file : string) (entry : node) : list event :=
  match config_text entry with
  | Some text =>
      match LSPConfig_parse E (config_file file) text with
      | Some _ => []
      | None =>
          [EvLog ERROR ("Could not load config: "
                          +:+ path_str (transpilers_path E </> file))]
      end
  | None => []
  end.

Lemma transpiler_config_run (file : string) (entry : node) (w : World)
    (m : gmap string node) :
  FS.resolve (transpilers_path E) (fs w) = inr (Dir m) ->
  m !! file = Some entry ->
  _transpiler_config E (transpilers_path E </> file) w =
  (Ok (engine_at file entry), log_to w (parse_failure file entry)).
Proof.
  intros Hroot Hentry.
  assert (Hlog : log_to w [] = w).
  { unfold log_to. rewrite app_nil_r. apply world_eta. }
  assert (He : FS.resolve (transpilers_path E </> file) (fs w) = inr entry)
    by now rewrite FSFacts.resolve_snoc, Hroot, Hentry.
  unfold _transpiler_config, engine_at, parse_failure, config_text, LSPConfig_load,
    config_file.
  msimpl. unfold FS.is_dir, FS.is_file, FS.lookup, FSOps.read_text.
  rewrite !FSFacts.resolve_snoc, Hroot, Hentry.
  destruct entry as [s|em]; cbn [negb orb mbind option_bind]; [now rewrite Hlog|].
  destruct (em !! "lib") as [[s|lm]|] eqn:Hlib; cbn [negb orb mbind option_bind];
    try now rewrite Hlog.
  cbv beta iota. rewrite !FSFacts.resolve_snoc, Hroot, Hentry, Hlib.
  destruct (lm !! "config.yml") as [[text|cm]|] eqn:Hcfg; cbn [negb mbind option_bind];
    try now rewrite Hlog.
  cbv beta iota. rewrite !FSFacts.resolve_snoc, Hroot, Hentry, Hlib, Hcfg.
  cbv beta iota.
  destruct (LSPConfig_parse E _ text) as [c|]; [now rewrite Hlog|].
  reflexivity.
Qed.

Lemma configs_of_run (m : gmap string node) (l : list (string * node)) (w : World) :
  FS.resolve (transpilers_path E) (fs w) = inr (Dir m) ->
  Forall (fun kv => m !! kv.1 = Some kv.2) l ->
  _configs_of E (fst <$> l) w =
  (Ok (omap (fun kv => engine_at kv.1 kv.2) l),
   log_to w (flat_map (fun kv => parse_failure kv.1 kv.2) l)).
Proof.
  intros Hroot Hall. revert w Hroot.
  induction Hall as [|[file entry] l Hentry _ IH]; intros w Hroot.
  - cbn. unfold log_to. now rewrite app_nil_r, world_eta.
  - cbn [fmap list_fmap fst snd _configs_of omap list_omap flat_map] in *.
    rewrite bind_run, (transpiler_config_run file entry w m Hroot Hentry).
    rewrite bind_run, (IH (log_to w (parse_failure file entry)) Hroot).
    rewrite ret_run, log_to_log_to.
    now destruct (engine_at file entry).
Qed.

(** C8.  Without an engines root the scan finds nothing.  With one, it
    yields, in the order of the listing, the descriptors of exactly the
    entries that are directories holding a [lib] directory with a regular
    file [config.yml] that parses; it changes no file, and logs one error
    for each entry whose [config.yml] does not parse and nothing for the
    other entries it passes over. *)
Theorem all_transpiler_configs_scan (w : World) :
  (FS.exists_ (transpilers_path E) (fs w) = false ->
   _all_transpiler_configs E w = (Ok [], w))
  /\
  (forall m, FS.resolve (transpilers_path E) (fs w) = inr (Dir m) ->
     _all_transpiler_configs E w =
     (Ok (omap (fun kv => engine_at kv.1 kv.2) (map_to_list m)),
      log_to w (flat_map (fun kv => parse_failure kv.1 kv.2) (map_to_list m)))
     /\ (forall config,
           config ∈ omap (fun kv => engine_at kv.1 kv.2) (map_to_list m) <->
           exists file entry, m !! file = Some entry
                              /\ engine_at file entry = Some config)).
Proof.
  split.
  - intros Hex. unfold _all_transpiler_configs. msimpl. now rewrite Hex.
  - intros m Hroot. split.
    + unfold _all_transpiler_configs. msimpl.
      unfold FS.exists_, FS.lookup, FSOps.listdir. rewrite Hroot. cbv beta iota.
      rewrite Hroot. cbv beta iota.
      apply (configs_of_run m); [exact Hroot|].
      apply Forall_forall. intros [file entry] Hin.
      now apply elem_of_map_to_list in Hin.
    + intros config. rewrite list_elem_of_omap. split.
      * intros ([file entry] & Hin & Hc). apply elem_of_map_to_list in Hin. eauto.
      * intros (file & entry & Hin & Hc). exists (file, entry).
        split; [now apply elem_of_map_to_list | exact Hc].
Qed.

End Discovery.

Module DiscoveryExamples.
Import TranspilerInstaller Demo.

(** A reader of descriptors that takes the text after ["name: "] for the
    name of the engine and refuses any other text. *)
Definition named_config (config_path : Path) (text : string) : option LSPConfig :=
  match Json.strip_prefix "name: " text with
  | Some engine =>
      Some {| name := engine;
              remorph := {| dialects := ["snowflake"] |};
              options :=
                {["all" := [mkOption "-experimental" CONFIRM (Some "Experimental?") None None];
                  "tsql" := []]};
              path := config_path |}
  | None => None
  end.

Definition reading_configs : Env := {|
  home := home offline; win32 := false;
  sys_executable := sys_executable offline;
  utcnow_isoformat := utcnow_isoformat offline;
  tmp_name := tmp_name offline;
  tmp_dir := tmp_dir offline;
  urlopen := urlopen offline;
  urlretrieve := urlretrieve offline;
  subprocess_run := subprocess_run offline;
  ET_fromstring := ET_fromstring offline;
  ZipFile_members := ZipFile_members offline;
  LSPConfig_parse := named_config
|}.

(** An engine, an engine whose descriptor does not parse, a directory
    without [lib], a directory whose [lib] has no [config.yml], and a
    stray file. *)
Definition engines : gmap string node :=
  {["morpheus" := Dir {["lib" := Dir {["config.yml" := File "name: Morpheus"]}]};
    "broken" := Dir {["lib" := Dir {["config.yml" := File ": : :"]}]};
    "notes" := Dir {["readme.txt" := File "hello"]};
    "partial" := Dir {["lib" := Dir ∅]};
    "stray.txt" := File "x"]}.

Definition engines_root : node := tree_at (transpilers_path reading_configs) (Dir engines).

Definition morpheus : LSPConfig :=
  {| name := "Morpheus";
     remorph := {| dialects := ["snowflake"] |};
     options :=
       {["all" := [mkOption "-experimental" CONFIRM (Some "Experimental?") None None];
         "tsql" := []]};
     path := transpilers_path reading_configs </> "morpheus" </> "lib" </> "config.yml" |}.

Lemma all_transpiler_configs_scan_witness :
  _all_transpiler_configs reading_configs (world_of (Dir ∅)) = (Ok [], world_of (Dir ∅))
  /\ _all_transpiler_configs reading_configs (world_of engines_root)
     = (Ok [morpheus],
        log_to (world_of engines_root)
          [EvLog ERROR
             "Could not load config: /home/user/.databricks/labs/remorph-transpilers/broken"]).
Proof.
  split.
  - apply (proj1 (all_transpiler_configs_scan reading_configs (world_of (Dir ∅)))).
    vm_compute. reflexivity.
  - pose proof (proj2 (all_transpiler_configs_scan reading_configs
                         (world_of engines_root)) engines) as H.
    destruct H as [Hrun _]; [vm_compute; reflexivity|].
    rewrite Hrun. vm_compute. reflexivity.
Defined.

Lemma transpiler_config_options_fallback_witness :
  transpiler_config_options reading_configs "Morpheus" "snowflake" (world_of engines_root)
  = (Ok [mkOption "-experimental" CONFIRM (Some "Experimental?") None None],
     log_to (world_of engines_root)
       [EvLog ERROR
          "Could not load config: /home/user/.databricks/labs/remorph-transpilers/broken"])
  /\ transpiler_config_options reading_configs "Morpheus" "tsql" (world_of engines_root)
     = (Ok [],
        log_to (world_of engines_root)
          [EvLog ERROR
             "Could not load config: /home/user/.databricks/labs/remorph-transpilers/broken"]).
Proof.
  split.
  - apply (transpiler_config_options_fallback reading_configs "Morpheus" "snowflake"
             (world_of engines_root) _ {["Morpheus" := morpheus]} morpheus);
      vm_compute; reflexivity.
  - apply (transpiler_config_options_fallback reading_configs "Morpheus" "tsql"
             (world_of engines_root) _ {["Morpheus" := morpheus]} morpheus);
      vm_compute; reflexivity.
Defined.

End DiscoveryExamples.

(** ** Install: the version check *)

Section VersionCheck.
Import TranspilerInstaller.
Context (E : Env).

(** [get_installed_version] reads the files and touches nothing. *)
Lemma get_installed_version_reads (product_name : string) (is_transpiler : bool)
    (w : World) :
  get_installed_version E product_name is_transpiler w =
  (fst (get_installed_version E product_name is_transpiler (mkWorld (fs w) [] [])), w).
Proof.
  unfold get_installed_version, json_loads, py_get. msimpl.
  destruct (FS.exists_ _ (fs w)); mred; [|reflexivity].
  destruct (FSOps.read_text _ (fs w)) as [e|text]; mred; [reflexivity|].
  destruct (Json.loads text) as [e|[| | | | |items|members]]; mred; try reflexivity.
  destruct (negb (Json.truthy _)); mred; [reflexivity|].
  destruct (default JNull (Json.dict_get "version" members)) as [| | | |s| |];
    mred; try reflexivity.
  destruct (decoded_startswith s "v"); [|reflexivity]. now destruct s.
Qed.

Lemma get_installed_version_same_files (product_name : string) (is_transpiler : bool)
    (w w1 : World) (r : outcome (option string)) :
  fs w1 = fs w ->
  get_installed_version E product_name is_transpiler w = (r, w) ->
  get_installed_version E product_name is_transpiler w1 = (r, w1).
Proof.
  intros Hfs H. rewrite get_installed_version_reads in H |- *.
  rewrite Hfs. now inversion H.
Qed.

Definition maven_lookup_done (group_id artifact_id text : string) (w : World) : World :=
  log_to w [EvUrlopen (MavenInstaller.artifact_metadata_url group_id artifact_id);
            EvLog DEBUG ("Maven metadata for " +:+ group_id +:+ ":" +:+ artifact_id
                           +:+ ": " +:+ text)].

Lemma get_current_maven_artifact_version_run (group_id artifact_id : string) (w : World) :
  MavenInstaller.get_current_maven_artifact_version E group_id artifact_id w =
  let url := MavenInstaller.artifact_metadata_url group_id artifact_id in
  match urlopen E url with
  | inl e =>
      if isinstance e CHTTPError then
        (Ok None,
         log_to w [EvUrlopen url;
                   EvLog ERROR ("Error while fetching maven metadata: " +:+ group_id
                                  +:+ ":" +:+ artifact_id)])
      else (Raise e, log_to w [EvUrlopen url])
  | inr text =>
      match ET_fromstring E text with
      | Some root =>
          (Ok (VersionResolution.resolved_version root),
           maven_lookup_done group_id artifact_id text w)
      | None => (Raise ParseError, maven_lookup_done group_id artifact_id text w)
      end
  end.
Proof.
  unfold MavenInstaller.get_current_maven_artifact_version. msimpl.
  destruct (urlopen E _) as [e|text]; cbv beta iota.
  - unfold caught_by. cbn [existsb]. rewrite orb_false_r.
    destruct (isinstance e CHTTPError); [|reflexivity].
    unfold log_to. cbn [fs cwd trace]. now rewrite <- app_assoc.
  - cbn [fs cwd trace].
    rewrite VersionResolution.extract_latest_release_version_run.
    unfold maven_lookup_done, log_to. cbn [fs cwd trace]. rewrite <- app_assoc.
    now destruct (ET_fromstring E text).
Qed.

End VersionCheck.

Section UpToDate.
Import TranspilerInstaller.
Context (E : Env).

(** Events that change nothing: a metadata request or a log record, as
    opposed to a download or a subprocess. *)
Definition quiet (ev : event) : Prop :=
  match ev with
  | EvUrlopen _ | EvLog _ _ => True
  | EvUrlretrieve _ | EvRun _ _ _ => False
  end.

(** [w'] is [w] with only quiet events added: same files, same working
    directory. *)
Definition no_op (w w' : World) : Prop :=
  fs w' = fs w /\ cwd w' = cwd w
  /\ exists evs, trace w' = trace w ++ evs /\ Forall quiet evs.

Lemma no_op_log_to (w : World) (evs : list event) :
  Forall quiet evs -> no_op w (log_to w evs).
Proof. intros H. repeat split. now exists evs. Qed.

Lemma pypi_lookup_some (pypi_name v : string) (w w1 : World) :
  PypiInstaller.get_pypi_artifact_version E pypi_name w = (Ok (Some v), w1) ->
  w1 = log_to w [EvUrlopen (pypi_url pypi_name)].
Proof.
  rewrite get_pypi_artifact_version_run. cbv zeta.
  destruct (urlopen E _) as [e|text].
  - destruct (isinstance e CHTTPError); discriminate.
  - destruct (Json.loads text) as [e|[| | | | |items|members]]; try discriminate.
    destruct (default (JObject []) (Json.dict_get "info" members))
      as [| | | | |items|info]; try discriminate.
    destruct (default JNull (Json.dict_get "version" info)) as [| | | |[v'|before]| |];
      try discriminate.
    now intros [= _ <-].
Qed.

Lemma maven_lookup_some (group_id artifact_id v : string) (w w1 : World) :
  MavenInstaller.get_current_maven_artifact_version E group_id artifact_id w
    = (Ok (Some v), w1) ->
  exists text, w1 = maven_lookup_done group_id artifact_id text w.
Proof.
  rewrite get_current_maven_artifact_version_run. cbv zeta.
  destruct (urlopen E _) as [e|text].
  - destruct (isinstance e CHTTPError); discriminate.
  - destruct (ET_fromstring E text); [|discriminate].
    intros [= _ <-]. now exists text.
Qed.

Lemma pypi_install_up_to_date (product_name pypi_name v : string) (w w1 : World) :
  get_installed_version E product_name true w = (Ok (Some v), w) ->
  PypiInstaller.get_pypi_artifact_version E pypi_name w = (Ok (Some v), w1) ->
  exists w', PypiInstaller.install E product_name pypi_name w = (Ok None, w')
             /\ no_op w w'.
Proof.
  intros Hinst Hlatest.
  pose proof (pypi_lookup_some _ _ _ _ Hlatest) as ->.
  unfold PypiInstaller.install, PypiInstaller._install_checking_versions.
  rewrite bind_run, Hlatest, bind_run.
  rewrite (get_installed_version_same_files E _ _ w
             (log_to w [EvUrlopen (pypi_url pypi_name)]) _ eq_refl Hinst).
  rewrite bool_decide_eq_true_2 by reflexivity.
  unfold logger.info. rewrite bind_run, emit_run, ret_run, log_to_log_to.
  eexists. split; [reflexivity|].
  apply no_op_log_to. repeat constructor.
Qed.

Lemma maven_install_up_to_date (product_name group_id artifact_id v : string)
    (w w1 : World) :
  get_installed_version E product_name true w = (Ok (Some v), w) ->
  MavenInstaller.get_current_maven_artifact_version E group_id artifact_id w
    = (Ok (Some v), w1) ->
  exists w', MavenInstaller.install E product_name group_id artifact_id w = (Ok None, w')
             /\ no_op w w'.
Proof.
  intros Hinst Hlatest.
  destruct (maven_lookup_some _ _ _ _ _ Hlatest) as [text ->].
  unfold MavenInstaller.install, MavenInstaller._install_checking_versions.
  rewrite bind_run, Hlatest, bind_run.
  rewrite (get_installed_version_same_files E _ _ w
             (maven_lookup_done group_id artifact_id text w) _ eq_refl Hinst).
  rewrite bool_decide_eq_true_2 by reflexivity.
  unfold logger.info. rewrite bind_run, emit_run, ret_run.
  unfold maven_lookup_done. rewrite log_to_log_to.
  eexists. split; [reflexivity|].
  apply no_op_log_to. repeat constructor.
Qed.

(** C5.  When the recorded version equals the latest version the registry
    resolves, [install] (Pypi or Maven) returns [None] and is a no-op: the
    files and the working directory are as before, and nothing happened but
    the metadata request and log records: no download, no subprocess, no
    write of the version record. *)
Theorem up_to_date_install_is_no_op (product_name : string) (v : string)
    (w w1 : World) :
  get_installed_version E product_name true w = (Ok (Some v), w) ->
  (forall pypi_name,
     PypiInstaller.get_pypi_artifact_version E pypi_name w = (Ok (Some v), w1) ->
     exists w', PypiInstaller.install E product_name pypi_name w = (Ok None, w')
                /\ no_op w w')
  /\
  (forall group_id artifact_id,
     MavenInstaller.get_current_maven_artifact_version E group_id artifact_id w
       = (Ok (Some v), w1) ->
     exists w', MavenInstaller.install E product_name group_id artifact_id w
                  = (Ok None, w')
                /\ no_op w w').
Proof.
  intros Hinst. split.
  - intros pypi_name Hlatest. eapply pypi_install_up_to_date; eassumption.
  - intros group_id artifact_id Hlatest. eapply maven_install_up_to_date; eassumption.
Qed.

End UpToDate.

Module UpToDateExamples.
Import TranspilerInstaller Demo.

(** The reply of the PyPI JSON API for a project at version 1.2.3, as far
    as the lookup reads it. *)
Definition pypi_reply : string :=
  "{" +:+ Json.encode_string "info" +:+ ": {" +:+ Json.encode_string "version"
      +:+ ": " +:+ Json.encode_string "1.2.3" +:+ "}}".

Definition pypi_serving : Env := {|
  home := home offline; win32 := false;
  sys_executable := sys_executable offline;
  utcnow_isoformat := utcnow_isoformat offline;
  tmp_name := tmp_name offline;
  tmp_dir := tmp_dir offline;
  urlopen := fun _ => inr pypi_reply;
  urlretrieve := urlretrieve offline;
  subprocess_run := subprocess_run offline;
  ET_fromstring := ET_fromstring offline;
  ZipFile_members := ZipFile_members offline;
  LSPConfig_parse := LSPConfig_parse offline
|}.

Definition recorded (version : string) : World :=
  world_of (engine_with_record
              (Json.dumps_str_dict [("version", "v" +:+ version);
                                    ("date", "2025-01-01T00:00:00+00:00")])).

Lemma up_to_date_install_is_no_op_witness :
  (exists w',
     PypiInstaller.install pypi_serving "demo" "databricks-demo" (recorded "1.2.3")
       = (Ok None, w')
     /\ no_op (recorded "1.2.3") w')
  /\
  (exists w',
     MavenInstaller.install VersionResolutionExamples.reading_two_versions
       "demo" "com.databricks" "demo-engine" (recorded "2.0") = (Ok None, w')
     /\ no_op (recorded "2.0") w').
Proof.
  split.
  - eapply (proj1 (up_to_date_install_is_no_op pypi_serving "demo" "1.2.3"
                     (recorded "1.2.3") _ ltac:(vm_compute; reflexivity))
              "databricks-demo").
    vm_compute. reflexivity.
  - eapply (proj2 (up_to_date_install_is_no_op
                     VersionResolutionExamples.reading_two_versions "demo" "2.0"
                     (recorded "2.0") _ ltac:(vm_compute; reflexivity))
              "com.databricks" "demo-engine").
    vm_compute. reflexivity.
Defined.

End UpToDateExamples.

(** ** Invariants of monadic code *)

Section Preserves.
Context (Inv : node -> Prop).

(** Whatever the outcome, [prog] takes a world whose files satisfy [Inv]
    to one whose files do. *)
Definition preserves {A} (prog : M A) : Prop :=
  forall w r w', Inv (fs w) -> prog w = (r, w') -> Inv (fs w').

(** [f] maps files satisfying [Inv] to files satisfying it. *)
Definition stable (f : node -> exn + node) : Prop :=
  forall n n', Inv n -> f n = inr n' -> Inv n'.

Lemma preserves_ret {A} (a : A) : preserves (mret a).
Proof. intros w r w' HI [= _ <-]. exact HI. Qed.

Lemma preserves_raise {A} (e : exn) : preserves (raise e : M A).
Proof. intros w r w' HI [= _ <-]. exact HI. Qed.

Lemma preserves_bind {A B} (m : M A) (k : A -> M B) :
  preserves m -> (forall a, preserves (k a)) -> preserves (m ≫= k).
Proof.
  intros Hm Hk w r w' HI. rewrite bind_run.
  destruct (m w) as [[a|e] w1] eqn:Hrun.
  - apply Hk. eapply Hm; eassumption.
  - intros [= _ <-]. eapply Hm; eassumption.
Qed.

Lemma preserves_try_except {A} (body : M A) (cs : list exn_class)
    (handler : exn -> M A) :
  preserves body -> (forall e, preserves (handler e)) ->
  preserves (try_except body cs handler).
Proof.
  intros Hb Hh w r w' HI. unfold try_except.
  destruct (body w) as [[a|e] w1] eqn:Hrun.
  - intros [= _ <-]. eapply Hb; eassumption.
  - destruct (caught_by cs e).
    + apply Hh. eapply Hb; eassumption.
    + intros [= _ <-]. eapply Hb; eassumption.
Qed.

Lemma preserves_try_finally {A} (body : M A) (cleanup : M unit) :
  preserves body -> preserves cleanup -> preserves (try_finally body cleanup).
Proof.
  intros Hb Hc w r w' HI. unfold try_finally.
  destruct (body w) as [rb w1] eqn:Hrun.
  destruct (cleanup w1) as [[u|e] w2] eqn:Hclean; intros [= _ <-];
    (eapply Hc; [eapply Hb; eassumption | eassumption]).
Qed.

Lemma preserves_lift {A} (r : exn + A) : preserves (lift r).
Proof. destruct r; [apply preserves_raise | apply preserves_ret]. Qed.

Lemma preserves_get_fs : preserves get_fs.
Proof. intros w r w' HI [= _ <-]. exact HI. Qed.

Lemma preserves_emit (ev : event) : preserves (emit ev).
Proof. intros w r w' HI [= _ <-]. exact HI. Qed.

Lemma preserves_getcwd : preserves os_getcwd.
Proof. intros w r w' HI [= _ <-]. exact HI. Qed.

Lemma preserves_chdir (p : Path) : preserves (os_chdir p).
Proof.
  intros w r w' HI. unfold os_chdir.
  destruct (FS.resolve p (fs w)) as [e|[s|m]]; intros [= _ <-]; exact HI.
Qed.

Lemma preserves_set_fs (n : node) : Inv n -> preserves (set_fs n).
Proof. intros Hn w r w' _ [= _ <-]. exact Hn. Qed.

Lemma preserves_fs_update (f : node -> exn + node) :
  stable f -> preserves (fs_update f).
Proof.
  intros Hf w r w' HI. unfold fs_update. msimpl.
  destruct (f (fs w)) as [e|n'] eqn:Hfn; mred; intros [= _ <-]; cbn [fs].
  - exact HI.
  - eapply Hf; eassumption.
Qed.

Lemma preserves_fs_read {A} (f : node -> exn + A) : preserves (fs_read f).
Proof.
  unfold fs_read. apply preserves_bind; [apply preserves_get_fs|].
  intros n. apply preserves_lift.
Qed.

End Preserves.

(** ** Changes confined to one directory *)

Section Confined.
Import FS.
Context (P : Path) (base : node) (base_dir : node).
Hypothesis base_at_P : resolve P base = inr base_dir.

(** [n] is [base] but for the content of the directory at [P]. *)
Definition confined (n : node) : Prop :=
  exists c, is_dir_node c = true /\ n = put P (Some c) base.

(** [p] lies strictly below [P]. *)
Definition below (p : Path) : Prop := exists q, q <> [] /\ p = P ++ q.

Lemma below_child (x : string) : below (P </> x).
Proof. exists [x]. split; [discriminate | reflexivity]. Qed.

Lemma below_snoc (p : Path) (x : string) : below p -> below (p </> x).
Proof.
  intros (q & Hq & ->). exists (q ++ [x]). split.
  - intros H. now apply app_eq_nil in H as [_ ?].
  - unfold path_div. now rewrite app_assoc.
Qed.

Lemma put_is_dir (q : Path) (o : option node) (c : node) :
  q <> [] -> is_dir_node c = true -> is_dir_node (put q o c) = true.
Proof.
  intros Hq Hc. destruct q as [|x q]; [contradiction|].
  destruct c as [s|m]; [discriminate|].
  cbn [put]. destruct q; [reflexivity|]. now destruct (m !! x).
Qed.

Lemma confined_put (p : Path) (o : option node) (n : node) :
  confined n -> below p -> confined (put p o n).
Proof.
  intros (c & Hc & ->) (q & Hq & ->).
  assert (Hr : resolve P (put P (Some c) base) = inr c)
    by (eapply FSFacts.resolve_put; exact base_at_P).
  rewrite (FSFacts.put_app P q o _ c Hr Hq), FSFacts.put_put.
  exists (put q o c). split; [now apply put_is_dir | reflexivity].
Qed.

Lemma confined_resolve (n : node) :
  confined n -> exists c, is_dir_node c = true /\ resolve P n = inr c.
Proof.
  intros (c & Hc & ->). exists c. split; [exact Hc|].
  eapply FSFacts.resolve_put; exact base_at_P.
Qed.

Lemma preserves_path_mkdir (p : Path) : below p -> preserves confined (path_mkdir p).
Proof.
  intros Hp w r w' HI. unfold path_mkdir. msimpl.
  destruct (parent_entries p (fs w)) as [e|[m x]]; mred; [intros [= _ <-]; exact HI|].
  destruct (m !! x); intros [= _ <-]; cbn [fs]; [exact HI|].
  now apply confined_put.
Qed.

Lemma stable_write_text (p : Path) (s : string) :
  below p -> stable confined (FSOps.write_text p s).
Proof.
  intros Hp n n' HI. unfold FSOps.write_text.
  destruct (parent_entries p n) as [e|[m x]]; [discriminate|].
  destruct (m !! x) as [[c|d]|]; intros [= <-]; now apply confined_put.
Qed.

Lemma rmtree_inr (p : Path) (n n' : node) :
  FSOps.rmtree p n = inr n' -> n' = put p None n.
Proof.
  unfold FSOps.rmtree.
  destruct (resolve p n) as [e|[s|m]]; try discriminate.
  destruct p as [|x p]; [discriminate|]. now intros [= <-].
Qed.


Lemma stable_rmtree (p : Path) : below p -> stable confined (FSOps.rmtree p).
Proof. intros Hp n n' HI ->%rmtree_inr. now apply confined_put. Qed.





End Confined.

(** Break a goal [preserves Inv prog] along the structure of [prog]. *)
Ltac pres_step :=
  lazymatch goal with
  | |- preserves _ (mbind _ _) => apply preserves_bind; [|intros ?]
  | |- preserves _ (mret _) => apply preserves_ret
  | |- preserves _ (raise _) => apply preserves_raise
  | |- preserves _ (lift _) => apply preserves_lift
  | |- preserves _ (try_except _ _ _) => apply preserves_try_except; [|intros ?]
  | |- preserves _ (try_finally _ _) => apply preserves_try_finally
  | |- preserves _ (emit _) => apply preserves_emit
  | |- preserves _ (logger.debug _) => apply preserves_emit
  | |- preserves _ (logger.info _) => apply preserves_emit
  | |- preserves _ (logger.warning _) => apply preserves_emit
  | |- preserves _ (logger.error _) => apply preserves_emit
  | |- preserves _ get_fs => apply preserves_get_fs
  | |- preserves _ os_getcwd => apply preserves_getcwd
  | |- preserves _ (os_chdir _) => apply preserves_chdir
  | |- preserves _ (path_exists _) => unfold path_exists
  | |- preserves _ (path_is_dir _) => unfold path_is_dir
  | |- preserves _ (path_is_file _) => unfold path_is_file
  | |- preserves _ (path_read_text _) => apply preserves_fs_read
  | |- preserves _ (os_listdir _) => apply preserves_fs_read
  | |- preserves _ (fs_read _) => apply preserves_fs_read
  | |- preserves _ (json_loads _) => unfold json_loads
  | |- preserves _ (py_get _ _ _) => unfold py_get
  | |- preserves _ (if ?b then _ else _) => destruct b
  | |- preserves _ (match ?x with _ => _ end) => destruct x
  | |- preserves _ (let '(_, _) := ?x in _) => destruct x
  end.

Ltac pres := repeat pres_step.

Section ProducersConfined.
Import FS TranspilerInstaller.
Context (E : Env) (P : Path) (base : node) (base_dir : node).
Hypothesis base_at_P : resolve P base = inr base_dir.

Local Abbreviation confined := (confined P base).
Local Abbreviation below := (below P).

Lemma preserves_write_text (p : Path) (s : string) :
  below p -> preserves confined (path_write_text p s).
Proof.
  intros Hp. apply preserves_fs_update. now apply (stable_write_text P base base_dir).
Qed.

Lemma preserves_store_product_state (version : string) :
  preserves confined (_store_product_state E P version).
Proof.
  unfold _store_product_state. pres.
  - apply (preserves_path_mkdir P base base_dir base_at_P), below_child.
  - apply preserves_write_text, below_snoc, below_child.
Qed.




Lemma mkdir_parents_app (p q : Path) (n c : node) :
  resolve p n = inr c ->
  FSOps.mkdir_parents (p ++ q) n =
  match FSOps.mkdir_parents q c with
  | inr c' => inr (put p (Some c') n)
  | inl e => inl e
  end.
Proof.
  revert n. induction p as [|x p IH]; intros n Hr.
  - cbn in Hr. inversion Hr; subst c. cbn [app put].
    now destruct (FSOps.mkdir_parents q n).
  - cbn [resolve] in Hr. destruct n as [s|m]; [discriminate|].
    destruct (m !! x) as [d|] eqn:Hx; [|discriminate].
    cbn [app FSOps.mkdir_parents]. rewrite Hx, (IH d Hr).
    destruct (FSOps.mkdir_parents q c) as [e|c']; [reflexivity|].
    destruct p as [|y p].
    + cbn in Hr. now inversion Hr.
    + now rewrite FSFacts.put_cons2, Hx.
Qed.

Lemma mkdir_parents_is_dir (q : Path) (c c' : node) :
  FSOps.mkdir_parents q c = inr c' -> is_dir_node c' = true.
Proof.
  destruct q as [|x q]; [discriminate|]. cbn [FSOps.mkdir_parents].
  destruct c as [s|m]; [discriminate|].
  destruct (m !! x) as [d|].
  - destruct (FSOps.mkdir_parents q d); [discriminate|]. now intros [= <-].
  - now intros [= <-].
Qed.

Lemma stable_mkdir_parents (p : Path) :
  below p -> stable confined (FSOps.mkdir_parents p).
Proof.
  intros (q & Hq & ->) n n' HI.
  destruct HI as (c & Hc & ->).
  assert (Hr : resolve P (put P (Some c) base) = inr c)
    by (eapply FSFacts.resolve_put; exact base_at_P).
  rewrite (mkdir_parents_app P q _ c Hr).
  destruct (FSOps.mkdir_parents q c) as [e|c'] eqn:Hmk; [discriminate|].
  intros [= <-]. rewrite FSFacts.put_put.
  exists c'. split; [|reflexivity]. eapply mkdir_parents_is_dir; eassumption.
Qed.

Lemma preserves_copytree (src dst : Path) :
  below dst -> preserves confined (shutil_copytree src dst).
Proof.
  intros Hd w r w' HI. unfold shutil_copytree. msimpl.
  destruct (resolve src (fs w)) as [e|[c|sm]]; mred;
    try (intros [= _ <-]; exact HI).
  destruct (lookup dst (fs w)) as [[c|dm]|] eqn:Hdst; mred.
  - intros [= _ <-]. exact HI.
  - destruct (FSOps.overlay (Dir sm) EmptyString (Some (Dir dm))) as [c failed]. mred.
    destruct failed; intros [= _ <-]; cbn [fs];
      now apply (confined_put P base base_dir base_at_P).
  - destruct (FSOps.mkdir_parents dst (fs w)) as [e|n'] eqn:Hmk; mred.
    + intros [= _ <-]. exact HI.
    + destruct (FSOps.overlay (Dir sm) EmptyString None) as [c failed]. mred.
      pose proof (stable_mkdir_parents dst Hd _ _ HI Hmk) as Hn'.
      destruct failed; intros [= _ <-]; cbn [fs];
        now apply (confined_put P base base_dir base_at_P).
Qed.

(** *** The Pypi producer, for subprocesses that keep to the engine
    directory *)

Hypothesis subprocess_confined :
  forall args shell dir n,
    confined n -> confined (snd (subprocess_run E args shell dir n)).

Lemma preserves_run (args : list string) (shell : bool) (at_dir : option Path)
    (check : bool) :
  preserves confined (run E args shell at_dir check).
Proof.
  intros w r w' HI. unfold run.
  pose proof (subprocess_confined args shell (default (cwd w) at_dir) (fs w) HI) as Hn.
  destruct (subprocess_run E args shell (default (cwd w) at_dir) (fs w)) as [res n'].
  cbn [snd] in Hn.
  destruct res as [e|returncode]; [now intros [= _ <-]|].
  destruct (check && negb (returncode =? 0)%Z); now intros [= _ <-].
Qed.

Lemma preserves_first_site_packages (lib : Path) (dirs : list string) :
  preserves confined (PypiInstaller._first_site_packages lib dirs).
Proof.
  induction dirs as [|dir_ dirs IH]; cbn [PypiInstaller._first_site_packages].
  - apply preserves_raise.
  - pres; exact IH.
Qed.

Lemma preserves_locate_site_packages (venv : Path) :
  preserves confined (PypiInstaller._locate_site_packages E venv).
Proof.
  unfold PypiInstaller._locate_site_packages,
    PypiInstaller._locate_site_packages_windows,
    PypiInstaller._locate_site_packages_linux_or_macos.
  pres. apply preserves_first_site_packages.
Qed.

Lemma preserves_create_venv (install_path : Path) :
  preserves confined (PypiInstaller._create_venv E install_path).
Proof.
  unfold PypiInstaller._create_venv. pres.
  - apply preserves_run.
  - apply preserves_locate_site_packages.
Qed.

Lemma preserves_install_from_pip (pypi_name : string)
    (install_path venv site_packages : Path) :
  preserves confined
    (PypiInstaller._install_from_pip E pypi_name install_path venv site_packages).
Proof. unfold PypiInstaller._install_from_pip. pres. apply preserves_run. Qed.

Lemma preserves_copy_lsp_resources (install_path site_packages : Path) :
  below install_path ->
  preserves confined (PypiInstaller._copy_lsp_resources install_path site_packages).
Proof.
  intros Hi. unfold PypiInstaller._copy_lsp_resources. pres.
  now apply preserves_copytree.
Qed.

Lemma preserves_post_install (version : string) :
  preserves confined (PypiInstaller._post_install E P (P </> "lib") version).
Proof.
  unfold PypiInstaller._post_install, PypiInstaller._run_custom_installer. pres.
  - apply preserves_run.
  - apply preserves_store_product_state.
Qed.

Lemma preserves_unsafe_install_latest_version (pypi_name version : string) :
  preserves confined
    (PypiInstaller._unsafe_install_latest_version E pypi_name P (P </> "lib") version).
Proof.
  unfold PypiInstaller._unsafe_install_latest_version. pres.
  - apply preserves_create_venv.
  - apply preserves_install_from_pip.
  - apply preserves_copy_lsp_resources, below_child.
  - apply preserves_post_install.
Qed.

End ProducersConfined.


(** ** Entries of one directory *)

Lemma relative_to_app (t p q : Path) : relative_to (t ++ q) (t ++ p) = relative_to q p.
Proof.
  induction t as [|x t IH]; [reflexivity|].
  cbn [app relative_to]. now rewrite String.eqb_refl.
Qed.

Section Children.
Import FS.
Context (T : Path) (n : node) (m : gmap string node).
Hypothesis T_is_dir : resolve T n = inr (Dir m).

Lemma resolve_child (x : string) :
  resolve (T </> x) n =
  match m !! x with Some c => inr c | None => inl FileNotFoundError end.
Proof. now rewrite FSFacts.resolve_snoc, T_is_dir. Qed.

Lemma exists_child (x : string) :
  exists_ (T </> x) n = match m !! x with Some _ => true | None => false end.
Proof. unfold exists_, lookup. rewrite resolve_child. now destruct (m !! x). Qed.

Lemma put_child (x : string) (o : option node) :
  put (T </> x) o n =
  put T (Some (Dir (match o with Some c => <[x:=c]> m | None => delete x m end))) n.
Proof. now apply FSFacts.put_snoc. Qed.

Lemma rename_child (win : bool) (a b : string) (old : node) :
  m !! a = Some old -> m !! b = None -> a <> b ->
  FSOps.rename win (T </> a) (T </> b) n
  = inr (put T (Some (Dir (<[b:=old]> (delete a m)))) n).
Proof.
  intros Ha Hb Hab. unfold FSOps.rename.
  rewrite resolve_child, Ha, FSFacts.parent_entries_snoc, T_is_dir.
  assert (Hne : FSOps.path_eqb (T </> a) (T </> b) = false).
  { unfold FSOps.path_eqb. apply bool_decide_eq_false. unfold path_div.
    intros Heq. apply app_inv_head in Heq. congruence. }
  assert (Hpre : FSOps.is_prefix (T </> a) (T </> b) = false).
  { unfold FSOps.is_prefix, path_div. rewrite relative_to_app. cbn [relative_to].
    destruct (String.eqb_spec a b); [contradiction | reflexivity]. }
  rewrite Hne, Hpre, Hb. f_equal.
  rewrite (put_child a None).
  rewrite (FSFacts.put_snoc T b (Some old) _ (delete a m)).
  - now rewrite FSFacts.put_put.
  - eapply FSFacts.resolve_put. exact T_is_dir.
Qed.

Lemma mkdir_parents_child (x : string) :
  m !! x = None ->
  FSOps.mkdir_parents (T </> x) n = inr (put T (Some (Dir (<[x:=Dir ∅]> m))) n).
Proof.
  intros Hx. unfold path_div. rewrite (mkdir_parents_app T [x] n _ T_is_dir).
  cbn [FSOps.mkdir_parents]. now rewrite Hx.
Qed.

Lemma rmtree_child (x : string) (d : gmap string node) :
  m !! x = Some (Dir d) ->
  FSOps.rmtree (T </> x) n = inr (put T (Some (Dir (delete x m))) n).
Proof.
  intros Hx. unfold FSOps.rmtree. rewrite resolve_child, Hx.
  rewrite <- (put_child x None).
  destruct (T </> x) eqn:Heq; [|reflexivity].
  unfold path_div in Heq. apply app_eq_nil in Heq as [_ ?]. discriminate.
Qed.

End Children.

Lemma path_append_str_snoc (p : Path) (x suffix : string) :
  path_append_str (p </> x) suffix = p </> (x +:+ suffix).
Proof.
  unfold path_div. induction p as [|y p IH]; [reflexivity|].
  cbn [app path_append_str]. rewrite IH. now destruct p.
Qed.

Lemma append_longer (s suffix : string) :
  suffix <> EmptyString -> s <> s +:+ suffix.
Proof.
  intros Hs. induction s as [|c s IH].
  - cbn. congruence.
  - cbn [String.append]. intros [= Heq]. now apply IH.
Qed.

(** Runs of single calls. *)
Lemma path_exists_run (p : Path) (w : World) :
  path_exists p w = (Ok (FS.exists_ p (fs w)), w).
Proof. reflexivity. Qed.

Lemma fs_update_run (f : node -> exn + node) (w : World) (n' : node) :
  f (fs w) = inr n' -> fs_update f w = (Ok tt, mkWorld n' (cwd w) (trace w)).
Proof. intros H. unfold fs_update. msimpl. now rewrite H. Qed.

Lemma fs_update_fails (f : node -> exn + node) (w : World) (e : exn) :
  f (fs w) = inl e -> fs_update f w = (Raise e, w).
Proof. intros H. unfold fs_update. msimpl. now rewrite H. Qed.

Lemma path_mkdir_run (p : Path) (x : string) (w : World) (m : gmap string node) :
  FS.resolve p (fs w) = inr (Dir m) -> m !! x = None ->
  path_mkdir (p </> x) w
  = (Ok tt, mkWorld (FS.put p (Some (Dir (<[x:=Dir ∅]> m))) (fs w)) (cwd w) (trace w)).
Proof.
  intros Hp Hx. unfold path_mkdir. msimpl.
  rewrite FSFacts.parent_entries_snoc, Hp. mred. rewrite Hx.
  now rewrite (FSFacts.put_snoc _ _ _ _ _ Hp).
Qed.

Lemma try_except_run {A} (body : M A) (cs : list exn_class) (handler : exn -> M A)
    (w : World) :
  try_except body cs handler w =
  match body w with
  | (Ok a, w') => (Ok a, w')
  | (Raise e, w') => if caught_by cs e then handler e w' else (Raise e, w')
  end.
Proof. reflexivity. Qed.

Lemma logger_info_run (msg : string) (w : World) :
  logger.info msg w = (Ok tt, log_to w [EvLog INFO msg]).
Proof. reflexivity. Qed.

Lemma logger_error_run (msg : string) (w : World) :
  logger.error msg w = (Ok tt, log_to w [EvLog ERROR msg]).
Proof. reflexivity. Qed.

(** ** The engines directory and its entries *)

Section Root.
Import FS.
Context (T : Path) (n0 : node) (m0 : gmap string node).
Hypothesis T_at : resolve T n0 = inr (Dir m0).

(** The files [n0] with the entries of the directory at [T] replaced. *)
Definition root_with (m : gmap string node) : node := put T (Some (Dir m)) n0.

Lemma resolve_root_with (m : gmap string node) : resolve T (root_with m) = inr (Dir m).
Proof. eapply FSFacts.resolve_put. exact T_at. Qed.

Lemma root_with_id : root_with m0 = n0.
Proof. apply FSFacts.put_id. exact T_at. Qed.

Lemma put_root_with (m m' : gmap string node) :
  put T (Some (Dir m')) (root_with m) = root_with m'.
Proof. apply FSFacts.put_put. Qed.

Lemma put_child_root (m : gmap string node) (x : string) (c : node) :
  put (T </> x) (Some c) (root_with m) = root_with (<[x:=c]> m).
Proof.
  rewrite (put_child T _ m (resolve_root_with m) x (Some c)). apply put_root_with.
Qed.

Lemma resolve_child_root (m : gmap string node) (x : string) (c : node) :
  m !! x = Some c -> resolve (T </> x) (root_with m) = inr c.
Proof.
  intros Hx. now rewrite (resolve_child T _ m (resolve_root_with m)), Hx.
Qed.

Lemma path_exists_root (m : gmap string node) (x : string) (cw : Path)
    (tr : list event) :
  path_exists (T </> x) (mkWorld (root_with m) cw tr)
  = (Ok (match m !! x with Some _ => true | None => false end),
     mkWorld (root_with m) cw tr).
Proof.
  rewrite path_exists_run. cbn [fs].
  now rewrite (exists_child T _ m (resolve_root_with m)).
Qed.

Lemma os_rename_root (win : bool) (m : gmap string node) (a b : string) (old : node)
    (cw : Path) (tr : list event) :
  m !! a = Some old -> m !! b = None -> a <> b ->
  os_rename win (T </> a) (T </> b) (mkWorld (root_with m) cw tr)
  = (Ok tt, mkWorld (root_with (<[b:=old]> (delete a m))) cw tr).
Proof.
  intros Ha Hb Hab. unfold os_rename.
  erewrite fs_update_run.
  2:{ cbn [fs]. apply (rename_child T _ m (resolve_root_with m)); eassumption. }
  cbn [cwd trace]. now rewrite put_root_with.
Qed.

Lemma path_mkdir_parents_root (m : gmap string node) (x : string) (cw : Path)
    (tr : list event) :
  m !! x = None ->
  path_mkdir_parents (T </> x) (mkWorld (root_with m) cw tr)
  = (Ok tt, mkWorld (root_with (<[x:=Dir ∅]> m)) cw tr).
Proof.
  intros Hx. unfold path_mkdir_parents.
  erewrite fs_update_run.
  2:{ cbn [fs]. apply (mkdir_parents_child T _ m (resolve_root_with m)); eassumption. }
  cbn [cwd trace]. now rewrite put_root_with.
Qed.

Lemma rmtree_root (m d : gmap string node) (x : string) (cw : Path) (tr : list event) :
  m !! x = Some (Dir d) ->
  rmtree (T </> x) (mkWorld (root_with m) cw tr)
  = (Ok tt, mkWorld (root_with (delete x m)) cw tr).
Proof.
  intros Hx. unfold rmtree.
  erewrite fs_update_run.
  2:{ cbn [fs]. apply (rmtree_child T _ m (resolve_root_with m) x d); eassumption. }
  cbn [cwd trace]. now rewrite put_root_with.
Qed.


Lemma path_mkdir_in_child (m : gmap string node) (x y : string) (d : gmap string node)
    (cw : Path) (tr : list event) :
  m !! x = Some (Dir d) -> d !! y = None ->
  path_mkdir (T </> x </> y) (mkWorld (root_with m) cw tr)
  = (Ok tt, mkWorld (root_with (<[x := Dir (<[y := Dir ∅]> d)]> m)) cw tr).
Proof.
  intros Hx Hy.
  rewrite (path_mkdir_run (T </> x) y _ d); cbn [fs cwd trace].
  - now rewrite put_child_root.
  - now apply resolve_child_root.
  - exact Hy.
Qed.

End Root.

(** ** Install: backup, attempt, roll back or commit *)

Section Protocol.
Import FS TranspilerInstaller.
Context (E : Env) (name : string) (n0 : node) (m : gmap string node).

Local Abbreviation T := (transpilers_path E).
Local Abbreviation P := (transpilers_path E </> name).
Local Abbreviation saved := (name +:+ "-saved").
Local Abbreviation B := (transpilers_path E </> (name +:+ "-saved")).
Local Abbreviation root_with := (root_with (transpilers_path E) n0).

(** The entries of the engines directory once an engine directory that
    was there has been renamed to the backup name. *)
Definition backed_up : gmap string node :=
  match m !! name with
  | Some old => <[saved := old]> (delete name m)
  | None => m
  end.

(** The entries at the end of the prepare phase: the backup, and a fresh
    engine directory holding an empty [lib]. *)
Definition prepared_entries : gmap string node :=
  <[name := Dir {["lib" := Dir ∅]}]> backed_up.

Definition installing (version : string) : event :=
  EvLog INFO ("Installing Databricks " +:+ name +:+ " transpiler v" +:+ version).

(** The rollback, as both installers write it. *)
Definition roll_back : M (option Path) :=
  rmtree P;;
  has_backup ← path_exists B;
  (if has_backup : bool then os_rename (win32 E) B P else mret tt);;
  mret None.

Hypothesis root_at : resolve T n0 = inr (Dir m).
Hypothesis no_stale : m !! saved = None.

Lemma saved_ne : name <> saved.
Proof. apply append_longer. discriminate. Qed.


Lemma backed_up_saved : backed_up !! saved = m !! name.
Proof.
  unfold backed_up. destruct (m !! name) eqn:Hname.
  - apply lookup_insert_eq.
  - exact no_stale.
Qed.


(** Dropping the backup leaves the entries of before the call with the
    new engine directory. *)
Lemma backup_dropped (c : node) :
  delete saved (<[name := c]> backed_up) = <[name := c]> m.
Proof.
  rewrite delete_insert_ne by (apply not_eq_sym, saved_ne).
  unfold backed_up. destruct (m !! name) eqn:Hname.
  - rewrite delete_insert_eq, (delete_id (delete name m)).
    + apply insert_delete_eq.
    + rewrite lookup_delete_ne by apply saved_ne. exact no_stale.
  - now rewrite delete_id by exact no_stale.
Qed.


(** The prepare phase, from a world without a stale backup. *)
Lemma prepare_run {A} (cw : Path) (tr : list event) (attempt : M A) :
  (had_product ← path_exists P;
   (if had_product : bool then os_rename (win32 E) P B else mret tt);;
   path_mkdir_parents P;;
   path_mkdir (P </> "lib");;
   attempt) (mkWorld n0 cw tr)
  = attempt (mkWorld (root_with prepared_entries) cw tr).
Proof.
  rewrite <- (root_with_id T n0 m root_at) at 1.
  rewrite bind_run, (path_exists_root T n0 m root_at). cbv beta iota.
  assert (Hlib : forall k : gmap string node,
             <[name := Dir (<["lib" := Dir ∅]> ∅)]> (<[name := Dir ∅]> k)
             = <[name := Dir {["lib" := Dir ∅]}]> k).
  { intros k. now rewrite insert_insert_eq, insert_empty. }
  destruct (m !! name) as [old|] eqn:Hname.
  - rewrite bind_run, (os_rename_root T n0 m root_at (win32 E) m name saved old _ _
                         Hname no_stale saved_ne).
    cbv beta iota.
    rewrite bind_run, (path_mkdir_parents_root T n0 m root_at).
    2:{ rewrite lookup_insert_ne by (apply not_eq_sym, saved_ne). apply lookup_delete_eq. }
    cbv beta iota.
    rewrite bind_run, (path_mkdir_in_child T n0 m root_at _ name "lib" ∅);
      [|apply lookup_insert_eq|apply lookup_empty].
    cbv beta iota. rewrite Hlib.
    unfold prepared_entries, backed_up. now rewrite Hname.
  - rewrite bind_run, ret_run. cbv beta iota.
    rewrite bind_run, (path_mkdir_parents_root T n0 m root_at _ _ _ _ Hname).
    cbv beta iota.
    rewrite bind_run, (path_mkdir_in_child T n0 m root_at _ name "lib" ∅);
      [|apply lookup_insert_eq|apply lookup_empty].
    cbv beta iota. rewrite Hlib.
    unfold prepared_entries, backed_up. now rewrite Hname.
Qed.

(** *** Maven *)

(** What [_install_version] does once the prepare phase is over. *)
Definition maven_attempt (group_id artifact_id version : string) : M (option Path) :=
  returned ←
    try_except
      (ok ← MavenInstaller._unsafe_install_version E name group_id artifact_id
              (P </> "lib") version;
       if ok : bool then
         logger.info ("Successfully installed " +:+ name +:+ " v" +:+ version);;
         _store_product_state E P version;;
         has_backup ← path_exists B;
         (if has_backup : bool then rmtree B else mret tt);;
         mret (Some P)
       else mret None)
      [CKeyError; CValueError]
      (fun _ =>
         logger.error ("Failed to install " +:+ name +:+ " v" +:+ version);;
         mret None);
  match returned with
  | Some p => mret (Some p)
  | None => roll_back
  end.

Lemma maven_install_version_run (group_id artifact_id version : string)
    (cw : Path) (tr : list event) :
  MavenInstaller._install_version E name group_id artifact_id version (mkWorld n0 cw tr)
  = maven_attempt group_id artifact_id version
      (mkWorld (root_with prepared_entries) cw (tr ++ [installing version])).
Proof.
  unfold MavenInstaller._install_version. cbv zeta.
  rewrite path_append_str_snoc.
  rewrite bind_run, logger_info_run. unfold log_to. cbn [fs cwd trace]. cbv beta iota.
  rewrite bind_run, path_exists_run. cbn [fs]. cbv beta iota.
  rewrite (exists_child T n0 m root_at), no_stale. cbv beta iota.
  rewrite bind_run, ret_run. cbv beta iota.
  apply (prepare_run cw (tr ++ [installing version])).
Qed.

(** The engine directory holding the record of [version] next to what the
    producer put in [d]. *)
Definition recorded_dir (version : string) (d : gmap string node) : node :=
  Dir (<["state" := Dir {["version.json" := File (record_text E version)]}]> d).

Lemma prepared_at_P :
  resolve P (root_with prepared_entries) = inr (Dir {["lib" := Dir ∅]}).
Proof. apply (resolve_child_root T n0 m root_at). apply lookup_insert_eq. Qed.



Lemma store_product_state_root (version : string) (d : gmap string node)
    (cw : Path) (tr : list event) :
  _store_product_state E P version (mkWorld (root_with (<[name := Dir d]> backed_up)) cw tr)
  = match d !! "state" with
    | None => (Ok tt, mkWorld (root_with (<[name := recorded_dir version d]> backed_up)) cw tr)
    | Some _ =>
        (Raise FileExistsError, mkWorld (root_with (<[name := Dir d]> backed_up)) cw tr)
    end.
Proof.
  assert (Hr : resolve P (root_with (<[name := Dir d]> backed_up)) = inr (Dir d))
    by (apply (resolve_child_root T n0 m root_at), lookup_insert_eq).
  destruct (d !! "state") as [c|] eqn:Hst.
  - unfold _store_product_state, path_mkdir. msimpl.
    now rewrite FSFacts.parent_entries_snoc, Hr, Hst.
  - rewrite (store_product_state_run E P version
               (mkWorld (root_with (<[name := Dir d]> backed_up)) cw tr) d Hr Hst).
    cbn [fs cwd trace].
    rewrite (put_child_root T n0 m root_at). now rewrite insert_insert_eq.
Qed.





(** *** Pypi *)



(** What [_install_latest_version] does once the prepare phase is over. *)
Definition pypi_attempt (pypi_name version : string) : M (option Path) :=
  try_except
    (result ← PypiInstaller._unsafe_install_latest_version E pypi_name P (P </> "lib")
                version;
     logger.info ("Successfully installed " +:+ pypi_name +:+ " v" +:+ version);;
     has_backup ← path_exists B;
     (if has_backup : bool then rmtree B else mret tt);;
     mret result)
    [CCalledProcessError; CValueError]
    (fun _ =>
       logger.error ("Failed to install " +:+ pypi_name +:+ " v" +:+ version);;
       roll_back).

Lemma pypi_install_latest_version_run (pypi_name version : string)
    (cw : Path) (tr : list event) :
  PypiInstaller._install_latest_version E name pypi_name version (mkWorld n0 cw tr)
  = pypi_attempt pypi_name version
      (mkWorld (root_with prepared_entries) cw (tr ++ [installing version])).
Proof.
  unfold PypiInstaller._install_latest_version. cbv zeta.
  rewrite path_append_str_snoc.
  rewrite bind_run, logger_info_run. unfold log_to. cbn [fs cwd trace]. cbv beta iota.
  apply (prepare_run cw (tr ++ [installing version])).
Qed.

(** The subprocesses that the producer starts (venv, pip, a custom
    installer) write below the engine directory only. *)
Definition subprocess_keeps_to_engine : Prop :=
  forall args shell dir n c,
    is_dir_node c = true -> resolve P n = inr c ->
    exists c', is_dir_node c' = true
               /\ snd (subprocess_run E args shell dir n) = put P (Some c') n.

Hypothesis subprocess_kept : subprocess_keeps_to_engine.





End Protocol.

(** The record a commit leaves is the one [get_installed_version] reads. *)

Section Atomicity.
Import FS TranspilerInstaller.
Context (E : Env) (name : string).


End Atomicity.

(** A subprocess that leaves the files alone keeps to the engine
    directory. *)
Lemma idle_subprocess_keeps_to_engine (E : Env) (name : string) :
  (forall args shell dir n, snd (subprocess_run E args shell dir n) = n) ->
  subprocess_keeps_to_engine E name.
Proof.
  intros Hidle args shell dir n c Hc Hr. exists c. split; [exact Hc|].
  rewrite Hidle. symmetry. now apply FSFacts.put_id.
Qed.

Module AtomicityExamples.
Import TranspilerInstaller Demo.

(** A host on which no subprocess succeeds. *)
Definition subprocess_failing : Env := {|
  home := home offline; win32 := false;
  sys_executable := sys_executable offline;
  utcnow_isoformat := utcnow_isoformat offline;
  tmp_name := tmp_name offline;
  tmp_dir := tmp_dir offline;
  urlopen := urlopen offline;
  urlretrieve := urlretrieve offline;
  subprocess_run := fun _ _ _ n => (inr 1%Z, n);
  ET_fromstring := ET_fromstring offline;
  ZipFile_members := ZipFile_members offline;
  LSPConfig_parse := LSPConfig_parse offline
|}.

(** A repository whose archives hold an LSP configuration. *)
Definition repository : Env := {|
  home := home offline; win32 := false;
  sys_executable := sys_executable offline;
  utcnow_isoformat := utcnow_isoformat offline;
  tmp_name := tmp_name offline;
  tmp_dir := tmp_dir offline;
  urlopen := fun _ => inr VersionResolutionExamples.two_versions_text;
  urlretrieve := fun _ => inr "archive";
  subprocess_run := subprocess_run offline;
  ET_fromstring := ET_fromstring VersionResolutionExamples.reading_two_versions;
  ZipFile_members := fun _ => Some {["lsp/config.yml" := "name: demo"]};
  LSPConfig_parse := LSPConfig_parse offline
|}.

(** The engine [demo], installed at version 1.2.3. *)
Definition installed : World := UpToDateExamples.recorded "1.2.3".

Definition installed_entries : gmap string node :=
  {["demo" :=
      Dir {["lib" := Dir ∅;
            "state" :=
              Dir {["version.json" :=
                      File (Json.dumps_str_dict
                              [("version", "v1.2.3");
                               ("date", "2025-01-01T00:00:00+00:00")])]}]}]}.

(** An archive that is not a zip file. *)
Definition broken_archive : Env := MavenDownloadExamples.serving "not a zip".

End AtomicityExamples.

(** ** Install: what the result tells *)

Section InstallResult.
Import FS TranspilerInstaller.
Context (E : Env) (name : string).

Local Abbreviation P := (transpilers_path E </> name).
Local Abbreviation B := (transpilers_path E </> (name +:+ "-saved")).










End InstallResult.


Section InstallResultClaim.
Import TranspilerInstaller.
Context (E : Env) (name : string).





End InstallResultClaim.

Module InstallResultExamples.
Import TranspilerInstaller Demo.
Import AtomicityExamples UpToDateExamples.

(** A repository that lists the versions and serves no archive. *)
Definition listing_only : Env := VersionResolutionExamples.reading_two_versions.


End InstallResultExamples.

(** * Further properties of the installer module *)

(** ** Discovery: what the queries agree on *)

Section DiscoveryQueries.
Import TranspilerInstaller.
Context (E : Env).

(** The descriptors the scan finds in the files [n], in listing order. *)
Definition discovered (n : node) : list LSPConfig :=
  match FS.resolve (transpilers_path E) n with
  | inr (Dir m) => omap (fun kv => engine_at E kv.1 kv.2) (map_to_list m)
  | _ => []
  end.

(** The records the scan logs. *)
Definition scan_log (n : node) : list event :=
  match FS.resolve (transpilers_path E) n with
  | inr (Dir m) => flat_map (fun kv => parse_failure E kv.1 kv.2) (map_to_list m)
  | _ => []
  end.

Lemma log_to_nil (w : World) : log_to w [] = w.
Proof. unfold log_to. rewrite app_nil_r. apply world_eta. Qed.

Lemma all_transpiler_configs_cases (w : World) :
  _all_transpiler_configs E w =
  match FS.resolve (transpilers_path E) (fs w) with
  | inr (File _) => (Raise NotADirectoryError, w)
  | _ => (Ok (discovered (fs w)), log_to w (scan_log (fs w)))
  end.
Proof.
  unfold discovered, scan_log, _all_transpiler_configs. msimpl.
  unfold FS.exists_, FS.lookup, FSOps.listdir.
  destruct (FS.resolve (transpilers_path E) (fs w)) as [e|[s|m]] eqn:Hroot;
    cbv beta iota.
  - now rewrite log_to_nil.
  - rewrite Hroot. reflexivity.
  - rewrite Hroot. cbv beta iota.
    apply (configs_of_run E m); [exact Hroot|].
    apply Forall_forall. intros [file entry] Hin.
    now apply elem_of_map_to_list in Hin.
Qed.

(** The dictionary [all_transpiler_configs] builds from the scan. *)
Definition by_name (configs : list LSPConfig) : gmap string LSPConfig :=
  foldl (fun m config => <[name config := config]> m) ∅ configs.

Lemma all_transpiler_configs_run (w : World) :
  all_transpiler_configs E w =
  match _all_transpiler_configs E w with
  | (Ok configs, w') => (Ok (by_name configs), w')
  | (Raise e, w') => (Raise e, w')
  end.
Proof.
  unfold all_transpiler_configs. rewrite bind_run.
  now destruct (_all_transpiler_configs E w) as [[configs|e] w'].
Qed.

(** A log record, as opposed to a request, a download or a subprocess. *)
Definition is_log (ev : event) : Prop :=
  match ev with
  | EvLog _ _ => True
  | EvUrlopen _ | EvUrlretrieve _ | EvRun _ _ _ => False
  end.

(** [w'] is [w] with log records added and nothing else: same files, same
    working directory, no request, no download, no subprocess. *)
Definition logged_only (w w' : World) : Prop :=
  fs w' = fs w /\ cwd w' = cwd w
  /\ exists evs, trace w' = trace w ++ evs /\ Forall is_log evs.

Lemma scan_log_logs (n : node) : Forall is_log (scan_log n).
Proof.
  unfold scan_log. destruct (FS.resolve _ n) as [e|[s|m]]; try constructor.
  apply Forall_flat_map, Forall_forall. intros [file entry] _.
  unfold parse_failure. cbn [fst snd].
  destruct (config_text entry); [|constructor].
  destruct (LSPConfig_parse E _ _); repeat constructor.
Qed.

Lemma scan_logged_only (w : World) (r : outcome (list LSPConfig)) (w' : World) :
  _all_transpiler_configs E w = (r, w') -> logged_only w w'.
Proof.
  rewrite all_transpiler_configs_cases.
  assert (Hlog : logged_only w (log_to w (scan_log (fs w)))).
  { refine (conj eq_refl (conj eq_refl _)). exists (scan_log (fs w)).
    split; [reflexivity | apply scan_log_logs]. }
  destruct (FS.resolve (transpilers_path E) (fs w)) as [e|[s|m]];
    intros [= _ <-]; try exact Hlog.
  refine (conj eq_refl (conj eq_refl _)). exists [].
  split; [now rewrite app_nil_r | constructor].
Qed.

Lemma dict_logged_only (w : World) (r : outcome (gmap string LSPConfig)) (w' : World) :
  all_transpiler_configs E w = (r, w') -> logged_only w w'.
Proof.
  rewrite all_transpiler_configs_run.
  destruct (_all_transpiler_configs E w) as [[configs|e] w1] eqn:Hscan;
    intros [= _ <-]; eapply scan_logged_only; exact Hscan.
Qed.

(** X1.  The queries read and log, and do nothing else: whatever they return
    or raise, the files and the working directory are as before, and the
    trace has grown by log records only (no request, no download, no
    subprocess). *)
Theorem discovery_is_read_only (w : World) :
  (forall r w', all_transpiler_configs E w = (r, w') -> logged_only w w')
  /\ (forall r w', all_transpiler_names E w = (r, w') -> logged_only w w')
  /\ (forall r w', all_dialects E w = (r, w') -> logged_only w w')
  /\ (forall dialect r w',
        transpilers_with_dialect E dialect w = (r, w') -> logged_only w w')
  /\ (forall transpiler_name r w',
        transpiler_config_path E transpiler_name w = (r, w') -> logged_only w w')
  /\ (forall transpiler_name source_dialect r w',
        transpiler_config_options E transpiler_name source_dialect w = (r, w') ->
        logged_only w w').
Proof.
  refine (conj _ (conj _ (conj _ (conj _ (conj _ _))))).
  - intros r w'. apply dict_logged_only.
  - intros r w'. unfold all_transpiler_names. rewrite bind_run.
    destruct (all_transpiler_configs E w) as [[d|e] w1] eqn:Hd;
      intros [= _ <-]; eapply dict_logged_only; exact Hd.
  - intros r w'. unfold all_dialects. rewrite bind_run.
    destruct (_all_transpiler_configs E w) as [[d|e] w1] eqn:Hd;
      intros [= _ <-]; eapply scan_logged_only; exact Hd.
  - intros dialect r w'. unfold transpilers_with_dialect. rewrite bind_run.
    destruct (all_transpiler_configs E w) as [[d|e] w1] eqn:Hd;
      intros [= _ <-]; eapply dict_logged_only; exact Hd.
  - intros transpiler_name r w'. unfold transpiler_config_path. rewrite bind_run.
    destruct (all_transpiler_configs E w) as [[d|e] w1] eqn:Hd.
    + destruct (d !! transpiler_name); intros [= _ <-]; eapply dict_logged_only; exact Hd.
    + intros [= _ <-]; eapply dict_logged_only; exact Hd.
  - intros transpiler_name source_dialect r w'.
    unfold transpiler_config_options. rewrite bind_run.
    destruct (all_transpiler_configs E w) as [[d|e] w1] eqn:Hd.
    + destruct (d !! transpiler_name); intros [= _ <-]; eapply dict_logged_only; exact Hd.
    + intros [= _ <-]; eapply dict_logged_only; exact Hd.
Qed.

(** X2.  The scan raises exactly when the engines path is a regular file: the
    path exists, and listing it fails.  A missing engines directory is an
    empty result, not an error. *)
Theorem scan_raises_on_a_file_only (w : World) :
  (FS.is_file (transpilers_path E) (fs w) = true ->
   _all_transpiler_configs E w = (Raise NotADirectoryError, w))
  /\ (FS.is_file (transpilers_path E) (fs w) = false ->
      exists configs w', _all_transpiler_configs E w = (Ok configs, w'))
  /\ (FS.exists_ (transpilers_path E) (fs w) = false ->
      all_transpiler_names E w = (Ok ∅, w) /\ all_dialects E w = (Ok ∅, w)).
Proof.
  rewrite all_transpiler_configs_cases.
  unfold FS.is_file, FS.exists_, FS.lookup. split; [|split].
  - destruct (FS.resolve (transpilers_path E) (fs w)) as [e|[s|m]];
      [discriminate|reflexivity|discriminate].
  - destruct (FS.resolve (transpilers_path E) (fs w)) as [e|[s|m]];
      [eauto|discriminate|eauto].
  - intros Hex. unfold all_transpiler_names, all_dialects.
    rewrite bind_run, all_transpiler_configs_run, bind_run, all_transpiler_configs_cases.
    unfold discovered, scan_log.
    destruct (FS.resolve (transpilers_path E) (fs w)) as [e|[s|m]];
      [|discriminate|discriminate].
    rewrite log_to_nil. split; reflexivity.
Qed.

End DiscoveryQueries.

Section DiscoveryRelations.
Import TranspilerInstaller.
Context (E : Env).

Lemma by_name_snoc (configs : list LSPConfig) (config : LSPConfig) :
  by_name (configs ++ [config]) = <[name config := config]> (by_name configs).
Proof. unfold by_name. now rewrite foldl_app. Qed.

(** An entry of the dictionary is one of the scanned descriptors, under
    its own name. *)
Lemma by_name_lookup (configs : list LSPConfig) (t : string) (config : LSPConfig) :
  by_name configs !! t = Some config -> config ∈ configs /\ name config = t.
Proof.
  induction configs as [|c configs IH] using rev_ind.
  - unfold by_name. cbn. now rewrite lookup_empty.
  - rewrite by_name_snoc. destruct (decide (name c = t)) as [<-|Hne].
    + rewrite lookup_insert_eq. intros [= <-]. split; [|reflexivity].
      apply elem_of_app. right. apply list_elem_of_here.
    + rewrite lookup_insert_ne by exact Hne. intros H.
      destruct (IH H) as [Hin Hname]. split; [|exact Hname].
      apply elem_of_app. now left.
Qed.

Lemma by_name_dom (configs : list LSPConfig) (t : string) :
  t ∈ dom (by_name configs) <-> exists config, config ∈ configs /\ name config = t.
Proof.
  rewrite elem_of_dom. split.
  - intros [config H]. exists config. now apply by_name_lookup.
  - intros (config & Hin & <-). revert Hin.
    induction configs as [|c configs IH] using rev_ind; [now intros ?%elem_of_nil|].
    rewrite by_name_snoc. intros [Hin|Hin%list_elem_of_singleton]%elem_of_app.
    + destruct (decide (name c = name config)) as [->|Hne].
      * rewrite lookup_insert_eq. eauto.
      * rewrite lookup_insert_ne by exact Hne. now apply IH.
    + subst c. rewrite lookup_insert_eq. eauto.
Qed.

(** With distinct names, every scanned descriptor is in the dictionary. *)
Lemma by_name_distinct (configs : list LSPConfig) (config : LSPConfig) :
  NoDup (name <$> configs) -> config ∈ configs ->
  by_name configs !! name config = Some config.
Proof.
  induction configs as [|c configs IH] using rev_ind; [now intros _ ?%elem_of_nil|].
  rewrite fmap_app, by_name_snoc. intros Hnd%NoDup_app.
  destruct Hnd as (Hnd & Hfresh & _).
  intros [Hin|Hin%list_elem_of_singleton]%elem_of_app.
  - rewrite lookup_insert_ne; [now apply IH|].
    intros Heq. apply (Hfresh (name config)).
    + apply list_elem_of_fmap. now exists config.
    + rewrite <- Heq. cbn. apply list_elem_of_here.
  - subst c. apply lookup_insert_eq.
Qed.

(** The union [all_dialects] accumulates. *)
Definition dialects_of (configs : list LSPConfig) : gset string :=
  foldl (fun acc config => acc ∪ list_to_set (dialects (remorph config))) ∅ configs.

Lemma dialects_of_elem (configs : list LSPConfig) (d : string) :
  d ∈ dialects_of configs <->
  exists config, config ∈ configs /\ d ∈ dialects (remorph config).
Proof.
  unfold dialects_of.
  induction configs as [|c configs IH] using rev_ind.
  - cbn. split; [now intros ?%elem_of_empty|].
    now intros (config & ?%elem_of_nil & _).
  - rewrite foldl_app. cbn [foldl]. rewrite elem_of_union, IH, elem_of_list_to_set.
    split.
    + intros [(config & Hin & Hd)|Hd].
      * exists config. split; [|exact Hd]. apply elem_of_app. now left.
      * exists c. split; [|exact Hd]. apply elem_of_app. right.
        apply list_elem_of_here.
    + intros (config & [Hin|Hin%list_elem_of_singleton]%elem_of_app & Hd).
      * left. eauto.
      * subst c. now right.
Qed.

Lemma transpilers_with_dialect_elem (all_configs : gmap string LSPConfig)
    (dialect t : string) :
  t ∈ dom (filter (fun kv => dialect ∈ dialects (remorph kv.2)) all_configs) <->
  exists config, all_configs !! t = Some config /\ dialect ∈ dialects (remorph config).
Proof.
  rewrite elem_of_dom. split.
  - intros [config H]. apply map_lookup_filter_Some in H. eauto.
  - intros (config & Hl & Hd). exists config. now apply map_lookup_filter_Some.
Qed.

(** X3.  A transpiler that [transpilers_with_dialect] returns is one that
    [all_transpiler_names] lists, and its dialect is one that
    [all_dialects] lists. *)
Theorem transpilers_with_dialect_are_known (dialect : string) (w : World)
    (transpilers : gset string) (w' : World) :
  transpilers_with_dialect E dialect w = (Ok transpilers, w') ->
  exists names all,
    all_transpiler_names E w = (Ok names, w')
    /\ all_dialects E w = (Ok all, w')
    /\ transpilers ⊆ names
    /\ (forall t, t ∈ transpilers -> dialect ∈ all).
Proof.
  unfold transpilers_with_dialect, all_transpiler_names, all_dialects.
  rewrite !bind_run, all_transpiler_configs_run.
  destruct (_all_transpiler_configs E w) as [[configs|e] w1]; [|discriminate].
  intros [= <- <-]. eexists _, _. split; [reflexivity|]. split; [reflexivity|].
  fold (dialects_of configs). split.
  - intros t Ht. apply transpilers_with_dialect_elem in Ht as (config & Hl & _).
    apply elem_of_dom. eauto.
  - intros t Ht. apply transpilers_with_dialect_elem in Ht as (config & Hl & Hd).
    apply dialects_of_elem. exists config. split; [|exact Hd].
    now apply by_name_lookup in Hl.
Qed.

(** X4.  When the scanned descriptors have distinct names, every dialect that
    [all_dialects] lists has a transpiler. *)
Theorem listed_dialect_has_a_transpiler (dialect : string) (w : World)
    (configs : list LSPConfig) (all : gset string) (w' : World) :
  _all_transpiler_configs E w = (Ok configs, w') ->
  NoDup (name <$> configs) ->
  all_dialects E w = (Ok all, w') ->
  dialect ∈ all ->
  exists transpilers t,
    transpilers_with_dialect E dialect w = (Ok transpilers, w') /\ t ∈ transpilers.
Proof.
  intros Hscan Hnd. unfold transpilers_with_dialect, all_dialects.
  rewrite !bind_run, all_transpiler_configs_run, Hscan.
  intros [= <-]. fold (dialects_of configs).
  intros (config & Hin & Hd)%dialects_of_elem.
  eexists _, (name config). split; [reflexivity|].
  apply transpilers_with_dialect_elem. exists config. split; [|exact Hd].
  now apply by_name_distinct.
Qed.

(** X5.  [transpiler_config_path] returns a path for exactly the names that
    [all_transpiler_names] lists, and raises [ValueError] for any other. *)
Theorem transpiler_config_path_of_known_names (transpiler_name : string) (w : World)
    (names : gset string) (w' : World) :
  all_transpiler_names E w = (Ok names, w') ->
  (transpiler_name ∈ names ->
   exists p, transpiler_config_path E transpiler_name w = (Ok p, w'))
  /\ (transpiler_name ∉ names ->
      transpiler_config_path E transpiler_name w = (Raise ValueError, w')).
Proof.
  unfold all_transpiler_names, transpiler_config_path.
  rewrite !bind_run.
  destruct (all_transpiler_configs E w) as [[all_configs|e] w1]; [|discriminate].
  intros [= <- <-]. split.
  - intros [config Hl]%elem_of_dom. rewrite Hl. eauto.
  - intros Hnot%not_elem_of_dom. now rewrite Hnot.
Qed.

End DiscoveryRelations.

Module DiscoveryQueryExamples.
Import TranspilerInstaller Demo DiscoveryExamples.

Definition scanned : World :=
  log_to (world_of engines_root)
    [EvLog ERROR
       "Could not load config: /home/user/.databricks/labs/remorph-transpilers/broken"].

(** The engines path taken by a regular file. *)
Definition root_is_a_file : node := tree_at (transpilers_path reading_configs) (File "x").

Lemma discovery_is_read_only_witness :
  logged_only (world_of engines_root) scanned.
Proof.
  eapply (proj1 (proj2 (proj2 (proj2 (proj2
            (discovery_is_read_only reading_configs (world_of engines_root))))))
            "Bladerunner" (Raise ValueError)).
  vm_compute. reflexivity.
Defined.

Lemma scan_raises_on_a_file_only_witness :
  _all_transpiler_configs reading_configs (world_of root_is_a_file)
    = (Raise NotADirectoryError, world_of root_is_a_file)
  /\ (exists configs w',
        _all_transpiler_configs reading_configs (world_of engines_root) = (Ok configs, w'))
  /\ all_transpiler_names reading_configs (world_of (Dir ∅)) = (Ok ∅, world_of (Dir ∅))
  /\ all_dialects reading_configs (world_of (Dir ∅)) = (Ok ∅, world_of (Dir ∅)).
Proof.
  split; [|split].
  - apply (proj1 (scan_raises_on_a_file_only reading_configs (world_of root_is_a_file))).
    vm_compute. reflexivity.
  - apply (proj1 (proj2 (scan_raises_on_a_file_only reading_configs
                           (world_of engines_root)))).
    vm_compute. reflexivity.
  - apply (proj2 (proj2 (scan_raises_on_a_file_only reading_configs (world_of (Dir ∅))))).
    vm_compute. reflexivity.
Defined.

Lemma transpilers_with_dialect_are_known_witness :
  exists names all,
    all_transpiler_names reading_configs (world_of engines_root) = (Ok names, scanned)
    /\ all_dialects reading_configs (world_of engines_root) = (Ok all, scanned)
    /\ ({["Morpheus"]} : gset string) ⊆ names
    /\ (forall t, t ∈ ({["Morpheus"]} : gset string) -> "snowflake" ∈ all).
Proof.
  apply (transpilers_with_dialect_are_known reading_configs "snowflake"
           (world_of engines_root) ({["Morpheus"]} : gset string) scanned).
  vm_compute. reflexivity.
Defined.

Lemma listed_dialect_has_a_transpiler_witness :
  exists transpilers t,
    transpilers_with_dialect reading_configs "snowflake" (world_of engines_root)
      = (Ok transpilers, scanned)
    /\ t ∈ transpilers.
Proof.
  apply (listed_dialect_has_a_transpiler reading_configs "snowflake"
           (world_of engines_root) [morpheus] ({["snowflake"]} : gset string) scanned).
  - vm_compute. reflexivity.
  - apply NoDup_singleton.
  - vm_compute. reflexivity.
  - now apply elem_of_singleton.
Defined.

Lemma transpiler_config_path_of_known_names_witness :
  (exists p,
     transpiler_config_path reading_configs "Morpheus" (world_of engines_root)
     = (Ok p, scanned))
  /\ transpiler_config_path reading_configs "Bladerunner" (world_of engines_root)
     = (Raise ValueError, scanned).
Proof.
  split.
  - refine (proj1 (transpiler_config_path_of_known_names reading_configs "Morpheus"
                     (world_of engines_root) ({["Morpheus"]} : gset string) scanned _) _).
    + vm_compute. reflexivity.
    + now apply elem_of_singleton.
  - refine (proj2 (transpiler_config_path_of_known_names reading_configs "Bladerunner"
                     (world_of engines_root) ({["Morpheus"]} : gset string) scanned _) _).
    + vm_compute. reflexivity.
    + intros H%elem_of_singleton. discriminate.
Defined.

End DiscoveryQueryExamples.

(** ** Registry lookups: replies and failures *)

Section Lookups.
Context (E : Env).

(** X6.  The Maven lookup logs an [HTTPError] and returns [None]; it never
    raises an [HTTPError]; and whatever it returns or raises, it leaves
    the files and the working directory alone. *)
Theorem maven_lookup_http_error (group_id artifact_id : string) (w : World) :
  let url := MavenInstaller.artifact_metadata_url group_id artifact_id in
  (forall e, urlopen E url = inl e -> isinstance e CHTTPError = true ->
     MavenInstaller.get_current_maven_artifact_version E group_id artifact_id w
     = (Ok None,
        log_to w [EvUrlopen url;
                  EvLog ERROR ("Error while fetching maven metadata: " +:+ group_id
                                 +:+ ":" +:+ artifact_id)]))
  /\ (forall e w',
        MavenInstaller.get_current_maven_artifact_version E group_id artifact_id w
        = (Raise e, w') ->
        isinstance e CHTTPError = false)
  /\ (forall r w',
        MavenInstaller.get_current_maven_artifact_version E group_id artifact_id w
        = (r, w') ->
        fs w' = fs w /\ cwd w' = cwd w).
Proof.
  cbv zeta. rewrite get_current_maven_artifact_version_run. cbv zeta.
  refine (conj _ (conj _ _)).
  - intros e -> ->. reflexivity.
  - intros e w'. destruct (urlopen E _) as [e0|text].
    + destruct (isinstance e0 CHTTPError) eqn:He0; [discriminate|].
      now intros [= <- _].
    + destruct (ET_fromstring E text); [discriminate|]. now intros [= <- _].
  - intros r w'. destruct (urlopen E _) as [e0|text].
    + destruct (isinstance e0 CHTTPError); now intros [= _ <-].
    + destruct (ET_fromstring E text); now intros [= _ <-].
Qed.


End Lookups.

(** ** The version record is written once *)

Section StoreProductState.
Import TranspilerInstaller.
Context (E : Env).

(** X8.  [_store_product_state] writes the record into a product directory
    that has no [state] entry; in every other case it raises and changes
    nothing: an existing [state] is never written over. *)
Theorem store_product_state_outcome (product_path : Path) (version : string)
    (w : World) :
  _store_product_state E product_path version w =
  match FS.resolve product_path (fs w) with
  | inr (Dir d) =>
      match d !! "state" with
      | None =>
          (Ok tt,
           mkWorld (FS.put product_path (Some (recorded_dir E version d)) (fs w))
             (cwd w) (trace w))
      | Some _ => (Raise FileExistsError, w)
      end
  | inr (File _) => (Raise NotADirectoryError, w)
  | inl e => (Raise e, w)
  end.
Proof.
  destruct (FS.resolve product_path (fs w)) as [e|[s|d]] eqn:Hr.
  - unfold _store_product_state, path_mkdir. msimpl.
    now rewrite FSFacts.parent_entries_snoc, Hr.
  - unfold _store_product_state, path_mkdir. msimpl.
    now rewrite FSFacts.parent_entries_snoc, Hr.
  - destruct (d !! "state") as [c|] eqn:Hst.
    + unfold _store_product_state, path_mkdir. msimpl.
      rewrite FSFacts.parent_entries_snoc, Hr. cbv beta iota. now rewrite Hst.
    + apply (store_product_state_run E product_path version w d Hr Hst).
Qed.

End StoreProductState.

Module LookupExamples.
Import Demo.

(** A registry that answers every request with [text]. *)
Definition replying (text : string) : Env := {|
  home := home offline; win32 := false;
  sys_executable := sys_executable offline;
  utcnow_isoformat := utcnow_isoformat offline;
  tmp_name := tmp_name offline;
  tmp_dir := tmp_dir offline;
  urlopen := fun _ => inr text;
  urlretrieve := urlretrieve offline;
  subprocess_run := subprocess_run offline;
  ET_fromstring := ET_fromstring offline;
  ZipFile_members := ZipFile_members offline;
  LSPConfig_parse := LSPConfig_parse offline
|}.


Lemma maven_lookup_http_error_witness :
  MavenInstaller.get_current_maven_artifact_version PypiLookupExamples.not_found
    "com.databricks" "demo-engine" (world_of (Dir ∅))
  = (Ok None,
     log_to (world_of (Dir ∅))
       [EvUrlopen (MavenInstaller.artifact_metadata_url "com.databricks" "demo-engine");
        EvLog ERROR "Error while fetching maven metadata: com.databricks:demo-engine"])
  /\ isinstance URLError CHTTPError = false
  /\ isinstance ParseError CHTTPError = false.
Proof.
  split; [|split].
  - apply (proj1 (maven_lookup_http_error PypiLookupExamples.not_found
                    "com.databricks" "demo-engine" (world_of (Dir ∅))) HTTPError);
      reflexivity.
  - eapply (proj1 (proj2 (maven_lookup_http_error offline
                            "com.databricks" "demo-engine" (world_of (Dir ∅))))).
    vm_compute. reflexivity.
  - eapply (proj1 (proj2 (maven_lookup_http_error (replying "not xml")
                            "com.databricks" "demo-engine" (world_of (Dir ∅))))).
    vm_compute. reflexivity.
Defined.



End LookupExamples.

(** ** The Maven producer *)

(** File operations below a directory [D] whose entries are known. *)
Section InDirectory.
Import FS.
Context (D : Path) (n0 : node) (d0 : gmap string node).
Hypothesis D_at : resolve D n0 = inr (Dir d0).

Local Abbreviation dir_with := (root_with D n0).

Lemma read_text_in (d : gmap string node) (x body : string) :
  d !! x = Some (File body) ->
  FSOps.read_text (D </> x) (dir_with d) = inr body.
Proof.
  intros Hx. unfold FSOps.read_text.
  now rewrite (resolve_child_root D n0 d0 D_at d x _ Hx).
Qed.

Lemma path_mkdir_in (d : gmap string node) (x : string) (cw : Path) (tr : list event) :
  d !! x = None ->
  path_mkdir (D </> x) (mkWorld (dir_with d) cw tr)
  = (Ok tt, mkWorld (dir_with (<[x := Dir ∅]> d)) cw tr).
Proof.
  intros Hx.
  rewrite (path_mkdir_run D x (mkWorld (dir_with d) cw tr) d
             (resolve_root_with D n0 d0 D_at d) Hx).
  cbn [fs cwd trace]. now rewrite put_root_with.
Qed.

Lemma write_text_in_child (d dx : gmap string node) (x y s : string) :
  d !! x = Some (Dir dx) -> dx !! y = None ->
  FSOps.write_text (D </> x </> y) s (dir_with d)
  = inr (dir_with (<[x := Dir (<[y := File s]> dx)]> d)).
Proof.
  intros Hx Hy. unfold FSOps.write_text.
  pose proof (resolve_child_root D n0 d0 D_at d x _ Hx) as Hr.
  rewrite FSFacts.parent_entries_snoc, Hr, Hy.
  rewrite (FSFacts.put_snoc _ _ _ _ _ Hr).
  now rewrite (put_child_root D n0 d0 D_at).
Qed.

Lemma move_out_of_child (win : bool) (d dx : gmap string node) (x y z c : string) :
  d !! x = Some (Dir dx) -> dx !! y = Some (File c) -> d !! z = None -> x <> z ->
  FSOps.move win (D </> x </> y) (D </> z) (dir_with d)
  = inr (dir_with (<[z := File c]> (<[x := Dir (delete y dx)]> d))).
Proof.
  intros Hx Hy Hz Hxz.
  pose proof (resolve_root_with D n0 d0 D_at d) as HD.
  pose proof (resolve_child_root D n0 d0 D_at d x _ Hx) as Hrx.
  assert (Hsrc : resolve (D </> x </> y) (dir_with d) = inr (File c))
    by now rewrite FSFacts.resolve_snoc, Hrx, Hy.
  assert (Hdst : resolve (D </> z) (dir_with d) = inl FileNotFoundError)
    by now rewrite FSFacts.resolve_snoc, HD, Hz.
  unfold FSOps.move. cbv zeta. unfold is_dir, exists_, lookup.
  rewrite Hdst. cbv beta iota. cbn [andb]. rewrite Hsrc, Hdst. cbv beta iota.
  unfold FSOps.rename. rewrite Hsrc, FSFacts.parent_entries_snoc, HD.
  assert (Hne : FSOps.path_eqb (D </> x </> y) (D </> z) = false).
  { unfold FSOps.path_eqb. apply bool_decide_eq_false. unfold path_div.
    rewrite <- app_assoc. intros Heq%app_inv_head. discriminate. }
  assert (Hpre : FSOps.is_prefix (D </> x </> y) (D </> z) = false).
  { unfold FSOps.is_prefix, path_div. rewrite <- app_assoc, relative_to_app.
    cbn [app relative_to].
    destruct (String.eqb_spec x z); [contradiction | reflexivity]. }
  rewrite Hne, Hpre, Hz. f_equal.
  rewrite (FSFacts.put_snoc _ y None _ _ Hrx).
  rewrite (put_child_root D n0 d0 D_at).
  now rewrite (put_child_root D n0 d0 D_at).
Qed.

Lemma rmdir_in (d : gmap string node) (x : string) :
  d !! x = Some (Dir ∅) ->
  FSOps.rmdir (D </> x) (dir_with d) = inr (dir_with (delete x d)).
Proof.
  intros Hx. unfold FSOps.rmdir.
  rewrite (resolve_child_root D n0 d0 D_at d x _ Hx).
  rewrite bool_decide_eq_true_2 by reflexivity.
  rewrite (put_child D _ d (resolve_root_with D n0 d0 D_at d) x None).
  rewrite put_root_with.
  destruct (D </> x) eqn:Heq; [|reflexivity].
  unfold path_div in Heq. now apply app_eq_nil in Heq as [_ ?].
Qed.

End InDirectory.

Section MavenProducer.
Import FS TranspilerInstaller.
Context (E : Env).

Lemma fs_update_at (f : node -> exn + node) (n n' : node) (cw : Path)
    (tr : list event) :
  f n = inr n' -> fs_update f (mkWorld n cw tr) = (Ok tt, mkWorld n' cw tr).
Proof. intros H. now rewrite (fs_update_run f (mkWorld n cw tr) n' H). Qed.

Lemma copy_lsp_config_in (install_path : Path) (n0 : node) (d0 d : gmap string node)
    (jar body content : string) (members : gmap string string)
    (cw : Path) (tr : list event) :
  resolve install_path n0 = inr (Dir d0) ->
  d !! jar = Some (File body) -> d !! "lsp" = None -> d !! "config.yml" = None ->
  ZipFile_members E body = Some members ->
  members !! "lsp/config.yml" = Some content ->
  MavenInstaller._copy_lsp_config E install_path (install_path </> jar)
    (mkWorld (root_with install_path n0 d) cw tr)
  = (Ok tt, mkWorld (root_with install_path n0 (<["config.yml" := File content]> d)) cw tr).
Proof.
  intros Hat Hjar Hlsp Hcfg Hzip Hmember.
  unfold MavenInstaller._copy_lsp_config.
  rewrite bind_run. unfold path_read_text, fs_read at 1.
  rewrite bind_run. unfold get_fs at 1. cbn [fs]. cbv beta iota.
  rewrite (read_text_in install_path n0 d0 Hat d jar body Hjar).
  unfold lift at 1. rewrite ret_run. cbv beta iota.
  rewrite Hzip, Hmember.
  rewrite bind_run, (path_exists_root install_path n0 d0 Hat), Hlsp. cbv beta iota.
  rewrite bind_run, (path_mkdir_in install_path n0 d0 Hat d "lsp" cw tr Hlsp).
  cbv beta iota.
  rewrite bind_run. unfold path_write_text.
  erewrite fs_update_at.
  2:{ eapply (write_text_in_child install_path n0 d0 Hat).
      - apply lookup_insert_eq.
      - apply lookup_empty. }
  cbv beta iota. rewrite insert_insert_eq.
  rewrite bind_run. unfold shutil_move.
  erewrite fs_update_at.
  2:{ eapply (move_out_of_child install_path n0 d0 Hat).
      - apply lookup_insert_eq.
      - apply lookup_insert_eq.
      - rewrite lookup_insert_ne by discriminate. exact Hcfg.
      - discriminate. }
  cbv beta iota. rewrite insert_insert_eq, delete_insert_eq, delete_empty.
  unfold os_rmdir.
  erewrite fs_update_at.
  2:{ eapply (rmdir_in install_path n0 d0 Hat).
      rewrite lookup_insert_ne by discriminate. apply lookup_insert_eq. }
  rewrite delete_insert_ne by discriminate.
  rewrite delete_insert_eq, (delete_id _ _ Hlsp). reflexivity.
Qed.

(** X9.  On a [lib] directory that holds the archive and has neither an [lsp]
    nor a [config.yml] entry, [_copy_lsp_config] puts the archive's
    [lsp/config.yml] at [lib/config.yml]; the [lsp] directory it extracts
    into is gone again, and the other entries of [lib], the archive among
    them, are as before. *)
Theorem copy_lsp_config_extracts (install_path : Path) (w : World)
    (d : gmap string node) (jar body content : string)
    (members : gmap string string) :
  resolve install_path (fs w) = inr (Dir d) ->
  d !! jar = Some (File body) -> d !! "lsp" = None -> d !! "config.yml" = None ->
  ZipFile_members E body = Some members ->
  members !! "lsp/config.yml" = Some content ->
  MavenInstaller._copy_lsp_config E install_path (install_path </> jar) w
  = (Ok tt,
     mkWorld (put install_path (Some (Dir (<["config.yml" := File content]> d))) (fs w))
       (cwd w) (trace w)).
Proof.
  intros Hat Hjar Hlsp Hcfg Hzip Hmember.
  rewrite <- (world_eta w) at 1.
  rewrite <- (root_with_id install_path (fs w) d Hat) at 1.
  apply (copy_lsp_config_in install_path (fs w) d d jar body content members
           (cwd w) (trace w) Hat Hjar Hlsp Hcfg Hzip Hmember).
Qed.

(** X10.  An archive that is not a zip file raises [BadZipFile], and one
    without the member [lsp/config.yml] raises [KeyError]; in both cases
    no file has changed. *)
Theorem copy_lsp_config_rejects (install_path jar_file_path : Path) (w : World)
    (body : string) :
  FSOps.read_text jar_file_path (fs w) = inr body ->
  (ZipFile_members E body = None ->
   MavenInstaller._copy_lsp_config E install_path jar_file_path w = (Raise BadZipFile, w))
  /\ (forall members,
        ZipFile_members E body = Some members ->
        members !! "lsp/config.yml" = None ->
        MavenInstaller._copy_lsp_config E install_path jar_file_path w
        = (Raise KeyError, w)).
Proof.
  intros Hread. unfold MavenInstaller._copy_lsp_config. msimpl. rewrite Hread.
  cbv beta iota. split.
  - now intros ->.
  - now intros members -> ->.
Qed.

End MavenProducer.

(** The last character of a string. *)
Fixpoint string_last (s : string) : option ascii :=
  match s with
  | EmptyString => None
  | String c EmptyString => Some c
  | String _ s' => string_last s'
  end.

Lemma string_last_append (a b : string) :
  b <> EmptyString -> string_last (a +:+ b) = string_last b.
Proof.
  intros Hb. induction a as [|c a IH]; [reflexivity|].
  cbn [String.append string_last]. rewrite IH.
  destruct (a +:+ b) eqn:Hab; [|reflexivity].
  destruct a; [cbn in Hab; contradiction | discriminate].
Qed.

(** The name of the archive is none of the names [_copy_lsp_config]
    works with. *)
Lemma jar_name_ne (artifact_id s : string) :
  string_last s <> Some "r"%char -> artifact_id +:+ ".jar" <> s.
Proof.
  intros Hs Heq. apply Hs. rewrite <- Heq.
  now rewrite string_last_append by discriminate.
Qed.

Section MavenFreshInstall.
Import FS TranspilerInstaller.
Context (E : Env).

Lemma maven_producer_fresh_run (product_name group_id artifact_id version : string)
    (install_path : Path) (w : World) (body content : string)
    (members : gmap string string) :
  resolve install_path (fs w) = inr (Dir ∅) ->
  urlretrieve E (MavenInstaller.artifact_url group_id artifact_id version None "jar")
    = inr body ->
  ZipFile_members E body = Some members ->
  members !! "lsp/config.yml" = Some content ->
  exists w',
    MavenInstaller._unsafe_install_version E product_name group_id artifact_id
      install_path version w = (Ok true, w')
    /\ fs w' = put install_path
                 (Some (Dir (<["config.yml" := File content]>
                               {[artifact_id +:+ ".jar" := File body]}))) (fs w)
    /\ cwd w' = cwd w.
Proof.
  intros Hat Hfetch Hzip Hmember.
  unfold MavenInstaller._unsafe_install_version. cbv zeta.
  rewrite bind_run, download_artifact_from_maven_run.
  assert (Hex : exists_ (install_path </> (artifact_id +:+ ".jar")) (fs w) = false).
  { unfold exists_, lookup. now rewrite FSFacts.resolve_snoc, Hat, lookup_empty. }
  rewrite Hex, Hfetch. unfold FSOps.write_text.
  rewrite FSFacts.parent_entries_snoc, Hat, lookup_empty.
  rewrite (FSFacts.put_snoc _ _ _ _ _ Hat). cbv beta iota. cbn [negb].
  rewrite bind_run.
  fold (root_with install_path (fs w) (<[artifact_id +:+ ".jar" := File body]> ∅)).
  rewrite (copy_lsp_config_in E install_path (fs w) ∅
             (<[artifact_id +:+ ".jar" := File body]> ∅) _ body content members
             _ _ Hat (lookup_insert_eq _ _ _)); try assumption.
  - cbv beta iota. rewrite ret_run. eexists. split; [reflexivity|].
    cbn [fs cwd]. split; [|reflexivity]. now rewrite insert_empty.
  - rewrite lookup_insert_ne by (apply jar_name_ne; discriminate). apply lookup_empty.
  - rewrite lookup_insert_ne by (apply jar_name_ne; discriminate). apply lookup_empty.
Qed.


(** X11.  The producer steps of a Maven install, on a fresh [lib] directory and
    with a repository that serves an archive holding [lsp/config.yml]:
    they return [True] and leave in [lib] exactly the archive and the
    extracted [config.yml], which reads as the archive's member. *)
Theorem maven_producer_on_fresh_lib (product_name group_id artifact_id version : string)
    (install_path : Path) (w : World) (body content : string)
    (members : gmap string string) :
  resolve install_path (fs w) = inr (Dir ∅) ->
  urlretrieve E (MavenInstaller.artifact_url group_id artifact_id version None "jar")
    = inr body ->
  ZipFile_members E body = Some members ->
  members !! "lsp/config.yml" = Some content ->
  exists w',
    MavenInstaller._unsafe_install_version E product_name group_id artifact_id
      install_path version w = (Ok true, w')
    /\ fs w' = put install_path
                 (Some (Dir (<["config.yml" := File content]>
                               {[artifact_id +:+ ".jar" := File body]}))) (fs w)
    /\ cwd w' = cwd w
    /\ FSOps.read_text (install_path </> "config.yml") (fs w') = inr content
    /\ FSOps.read_text (install_path </> (artifact_id +:+ ".jar")) (fs w') = inr body.
Proof.
  intros Hat Hfetch Hzip Hmember.
  destruct (maven_producer_fresh_run product_name group_id artifact_id version
              install_path w body content members Hat Hfetch Hzip Hmember)
    as (w' & Hrun & Hfs & Hcwd).
  exists w'. repeat (split; [assumption|]).
  rewrite Hfs. unfold FSOps.read_text.
  rewrite !FSFacts.resolve_snoc, !(FSFacts.resolve_put _ _ _ _ Hat).
  rewrite lookup_insert_eq.
  rewrite lookup_insert_ne by (apply not_eq_sym, jar_name_ne; discriminate).
  now rewrite lookup_singleton_eq.
Qed.

End MavenFreshInstall.

(** ** Maven install: a complete run, and leftover backups *)

Section MavenInstallRuns.
Import FS TranspilerInstaller.
Context (E : Env) (name : string).

Local Abbreviation T := (transpilers_path E).
Local Abbreviation P := (transpilers_path E </> name).
Local Abbreviation saved := (name +:+ "-saved").
Local Abbreviation B := (transpilers_path E </> (name +:+ "-saved")).

(** What a Maven install leaves in the engine directory. *)
Definition maven_engine (artifact_id version body content : string) : node :=
  recorded_dir E version
    {["lib" := Dir (<["config.yml" := File content]>
                      {[artifact_id +:+ ".jar" := File body]})]}.

(** X12.  With the engines directory in place, no entry under the backup name,
    no regular file in the way, and a repository that serves an archive
    holding [lsp/config.yml], [_install_version] returns the engine's path
    and leaves an engine directory that holds exactly the archive and the
    [config.yml] in [lib] and the version record in [state]; nothing else
    has changed, and the previous install and its backup are gone. *)
Theorem maven_install_completes (group_id artifact_id version : string) (w : World)
    (m : gmap string node) (body content : string) (members : gmap string string) :
  resolve T (fs w) = inr (Dir m) ->
  m !! saved = None ->
  (forall s, m !! name <> Some (File s)) ->
  urlretrieve E (MavenInstaller.artifact_url group_id artifact_id version None "jar")
    = inr body ->
  ZipFile_members E body = Some members ->
  members !! "lsp/config.yml" = Some content ->
  exists w',
    MavenInstaller._install_version E name group_id artifact_id version w
      = (Ok (Some P), w')
    /\ fs w' = put P (Some (maven_engine artifact_id version body content)) (fs w)
    /\ cwd w' = cwd w.
Proof.
  intros Hroot Hsaved Hdir Hfetch Hzip Hmember.
  replace (MavenInstaller._install_version E name group_id artifact_id version w)
    with (MavenInstaller._install_version E name group_id artifact_id version
            (mkWorld (fs w) (cwd w) (trace w))) by now rewrite world_eta.
  rewrite (maven_install_version_run E name (fs w) m Hroot Hsaved).
  pose proof (prepared_at_P E name (fs w) m Hroot) as HP.
  set (wp := mkWorld _ (cwd w) _).
  assert (Hlib : resolve (P </> "lib") (fs wp) = inr (Dir ∅)).
  { unfold wp. cbn [fs]. now rewrite FSFacts.resolve_snoc, HP, lookup_singleton_eq. }
  destruct (maven_producer_fresh_run E name group_id artifact_id version
              (P </> "lib") wp body content members Hlib Hfetch Hzip Hmember)
    as (w1 & Hrun & Hfs & Hcwd).
  unfold maven_attempt. rewrite bind_run, try_except_run, bind_run, Hrun.
  cbv beta iota.
  destruct w1 as [n1 cw1 tr1]. cbn [fs cwd] in Hfs, Hcwd. unfold wp in Hfs, Hcwd.
  cbn [fs cwd] in Hfs, Hcwd. subst n1 cw1.
  rewrite (FSFacts.put_snoc _ _ _ _ _ HP), insert_singleton_eq.
  rewrite (put_child_root T (fs w) m Hroot). unfold prepared_entries.
  rewrite insert_insert_eq.
  rewrite bind_run, logger_info_run. unfold log_to. cbn [fs cwd trace]. cbv beta iota.
  rewrite bind_run, (store_product_state_root E name (fs w) m Hroot).
  rewrite lookup_singleton_ne by discriminate. cbv beta iota.
  rewrite bind_run, (path_exists_root T (fs w) m Hroot).
  rewrite lookup_insert_ne by apply saved_ne.
  rewrite (backed_up_saved name m Hsaved). cbv beta iota.
  assert (Hput : forall c, root_with T (fs w) (<[name := c]> m) = put P (Some c) (fs w)).
  { intros c. symmetry. apply (put_child T (fs w) m Hroot name (Some c)). }
  destruct (m !! name) as [[s|od]|] eqn:Hname.
  - now destruct (Hdir s).
  - rewrite bind_run, (rmtree_root T (fs w) m Hroot _ od).
    2:{ rewrite lookup_insert_ne by apply saved_ne.
        now rewrite (backed_up_saved name m Hsaved). }
    cbv beta iota. rewrite ret_run. cbv beta iota. rewrite ret_run.
    rewrite (backup_dropped name m Hsaved), Hput.
    eexists. split; [reflexivity|]. split; reflexivity.
  - rewrite bind_run, ret_run. cbv beta iota. rewrite ret_run. cbv beta iota.
    rewrite ret_run. unfold backed_up. rewrite Hname, Hput.
    eexists. split; [reflexivity|]. split; reflexivity.
Qed.

Lemma clear_stale_backup {A} (n0 : node) (m stale : gmap string node)
    (cw : Path) (tr : list event) (k : M A) :
  resolve T n0 = inr (Dir m) -> m !! saved = Some (Dir stale) ->
  (found ← path_exists B; (if found : bool then rmtree B else mret tt);; k)
    (mkWorld n0 cw tr)
  = k (mkWorld (put B None n0) cw tr).
Proof.
  intros Hroot Hstale.
  rewrite <- (root_with_id T n0 m Hroot) at 1.
  rewrite bind_run, (path_exists_root T n0 m Hroot), Hstale. cbv beta iota.
  rewrite bind_run, (rmtree_root T n0 m Hroot m stale _ cw tr Hstale).
  cbv beta iota. now rewrite (put_child T n0 m Hroot _ None).
Qed.

Lemma no_stale_backup {A} (w : World) (k : M A) :
  exists_ B (fs w) = false ->
  (found ← path_exists B; (if found : bool then rmtree B else mret tt);; k) w = k w.
Proof.
  intros Hex. rewrite bind_run, path_exists_run, Hex. cbv beta iota.
  now rewrite bind_run, ret_run.
Qed.

(** X13.  A backup directory left behind by an earlier attempt is removed at
    the start of a Maven install, which then runs exactly as it does from
    the files without that directory. *)
Theorem maven_install_clears_stale_backup (group_id artifact_id version : string)
    (w : World) (m stale : gmap string node) :
  resolve T (fs w) = inr (Dir m) ->
  m !! saved = Some (Dir stale) ->
  MavenInstaller._install_version E name group_id artifact_id version w
  = MavenInstaller._install_version E name group_id artifact_id version
      (mkWorld (put B None (fs w)) (cwd w) (trace w)).
Proof.
  intros Hroot Hstale.
  unfold MavenInstaller._install_version. cbv zeta. rewrite path_append_str_snoc.
  rewrite !bind_run, !logger_info_run. cbv beta iota.
  unfold log_to. cbn [fs cwd trace].
  rewrite (clear_stale_backup (fs w) m stale _ _ _ Hroot Hstale).
  rewrite no_stale_backup; [reflexivity|].
  cbn [fs]. rewrite (put_child T (fs w) m Hroot _ None).
  rewrite (exists_child T _ _ (FSFacts.resolve_put _ _ _ _ Hroot)).
  now rewrite lookup_delete_eq.
Qed.

End MavenInstallRuns.

Module MavenInstallExamples.
Import TranspilerInstaller Demo AtomicityExamples.

(** A [lib] directory into which the archive has been fetched. *)
Definition fetched : World :=
  world_of (Dir {["lib" := Dir {["demo-engine.jar" := File "archive"]}]}).

Lemma copy_lsp_config_extracts_witness :
  MavenInstaller._copy_lsp_config repository ["lib"] (["lib"] </> "demo-engine.jar") fetched
  = (Ok tt,
     mkWorld
       (FS.put ["lib"]
          (Some (Dir (<["config.yml" := File "name: demo"]>
                        {["demo-engine.jar" := File "archive"]})))
          (fs fetched)) [] []).
Proof.
  apply (copy_lsp_config_extracts repository ["lib"] fetched
           {["demo-engine.jar" := File "archive"]} "demo-engine.jar" "archive"
           "name: demo" {["lsp/config.yml" := "name: demo"]});
    vm_compute; reflexivity.
Defined.

Lemma copy_lsp_config_rejects_witness :
  MavenInstaller._copy_lsp_config broken_archive ["lib"] ["lib"; "demo-engine.jar"] fetched
  = (Raise BadZipFile, fetched).
Proof.
  apply (proj1 (copy_lsp_config_rejects broken_archive ["lib"] ["lib"; "demo-engine.jar"]
                  fetched "archive" ltac:(vm_compute; reflexivity))).
  reflexivity.
Defined.

Lemma maven_producer_on_fresh_lib_witness :
  exists w',
    MavenInstaller._unsafe_install_version repository "demo" "com.databricks"
      "demo-engine" ["lib"] "2.0" (world_of (Dir {["lib" := Dir ∅]})) = (Ok true, w')
    /\ fs w' = FS.put ["lib"]
                 (Some (Dir (<["config.yml" := File "name: demo"]>
                               {["demo-engine" +:+ ".jar" := File "archive"]})))
                 (Dir {["lib" := Dir ∅]})
    /\ cwd w' = []
    /\ FSOps.read_text (["lib"] </> "config.yml") (fs w') = inr "name: demo"
    /\ FSOps.read_text (["lib"] </> ("demo-engine" +:+ ".jar")) (fs w') = inr "archive".
Proof.
  apply (maven_producer_on_fresh_lib repository "demo" "com.databricks" "demo-engine"
           "2.0" ["lib"] (world_of (Dir {["lib" := Dir ∅]})) "archive" "name: demo"
           {["lsp/config.yml" := "name: demo"]});
    vm_compute; reflexivity.
Defined.

Lemma maven_install_completes_witness :
  exists w',
    MavenInstaller._install_version repository "demo" "com.databricks" "demo-engine"
      "2.0" installed = (Ok (Some (transpilers_path repository </> "demo")), w')
    /\ fs w' = FS.put (transpilers_path repository </> "demo")
                 (Some (maven_engine repository "demo-engine" "2.0" "archive" "name: demo"))
                 (fs installed)
    /\ cwd w' = cwd installed.
Proof.
  apply (maven_install_completes repository "demo" "com.databricks" "demo-engine" "2.0"
           installed installed_entries "archive" "name: demo"
           {["lsp/config.yml" := "name: demo"]}); try (vm_compute; reflexivity).
  intros s. unfold installed_entries. rewrite lookup_singleton_eq. discriminate.
Defined.

(** The engines directory with nothing but a backup left behind. *)
Definition leftover : gmap string node :=
  {["demo-saved" := Dir {["lib" := Dir {["old.jar" := File "old"]}]}]}.
Definition with_leftover : World := world_of (tree_at (transpilers_path offline) (Dir leftover)).

Lemma maven_install_clears_stale_backup_witness :
  MavenInstaller._install_version repository "demo" "com.databricks" "demo-engine"
    "2.0" with_leftover
  = MavenInstaller._install_version repository "demo" "com.databricks" "demo-engine"
      "2.0"
      (mkWorld (FS.put (transpilers_path repository </> "demo-saved") None
                  (fs with_leftover)) [] []).
Proof.
  apply (maven_install_clears_stale_backup repository "demo" "com.databricks"
           "demo-engine" "2.0" with_leftover leftover
           {["lib" := Dir {["old.jar" := File "old"]}]});
    vm_compute; reflexivity.
Defined.

End MavenInstallExamples.

(** ** Install attempts, whatever the state of the engines directory *)

Section EnginesDirectory.
Import FS.







Lemma fs_update_same (f : node -> exn + node) (n n1 n' : node) (cw : Path)
    (tr : list event) :
  f n = inr n' -> f n1 = inr n' ->
  fs_update f (mkWorld n cw tr) = fs_update f (mkWorld n1 cw tr).
Proof.
  intros Hn Hn1.
  now rewrite (fs_update_run f (mkWorld n cw tr) n' Hn),
    (fs_update_run f (mkWorld n1 cw tr) n' Hn1).
Qed.

End EnginesDirectory.

Section InstallAttempt.
Import FS TranspilerInstaller.
Context (E : Env) (name : string).

Local Abbreviation T := (transpilers_path E).
Local Abbreviation P := (transpilers_path E </> name).
Local Abbreviation B := (transpilers_path E </> (name +:+ "-saved")).
















End InstallAttempt.

Module InstallAttemptExamples.
Import TranspilerInstaller Demo AtomicityExamples.




End InstallAttemptExamples.

(** ** Pypi install and a leftover backup *)

Section PypiLeftover.
Import FS TranspilerInstaller.
Context (E : Env) (name : string).

Local Abbreviation T := (transpilers_path E).
Local Abbreviation P := (transpilers_path E </> name).
Local Abbreviation saved := (name +:+ "-saved").
Local Abbreviation B := (transpilers_path E </> (name +:+ "-saved")).

(** X14.  The Pypi install does not clear a backup left behind by an earlier
    attempt.  With an engine installed and a non-empty leftover backup,
    moving the engine aside fails, and the install raises at once (the
    error of [os.rename]: [OSError] on POSIX, [FileExistsError] on
    Windows) and has changed no file. *)
Theorem pypi_install_blocked_by_leftover_backup (pypi_name version : string)
    (w : World) (m old stale : gmap string node) :
  resolve T (fs w) = inr (Dir m) ->
  m !! name = Some (Dir old) ->
  m !! saved = Some (Dir stale) ->
  stale <> ∅ ->
  PypiInstaller._install_latest_version E name pypi_name version w
  = (Raise (if win32 E then FileExistsError else OSError),
     log_to w [installing name version]).
Proof.
  intros Hroot Hname Hstale Hfull.
  unfold PypiInstaller._install_latest_version. cbv zeta.
  rewrite path_append_str_snoc.
  rewrite bind_run, logger_info_run. cbv beta iota.
  rewrite bind_run, path_exists_run. cbn [fs log_to]. cbv beta iota.
  rewrite (exists_child T (fs w) m Hroot), Hname. cbv beta iota.
  rewrite bind_run. unfold os_rename.
  rewrite (fs_update_fails _ _ (if win32 E then FileExistsError else OSError));
    [reflexivity|].
  cbn [fs log_to]. unfold FSOps.rename.
  rewrite (resolve_child T (fs w) m Hroot), Hname.
  rewrite FSFacts.parent_entries_snoc, Hroot.
  assert (Hne : FSOps.path_eqb P B = false).
  { unfold FSOps.path_eqb. apply bool_decide_eq_false. unfold path_div.
    intros Heq%app_inv_head. injection Heq as Heq. now apply saved_ne in Heq. }
  assert (Hpre : FSOps.is_prefix P B = false).
  { unfold FSOps.is_prefix, path_div. rewrite relative_to_app. cbn [relative_to].
    destruct (String.eqb_spec name saved) as [Heq|]; [|reflexivity].
    now apply saved_ne in Heq. }
  rewrite Hne, Hpre, Hstale.
  destruct (win32 E); [reflexivity|].
  now rewrite bool_decide_eq_false_2 by exact Hfull.
Qed.

(** X15.  With no engine installed and a leftover backup directory, an install
    whose producer steps fail in the handled way rolls back by renaming
    what sits under the backup name: the leftover backup becomes the
    engine directory. *)
Theorem pypi_rollback_promotes_leftover_backup (pypi_name version : string)
    (w : World) (m stale : gmap string node)
    (e : exn) (w1 : World) :
  resolve T (fs w) = inr (Dir m) ->
  m !! name = None ->
  m !! saved = Some (Dir stale) ->
  subprocess_keeps_to_engine E name ->
  PypiInstaller._unsafe_install_latest_version E pypi_name P (P </> "lib") version
    (mkWorld (put P (Some (Dir {["lib" := Dir ∅]})) (fs w)) (cwd w)
       (trace w ++ [installing name version])) = (Raise e, w1) ->
  caught_by [CCalledProcessError; CValueError] e = true ->
  exists w',
    PypiInstaller._install_latest_version E name pypi_name version w = (Ok None, w')
    /\ fs w' = put T (Some (Dir (<[name := Dir stale]> (delete saved m)))) (fs w).
Proof.
  intros Hroot Hname Hstale Hsub Hrun Hcaught.
  destruct w as [n0 cw tr]. cbn [fs cwd trace] in *.
  rewrite (put_child T n0 m Hroot name (Some (Dir {["lib" := Dir ∅]}))) in Hrun.
  fold (root_with T n0 (<[name := Dir {["lib" := Dir ∅]}]> m)) in Hrun.
  set (base := root_with T n0 (<[name := Dir {["lib" := Dir ∅]}]> m)) in *.
  assert (HP : resolve P base = inr (Dir {["lib" := Dir ∅]}))
    by apply (resolve_child_root T n0 m Hroot), lookup_insert_eq.
  assert (Hconf : confined P base (fs w1)).
  { eapply (preserves_unsafe_install_latest_version E P base _ HP); [| |exact Hrun].
    - intros args shell dir n (c & Hc & ->).
      destruct (Hsub args shell dir (put P (Some c) base) c Hc) as (c' & Hc' & ->).
      + eapply FSFacts.resolve_put, HP.
      + exists c'. split; [exact Hc'|]. apply FSFacts.put_put.
    - exists (Dir {["lib" := Dir ∅]}). split; [reflexivity|].
      symmetry. now apply FSFacts.put_id. }
  destruct Hconf as (c & Hc & Hfs). destruct c as [s|d]; [discriminate|].
  unfold base in Hfs. rewrite (put_child_root T n0 m Hroot), insert_insert_eq in Hfs.
  destruct w1 as [n1 cw1 tr1]. cbn [fs] in Hfs. subst n1.
  exists (mkWorld (put T (Some (Dir (<[name := Dir stale]> (delete saved m)))) n0) cw1
            (tr1 ++ [EvLog ERROR ("Failed to install " +:+ pypi_name +:+ " v"
                                    +:+ version)])).
  split; [|reflexivity].
  unfold PypiInstaller._install_latest_version. cbv zeta.
  rewrite path_append_str_snoc.
  rewrite bind_run, logger_info_run. unfold log_to. cbn [fs cwd trace]. cbv beta iota.
  rewrite <- (root_with_id T n0 m Hroot) at 1.
  rewrite bind_run, (path_exists_root T n0 m Hroot), Hname. cbv beta iota.
  rewrite bind_run, ret_run. cbv beta iota.
  rewrite bind_run, (path_mkdir_parents_root T n0 m Hroot _ _ _ _ Hname).
  cbv beta iota.
  rewrite bind_run, (path_mkdir_in_child T n0 m Hroot _ name "lib" ∅);
    [|apply lookup_insert_eq|apply lookup_empty].
  cbv beta iota. rewrite insert_insert_eq, insert_empty.
  fold base. unfold installing in Hrun.
  rewrite try_except_run, bind_run, Hrun, Hcaught.
  rewrite bind_run, logger_error_run. unfold log_to. cbn [fs cwd trace].
  cbv beta iota.
  rewrite bind_run, (rmtree_root T n0 m Hroot _ d) by apply lookup_insert_eq.
  cbv beta iota. rewrite delete_insert_eq, (delete_id _ _ Hname).
  rewrite bind_run, (path_exists_root T n0 m Hroot), Hstale. cbv beta iota.
  rewrite bind_run.
  rewrite (os_rename_root T n0 m Hroot (win32 E) m saved name (Dir stale) _ _
             Hstale Hname (not_eq_sym (saved_ne name))).
  cbv beta iota. rewrite ret_run. reflexivity.
Qed.

End PypiLeftover.

Module PypiLeftoverExamples.
Import TranspilerInstaller Demo AtomicityExamples MavenInstallExamples.

Definition old_backup : gmap string node := {["lib" := Dir {["old.jar" := File "old"]}]}.

(** An installed engine next to a backup left behind. *)
Definition engine_and_leftover : gmap string node :=
  {["demo" := Dir {["lib" := Dir ∅]}; "demo-saved" := Dir old_backup]}.
Definition with_engine_and_leftover : World :=
  world_of (tree_at (transpilers_path offline) (Dir engine_and_leftover)).

Lemma pypi_install_blocked_by_leftover_backup_witness :
  PypiInstaller._install_latest_version offline "demo" "databricks-demo" "2.0"
    with_engine_and_leftover
  = (Raise OSError, log_to with_engine_and_leftover [installing "demo" "2.0"]).
Proof.
  apply (pypi_install_blocked_by_leftover_backup offline "demo" "databricks-demo" "2.0"
           with_engine_and_leftover engine_and_leftover {["lib" := Dir ∅]} old_backup);
    try (vm_compute; reflexivity).
  apply map_non_empty_singleton.
Defined.

Lemma pypi_rollback_promotes_leftover_backup_witness :
  exists w',
    PypiInstaller._install_latest_version subprocess_failing "demo" "databricks-demo"
      "2.0" with_leftover = (Ok None, w')
    /\ fs w' = FS.put (transpilers_path subprocess_failing)
                 (Some (Dir (<["demo" := Dir old_backup]> (delete "demo-saved" leftover))))
                 (fs with_leftover).
Proof.
  eapply (pypi_rollback_promotes_leftover_backup subprocess_failing "demo"
            "databricks-demo" "2.0" with_leftover leftover old_backup).
  - vm_compute. reflexivity.
  - vm_compute. reflexivity.
  - vm_compute. reflexivity.
  - apply idle_subprocess_keeps_to_engine. reflexivity.
  - vm_compute. reflexivity.
  - reflexivity.
Defined.

End PypiLeftoverExamples.

(** ** [PypiInstaller.download_artifact_from_pypi] *)

Module PypiDownload.
Section WithEnv.
Context (E : Env).

Definition artifact_suffix (extension : string) : string :=
  if String.eqb extension "whl" then "-py3-none-any.whl"
  else if String.eqb extension "tar" then ".tar.gz"
  else "." +:+ extension.

Definition artifact_filename (product_name version extension : string) : string :=
  replace_char "-" "_" product_name +:+ "-" +:+ version +:+ artifact_suffix extension.

Definition artifact_url (product_name version extension : string) : string :=
  "https://pypi.debian.net/" +:+ product_name +:+ "/"
    +:+ artifact_filename product_name version extension.

(** [request.urlretrieve(url)] without a file name: the reply is fetched
    and written to a new file in the temporary directory, whose path is the
    result.  A reply that cannot be fetched leaves no file.  The file
    outlives the call, so it is kept in the tree here.  The host tries
    names until one is free; with the one name the environment gives, a
    name that is taken ends as running out of names does, in
    [FileExistsError]. *)
Definition tmp_path : Path := tmp_dir E </> tmp_name E.



End WithEnv.
End PypiDownload.

Section PypiDownloadFacts.
Import FS PypiDownload.
Context (E : Env).

(** Walking a path fails with ENOENT or ENOTDIR only. *)
Lemma resolve_error (p : Path) (n : node) (e : exn) :
  FS.resolve p n = inl e -> e = FileNotFoundError \/ e = NotADirectoryError.
Proof.
  revert n. induction p as [|x p IH]; intros n; [discriminate|].
  cbn [FS.resolve]. destruct n as [s|m]; [intros [= <-]; now right|].
  destruct (m !! x) as [c|]; [apply IH | intros [= <-]; now left].
Qed.

(** The files once the reply has been written to the temporary file. *)
Definition fetched (body : string) (n : node) : node :=
  put (tmp_path E) (Some (File body)) n.








End PypiDownloadFacts.

Section PypiDownloadOutcomes.
Import FS PypiDownload.
Context (E : Env).


End PypiDownloadOutcomes.

Module PypiDownloadExamples.
Import PypiDownload Demo MavenDownloadExamples.



End PypiDownloadExamples.

(** ** Pypi: locating [site-packages] *)

Section LocateSitePackages.
Import FS PypiInstaller.
Context (E : Env).

Definition is_site_packages_of (lib : Path) (n : node) (dir_ : string) : bool :=
  startswith dir_ "python" && exists_ (lib </> dir_ </> "site-packages") n.

Lemma first_site_packages_run (lib : Path) (dirs : list string) (w : World) :
  _first_site_packages lib dirs w =
  (match find (is_site_packages_of lib (fs w)) dirs with
   | Some dir_ => Ok (lib </> dir_ </> "site-packages")
   | None => Raise ValueError
   end, w).
Proof.
  induction dirs as [|dir_ dirs IH]; [reflexivity|].
  cbn [_first_site_packages find]. unfold is_site_packages_of at 1.
  destruct (startswith dir_ "python"); cbn [andb]; [|exact IH].
  rewrite bind_run, path_exists_run. cbv beta iota.
  destruct (exists_ _ (fs w)); [reflexivity | exact IH].
Qed.

(** X17.  [_locate_site_packages] changes nothing and returns only a path that
    exists: on Windows [.venv/Lib/site-packages]; elsewhere the
    [site-packages] of a directory of [.venv/lib] whose name starts with
    [python].  It raises [ValueError] exactly when there is no such
    directory although [.venv/lib] can be listed. *)
Theorem locate_site_packages_finds_an_existing_one (venv : Path) (w : World)
    (r : outcome Path) (w' : World) :
  _locate_site_packages E venv w = (r, w') ->
  w' = w
  /\ match r with
     | Ok packages =>
         exists_ packages (fs w) = true
         /\ (if win32 E then packages = venv </> "Lib" </> "site-packages"
             else exists dir_, packages = venv </> "lib" </> dir_ </> "site-packages"
                               /\ startswith dir_ "python" = true)
     | Raise e =>
         win32 E = false -> e = ValueError ->
         forall dir_, startswith dir_ "python" = true ->
                      exists_ (venv </> "lib" </> dir_ </> "site-packages") (fs w) = false
     end.
Proof.
  unfold _locate_site_packages, _locate_site_packages_windows,
    _locate_site_packages_linux_or_macos.
  destruct (win32 E).
  - rewrite bind_run, path_exists_run. cbv beta iota.
    destruct (exists_ _ (fs w)) eqn:Hex; intros [= <- <-].
    + now repeat split.
    + split; [reflexivity|]. discriminate.
  - rewrite bind_run. unfold os_listdir, fs_read. rewrite bind_run. unfold get_fs at 1.
    cbv beta iota. unfold FSOps.listdir.
    destruct (resolve (venv </> "lib") (fs w)) as [e|[s|lm]] eqn:Hlib; cbn [lift].
    + intros [= <- <-]. split; [reflexivity|]. intros _ ->.
      now destruct (resolve_error _ _ _ Hlib).
    + intros [= <- <-]. split; [reflexivity|]. discriminate.
    + rewrite ret_run. cbv beta iota. rewrite first_site_packages_run.
      destruct (find _ _) as [dir_|] eqn:Hfind; intros [= <- <-];
        (split; [reflexivity|]).
      * apply find_some in Hfind as [_ Hd]. unfold is_site_packages_of in Hd.
        apply andb_true_iff in Hd as [Hpy Hex]. split; [exact Hex|]. eauto.
      * intros _ _ dir_ Hpy.
        destruct (exists_ (venv </> "lib" </> dir_ </> "site-packages") (fs w)) eqn:Hex;
          [|reflexivity].
        assert (Hin : In dir_ (fst <$> map_to_list lm)).
        { apply list_elem_of_In, list_elem_of_fmap.
          unfold exists_, lookup in Hex.
          rewrite FSFacts.resolve_snoc, FSFacts.resolve_snoc, Hlib in Hex.
          destruct (lm !! dir_) as [c|] eqn:Hd; [|discriminate].
          exists (dir_, c). split; [reflexivity|]. now apply elem_of_map_to_list. }
        pose proof (find_none _ _ Hfind _ Hin) as Hnone.
        unfold is_site_packages_of in Hnone. now rewrite Hpy, Hex in Hnone.
Qed.

End LocateSitePackages.

(** ** The working directory *)

Section KeepsCwd.

(** [prog] never changes the working directory. *)
Definition keeps_cwd {A} (prog : M A) : Prop :=
  forall w r w', prog w = (r, w') -> cwd w' = cwd w.

(** The errors with which [os.chdir] fails. *)
Definition chdir_error (e : exn) : bool :=
  match e with
  | FileNotFoundError | NotADirectoryError => true
  | _ => false
  end.

(** [prog] ends in the working directory it started in, unless it ends
    with an error that a failed [os.chdir] raises. *)
Definition restores_cwd {A} (prog : M A) : Prop :=
  forall w r w', prog w = (r, w') ->
    match r with
    | Ok _ => cwd w' = cwd w
    | Raise e => chdir_error e = false -> cwd w' = cwd w
    end.

Lemma keeps_ret {A} (a : A) : keeps_cwd (mret a).
Proof. now intros w r w' [= _ <-]. Qed.

Lemma keeps_raise {A} (e : exn) : keeps_cwd (raise e : M A).
Proof. now intros w r w' [= _ <-]. Qed.

Lemma keeps_lift {A} (r : exn + A) : keeps_cwd (lift r).
Proof. destruct r; [apply keeps_raise | apply keeps_ret]. Qed.

Lemma keeps_bind {A B} (m : M A) (k : A -> M B) :
  keeps_cwd m -> (forall a, keeps_cwd (k a)) -> keeps_cwd (m ≫= k).
Proof.
  intros Hm Hk w r w'. rewrite bind_run.
  destruct (m w) as [[a|e] w1] eqn:Hrun.
  - intros H. rewrite (Hk a _ _ _ H). eapply Hm. exact Hrun.
  - intros [= _ <-]. eapply Hm. exact Hrun.
Qed.

Lemma keeps_try_except {A} (body : M A) (cs : list exn_class) (handler : exn -> M A) :
  keeps_cwd body -> (forall e, keeps_cwd (handler e)) ->
  keeps_cwd (try_except body cs handler).
Proof.
  intros Hb Hh w r w'. rewrite try_except_run.
  destruct (body w) as [[a|e] w1] eqn:Hrun.
  - intros [= _ <-]. eapply Hb. exact Hrun.
  - destruct (caught_by cs e).
    + intros H. rewrite (Hh e _ _ _ H). eapply Hb. exact Hrun.
    + intros [= _ <-]. eapply Hb. exact Hrun.
Qed.

Lemma keeps_get_fs : keeps_cwd get_fs.
Proof. now intros w r w' [= _ <-]. Qed.

Lemma keeps_set_fs (n : node) : keeps_cwd (set_fs n).
Proof. now intros w r w' [= _ <-]. Qed.

Lemma keeps_emit (ev : event) : keeps_cwd (emit ev).
Proof. now intros w r w' [= _ <-]. Qed.

Lemma keeps_getcwd : keeps_cwd os_getcwd.
Proof. now intros w r w' [= _ <-]. Qed.

Lemma keeps_fs_update (f : node -> exn + node) : keeps_cwd (fs_update f).
Proof.
  unfold fs_update. apply keeps_bind; [apply keeps_get_fs|]. intros n.
  apply keeps_bind; [apply keeps_lift|]. intros n'. apply keeps_set_fs.
Qed.

Lemma keeps_fs_read {A} (f : node -> exn + A) : keeps_cwd (fs_read f).
Proof.
  unfold fs_read. apply keeps_bind; [apply keeps_get_fs|]. intros n. apply keeps_lift.
Qed.

Lemma keeps_run (E : Env) (args : list string) (shell : bool) (at_dir : option Path)
    (check : bool) :
  keeps_cwd (run E args shell at_dir check).
Proof.
  intros w r w'. unfold run.
  destruct (subprocess_run E args shell _ (fs w)) as [[e|code] n'].
  - now intros [= _ <-].
  - destruct (check && negb (code =? 0)%Z); now intros [= _ <-].
Qed.

Lemma restores_of_keeps {A} (prog : M A) : keeps_cwd prog -> restores_cwd prog.
Proof. intros H w r w' Hrun. rewrite (H _ _ _ Hrun). now destruct r. Qed.

Lemma restores_bind {A B} (m : M A) (k : A -> M B) :
  restores_cwd m -> (forall a, restores_cwd (k a)) -> restores_cwd (m ≫= k).
Proof.
  intros Hm Hk w r w'. rewrite bind_run.
  destruct (m w) as [[a|e] w1] eqn:Hrun.
  - intros H. pose proof (Hm _ _ _ Hrun) as Hw1. cbn in Hw1. rewrite <- Hw1.
    exact (Hk a _ _ _ H).
  - intros [= <- <-]. exact (Hm _ _ _ Hrun).
Qed.

(** A handler for classes that no failed [os.chdir] belongs to. *)
Lemma restores_try_except {A} (body : M A) (cs : list exn_class)
    (handler : exn -> M A) :
  (forall e, caught_by cs e = true -> chdir_error e = false) ->
  restores_cwd body -> (forall e, restores_cwd (handler e)) ->
  restores_cwd (try_except body cs handler).
Proof.
  intros Hcs Hb Hh w r w'. rewrite try_except_run.
  destruct (body w) as [[a|e] w1] eqn:Hrun.
  - intros [= <- <-]. exact (Hb _ _ _ Hrun).
  - destruct (caught_by cs e) eqn:Hcaught.
    + intros H. pose proof (Hb _ _ _ Hrun (Hcs e Hcaught)) as Hw1. rewrite <- Hw1.
      exact (Hh e _ _ _ H).
    + intros [= <- <-]. exact (Hb _ _ _ Hrun).
Qed.

(** [cwd = os.getcwd(); try: body finally: os.chdir(cwd)], whatever the
    body does. *)
Lemma restores_finally_chdir {A} (body : M A) :
  restores_cwd (cwd0 ← os_getcwd; try_finally body (os_chdir cwd0)).
Proof.
  intros w r w'. rewrite bind_run. unfold os_getcwd at 1. cbv beta iota.
  unfold try_finally. destruct (body w) as [rb w1].
  unfold os_chdir.
  destruct (FS.resolve (cwd w) (fs w1)) as [e|[s|d]] eqn:Hr.
  - intros [= <- <-]. intros He.
    destruct (resolve_error _ _ _ Hr) as [-> | ->]; discriminate.
  - intros [= <- <-]. discriminate.
  - intros [= <- <-]. now destruct rb.
Qed.

End KeepsCwd.

Ltac cwd_step :=
  lazymatch goal with
  | |- keeps_cwd (mbind _ _) => apply keeps_bind; [|intros ?]
  | |- keeps_cwd (mret _) => apply keeps_ret
  | |- keeps_cwd (raise _) => apply keeps_raise
  | |- keeps_cwd (lift _) => apply keeps_lift
  | |- keeps_cwd (try_except _ _ _) => apply keeps_try_except; [|intros ?]
  | |- keeps_cwd (emit _) => apply keeps_emit
  | |- keeps_cwd (logger.debug _) => apply keeps_emit
  | |- keeps_cwd (logger.info _) => apply keeps_emit
  | |- keeps_cwd (logger.warning _) => apply keeps_emit
  | |- keeps_cwd (logger.error _) => apply keeps_emit
  | |- keeps_cwd get_fs => apply keeps_get_fs
  | |- keeps_cwd (set_fs _) => apply keeps_set_fs
  | |- keeps_cwd os_getcwd => apply keeps_getcwd
  | |- keeps_cwd (path_exists _) => unfold path_exists
  | |- keeps_cwd (path_is_dir _) => unfold path_is_dir
  | |- keeps_cwd (path_is_file _) => unfold path_is_file
  | |- keeps_cwd (path_mkdir _) => unfold path_mkdir
  | |- keeps_cwd (path_mkdir_parents _) => apply keeps_fs_update
  | |- keeps_cwd (path_write_text _ _) => apply keeps_fs_update
  | |- keeps_cwd (os_rename _ _ _) => apply keeps_fs_update
  | |- keeps_cwd (rmtree _) => apply keeps_fs_update
  | |- keeps_cwd (os_rmdir _) => apply keeps_fs_update
  | |- keeps_cwd (shutil_move _ _ _) => apply keeps_fs_update
  | |- keeps_cwd (fs_update _) => apply keeps_fs_update
  | |- keeps_cwd (path_read_text _) => apply keeps_fs_read
  | |- keeps_cwd (os_listdir _) => apply keeps_fs_read
  | |- keeps_cwd (fs_read _) => apply keeps_fs_read
  | |- keeps_cwd (run _ _ _ _ _) => apply keeps_run
  | |- keeps_cwd (json_loads _) => unfold json_loads
  | |- keeps_cwd (py_get _ _ _) => unfold py_get
  | |- keeps_cwd (if ?b then _ else _) => destruct b
  | |- keeps_cwd (match ?x with _ => _ end) => destruct x
  | |- keeps_cwd (let '(_, _) := ?x in _) => destruct x
  end.

Ltac keeps := repeat cwd_step.

Section InstallAndCwd.
Import TranspilerInstaller.
Context (E : Env).

Lemma keeps_store_product_state (product_path : Path) (version : string) :
  keeps_cwd (_store_product_state E product_path version).
Proof. unfold _store_product_state. keeps. Qed.

Lemma keeps_get_installed_version (product_name : string) (is_transpiler : bool) :
  keeps_cwd (get_installed_version E product_name is_transpiler).
Proof. unfold get_installed_version. keeps. Qed.

Lemma keeps_copytree (src dst : Path) : keeps_cwd (shutil_copytree src dst).
Proof. unfold shutil_copytree. keeps. Qed.

(** *** Maven *)

Lemma keeps_maven_lookup (group_id artifact_id : string) :
  keeps_cwd (MavenInstaller.get_current_maven_artifact_version E group_id artifact_id).
Proof.
  unfold MavenInstaller.get_current_maven_artifact_version,
    MavenInstaller._extract_latest_release_version. keeps.
Qed.

Lemma keeps_download (group_id artifact_id version : string) (target : Path)
    (classifier : option string) (extension : string) :
  keeps_cwd (MavenInstaller.download_artifact_from_maven E group_id artifact_id version
               target classifier extension).
Proof. unfold MavenInstaller.download_artifact_from_maven. keeps. Qed.

Lemma keeps_copy_lsp_config (install_path jar_file_path : Path) :
  keeps_cwd (MavenInstaller._copy_lsp_config E install_path jar_file_path).
Proof. unfold MavenInstaller._copy_lsp_config. keeps. Qed.

Lemma keeps_maven_install_version (name group_id artifact_id version : string) :
  keeps_cwd (MavenInstaller._install_version E name group_id artifact_id version).
Proof.
  unfold MavenInstaller._install_version, MavenInstaller._unsafe_install_version.
  keeps; try apply keeps_download; try apply keeps_copy_lsp_config;
    try apply keeps_store_product_state.
Qed.

Lemma keeps_maven_install (name group_id artifact_id : string) :
  keeps_cwd (MavenInstaller.install E name group_id artifact_id).
Proof.
  unfold MavenInstaller.install, MavenInstaller._install_checking_versions.
  keeps; try apply keeps_maven_lookup; try apply keeps_get_installed_version;
    try apply keeps_maven_install_version.
Qed.

(** *** Pypi *)

Lemma keeps_pypi_lookup (pypi_name : string) :
  keeps_cwd (PypiInstaller.get_pypi_artifact_version E pypi_name).
Proof. unfold PypiInstaller.get_pypi_artifact_version. keeps. Qed.

Lemma keeps_first_site_packages (lib : Path) (dirs : list string) :
  keeps_cwd (PypiInstaller._first_site_packages lib dirs).
Proof.
  induction dirs as [|dir_ dirs IH]; cbn [PypiInstaller._first_site_packages].
  - apply keeps_raise.
  - keeps; exact IH.
Qed.

Lemma restores_create_venv (install_path : Path) :
  restores_cwd (PypiInstaller._create_venv E install_path).
Proof. unfold PypiInstaller._create_venv. apply restores_finally_chdir. Qed.

Lemma restores_install_from_pip (pypi_name : string)
    (install_path venv site_packages : Path) :
  restores_cwd (PypiInstaller._install_from_pip E pypi_name install_path venv
                  site_packages).
Proof. unfold PypiInstaller._install_from_pip. apply restores_finally_chdir. Qed.

Lemma keeps_copy_lsp_resources (install_path site_packages : Path) :
  keeps_cwd (PypiInstaller._copy_lsp_resources install_path site_packages).
Proof. unfold PypiInstaller._copy_lsp_resources. keeps. apply keeps_copytree. Qed.

Lemma keeps_post_install (product_path install_path : Path) (version : string) :
  keeps_cwd (PypiInstaller._post_install E product_path install_path version).
Proof.
  unfold PypiInstaller._post_install, PypiInstaller._run_custom_installer.
  keeps. apply keeps_store_product_state.
Qed.

Lemma restores_pypi_producer (pypi_name : string) (product_path install_path : Path)
    (version : string) :
  restores_cwd (PypiInstaller._unsafe_install_latest_version E pypi_name product_path
                  install_path version).
Proof.
  unfold PypiInstaller._unsafe_install_latest_version.
  apply restores_bind; [apply restores_create_venv|]. intros [venv packages].
  apply restores_bind; [apply restores_install_from_pip|]. intros _.
  apply restores_bind; [apply restores_of_keeps, keeps_copy_lsp_resources|]. intros _.
  apply restores_of_keeps, keeps_post_install.
Qed.

Lemma restores_pypi_install_latest_version (name pypi_name version : string) :
  restores_cwd (PypiInstaller._install_latest_version E name pypi_name version).
Proof.
  unfold PypiInstaller._install_latest_version. cbv zeta.
  apply restores_bind; [apply restores_of_keeps; keeps|]. intros _.
  apply restores_bind; [apply restores_of_keeps; keeps|]. intros had.
  apply restores_bind; [apply restores_of_keeps; keeps|]. intros _.
  apply restores_bind; [apply restores_of_keeps; keeps|]. intros _.
  apply restores_bind; [apply restores_of_keeps; keeps|]. intros _.
  apply restores_try_except.
  - intros e. now destruct e.
  - apply restores_bind; [apply restores_pypi_producer|]. intros result.
    apply restores_of_keeps. keeps.
  - intros e. apply restores_of_keeps. keeps.
Qed.

(** X18.  Neither install moves the process to another working directory.  The
    Maven install never changes it.  The Pypi install changes it while it
    creates the virtual environment and runs pip, and is back in the
    directory it started in when it returns, and also when it raises
    anything but the error of a failed [os.chdir] (the directory to go
    back to is gone). *)
Theorem install_restores_working_directory (name : string) (w : World) :
  (forall group_id artifact_id r w',
     MavenInstaller.install E name group_id artifact_id w = (r, w') -> cwd w' = cwd w)
  /\ (forall pypi_name r w',
        PypiInstaller.install E name pypi_name w = (r, w') ->
        match r with
        | Ok _ => cwd w' = cwd w
        | Raise e => chdir_error e = false -> cwd w' = cwd w
        end).
Proof.
  split.
  - intros group_id artifact_id r w'. apply keeps_maven_install.
  - intros pypi_name r w'.
    unfold PypiInstaller.install, PypiInstaller._install_checking_versions.
    revert w r w'.
    apply restores_bind; [apply restores_of_keeps, keeps_pypi_lookup|].
    intros [latest|]; [|apply restores_of_keeps; keeps].
    apply restores_bind; [apply restores_of_keeps, keeps_get_installed_version|].
    intros installed. destruct (bool_decide _); [apply restores_of_keeps; keeps|].
    apply restores_pypi_install_latest_version.
Qed.

End InstallAndCwd.

Module PypiStepsExamples.
Import TranspilerInstaller Demo AtomicityExamples.

(** A virtual environment as [python -m venv] lays it out. *)
Definition venv_tree : node :=
  Dir {[".venv" :=
          Dir {["lib" :=
                  Dir {["python3.10" := Dir {["site-packages" := Dir ∅]};
                        "pkgconfig" := Dir ∅]}]}]}.

Lemma locate_site_packages_finds_an_existing_one_witness :
  world_of venv_tree = world_of venv_tree
  /\ FS.exists_ [".venv"; "lib"; "python3.10"; "site-packages"] venv_tree = true
  /\ exists dir_,
       [".venv"; "lib"; "python3.10"; "site-packages"]
       = [".venv"] </> "lib" </> dir_ </> "site-packages"
       /\ startswith dir_ "python" = true.
Proof.
  apply (locate_site_packages_finds_an_existing_one offline [".venv"]
           (world_of venv_tree)
           (Ok [".venv"; "lib"; "python3.10"; "site-packages"]) (world_of venv_tree)).
  vm_compute. reflexivity.
Defined.

(** A registry that knows version 1.2.3, on a host where no subprocess
    succeeds. *)
Definition serving_and_failing : Env := {|
  home := home offline; win32 := false;
  sys_executable := sys_executable offline;
  utcnow_isoformat := utcnow_isoformat offline;
  tmp_name := tmp_name offline;
  tmp_dir := tmp_dir offline;
  urlopen := fun _ => inr UpToDateExamples.pypi_reply;
  urlretrieve := urlretrieve offline;
  subprocess_run := fun _ _ _ n => (inr 1%Z, n);
  ET_fromstring := ET_fromstring offline;
  ZipFile_members := ZipFile_members offline;
  LSPConfig_parse := LSPConfig_parse offline
|}.

(** Version 1.0.0 installed, the process being in the home directory. *)
Definition at_home : World :=
  mkWorld (fs (UpToDateExamples.recorded "1.0.0")) ["home"; "user"] [].

Lemma install_restores_working_directory_witness :
  (exists w',
     MavenInstaller.install InstallResultExamples.listing_only "demo" "com.databricks"
       "demo-engine" at_home = (Ok None, w')
     /\ cwd w' = ["home"; "user"])
  /\ (exists w',
        PypiInstaller.install serving_and_failing "demo" "databricks-demo" at_home
        = (Ok None, w')
        /\ cwd w' = ["home"; "user"]).
Proof.
  split.
  - eexists. split; [vm_compute; reflexivity|].
    eapply (proj1 (install_restores_working_directory InstallResultExamples.listing_only
                     "demo" at_home) "com.databricks" "demo-engine" (Ok None)).
    vm_compute. reflexivity.
  - eexists. split; [vm_compute; reflexivity|].
    eapply (proj2 (install_restores_working_directory serving_and_failing
                     "demo" at_home) "databricks-demo" (Ok None)).
    vm_compute. reflexivity.
Defined.

End PypiStepsExamples.

(** ** Pypi: how pip is run *)

Section PipRun.
Import FS PypiInstaller.
Context (E : Env).

(** The command line of [_install_from_pip], for the [site-packages]
    found at [q] below the virtual environment. *)
Definition pip_args (pypi_name : string) (q : Path) : list string :=
  [rel_path_str E (if win32 E then [".venv"; "Scripts"; "pip3.exe"]
                   else [".venv"; "bin"; "pip3"]);
   "install"; pypi_name; "-t"; rel_path_str E (".venv" :: q)].

Lemma relative_to_below (base q : Path) : relative_to (base ++ q) base = inr q.
Proof.
  rewrite <- (app_nil_r base) at 2. rewrite relative_to_app. now destruct q.
Qed.

(** X19.  [_install_from_pip] runs pip once, in the [lib] directory and with
    paths relative to it: the pip of the virtual environment, and the
    [site-packages] as target.  A non-zero return code of pip becomes a
    [CalledProcessError]; either way the process is back in the directory
    it started in, provided that directory is still there. *)
Theorem install_from_pip_runs_pip_in_lib (pypi_name : string) (install_path q : Path)
    (w : World) (d : gmap string node) (code : Z) (n' : node) :
  resolve install_path (fs w) = inr (Dir d) ->
  subprocess_run E (pip_args pypi_name q) false install_path (fs w) = (inr code, n') ->
  is_dir (cwd w) n' = true ->
  _install_from_pip E pypi_name install_path (install_path </> ".venv")
    ((install_path </> ".venv") ++ q) w
  = (if (code =? 0)%Z then Ok tt else Raise CalledProcessError,
     mkWorld n' (cwd w)
       (trace w ++ [EvRun (pip_args pypi_name q) false install_path])).
Proof.
  intros Hat Hrun Hback.
  unfold _install_from_pip, _locate_pip. cbv zeta.
  rewrite bind_run. unfold os_getcwd at 1. cbv beta iota.
  unfold try_finally.
  rewrite bind_run. unfold os_chdir at 1. rewrite Hat. cbv beta iota.
  assert (Hpip : relative_to (if win32 E then install_path </> ".venv" </> "Scripts"
                                              </> "pip3.exe"
                              else install_path </> ".venv" </> "bin" </> "pip3")
                   install_path
                 = inr (if win32 E then [".venv"; "Scripts"; "pip3.exe"]
                        else [".venv"; "bin"; "pip3"])).
  { unfold path_div. destruct (win32 E); rewrite <- !app_assoc; apply relative_to_below. }
  assert (Htarget : relative_to ((install_path </> ".venv") ++ q) install_path
                    = inr (".venv" :: q)).
  { unfold path_div. rewrite <- app_assoc. apply relative_to_below. }
  rewrite bind_run, Hpip. unfold lift at 1. rewrite ret_run. cbv beta iota.
  rewrite bind_run, Htarget. unfold lift at 1. rewrite ret_run. cbv beta iota.
  rewrite bind_run. unfold run at 1. cbn [fs cwd trace default from_option id].
  match goal with
  | |- context [subprocess_run E ?a ?s ?dir ?n] =>
      change (subprocess_run E a s dir n)
        with (subprocess_run E (pip_args pypi_name q) false install_path (fs w))
  end.
  rewrite Hrun. cbn [andb]. cbv beta iota.
  unfold is_dir, lookup in Hback.
  destruct (code =? 0)%Z.
  - rewrite ret_run. unfold os_chdir. cbn [fs cwd trace].
    destruct (resolve (cwd w) n') as [e|[s|dm]]; try discriminate. reflexivity.
  - unfold raise, os_chdir. cbn [fs cwd trace].
    destruct (resolve (cwd w) n') as [e|[s|dm]]; try discriminate. reflexivity.
Qed.

End PipRun.

Module PipRunExamples.
Import Demo AtomicityExamples.

Lemma install_from_pip_runs_pip_in_lib_witness :
  PypiInstaller._install_from_pip subprocess_failing "databricks-demo" ["lib"]
    (["lib"] </> ".venv") ((["lib"] </> ".venv") ++ ["lib"; "python3.10"; "site-packages"])
    (world_of (Dir {["lib" := Dir ∅]}))
  = (Raise CalledProcessError,
     mkWorld (Dir {["lib" := Dir ∅]}) []
       [EvRun [".venv/bin/pip3"; "install"; "databricks-demo"; "-t";
               ".venv/lib/python3.10/site-packages"] false ["lib"]]).
Proof.
  apply (install_from_pip_runs_pip_in_lib subprocess_failing "databricks-demo" ["lib"]
           ["lib"; "python3.10"; "site-packages"] (world_of (Dir {["lib" := Dir ∅]}))
           ∅ 1%Z (Dir {["lib" := Dir ∅]})); vm_compute; reflexivity.
Defined.

End PipRunExamples.

(** ** The Java version read from [java -version]

    [WorkspaceInstaller.get_java_version], from the completed process on:
    whether the [java] command can be started is not modelled. *)

Module JavaVersion.

(** What [subprocess.run(..., capture_output=True)] hands back, as far as
    [get_java_version] reads it: the exit status and the text of the error
    stream after [decode]. *)
Record CompletedProcess := mkCompleted { returncode : Z; stderr : string }.

(** The two exceptions the last line can raise. *)
Inductive version_error :=
  | IndexError          (* [parts[1]] of a one-element list *)
  | IntValueError.      (* [int] of a text that is no integer literal *)

Fixpoint find_in (sub s : string) (pos : Z) : Z :=
  if startswith s sub then pos
  else match s with
       | EmptyString => (-1)%Z
       | String _ s' => find_in sub s' (pos + 1)%Z
       end.

Fixpoint string_drop (n : nat) (s : string) : string :=
  match n, s with
  | S n', String _ s' => string_drop n' s'
  | _, _ => s
  end.

Definition Zlen (s : string) : Z := Z.of_nat (String.length s).

(** [s.find(sub, start)] *)
Definition str_find (s sub : string) (start : Z) : Z :=
  let start := if (start <? 0)%Z then Z.max (Zlen s + start) 0 else start in
  if (Zlen s <? start)%Z then (-1)%Z
  else find_in sub (string_drop (Z.to_nat start) s) start.

(** [s[a:b]] *)
Definition str_slice (s : string) (a b : Z) : string :=
  let clip i := if (i <? 0)%Z then Z.max (Zlen s + i) 0 else Z.min i (Zlen s) in
  let a := clip a in
  let b := clip b in
  if (b <=? a)%Z then EmptyString
  else String.substring (Z.to_nat a) (Z.to_nat (b - a)) s.

(** [s.split(sep)] for a separator of one character *)
Fixpoint str_split (sep : ascii) (s : string) : list string :=
  match s with
  | EmptyString => [EmptyString]
  | String c s' =>
      if Ascii.eqb c sep then EmptyString :: str_split sep s'
      else match str_split sep s' with
           | h :: t => String c h :: t
           | [] => [String c EmptyString]
           end
  end.

(** The characters [int] strips: those of [str.isspace] below 256. *)
Definition isspace (c : ascii) : bool :=
  let n := N_of_ascii c in
  ((9 <=? n) && (n <=? 13) || (28 <=? n) && (n <=? 32) || (n =? 133) || (n =? 160))%N.

Definition digit_of (c : ascii) : option Z :=
  let n := N_of_ascii c in
  if ((48 <=? n) && (n <=? 57))%N then Some (Z.of_N n - 48)%Z else None.

Fixpoint lstrip (s : string) : string :=
  match s with
  | String c s' => if isspace c then lstrip s' else s
  | EmptyString => EmptyString
  end.

Fixpoint rstrip (s : string) : string :=
  match s with
  | String c s' =>
      match rstrip s' with
      | EmptyString => if isspace c then EmptyString else String c EmptyString
      | r => String c r
      end
  | EmptyString => EmptyString
  end.

(** The digits after the first one, single underscores allowed between
    two digits. *)
Fixpoint digits_from (acc : Z) (s : string) : option Z :=
  match s with
  | EmptyString => Some acc
  | String c s' =>
      match digit_of c with
      | Some d => digits_from (10 * acc + d) s'
      | None =>
          if Ascii.eqb c "_" then
            match s' with
            | String c' s'' =>
                match digit_of c' with
                | Some d => digits_from (10 * acc + d) s''
                | None => None
                end
            | EmptyString => None
            end
          else None
      end
  end.

Fixpoint count_digits (s : string) : nat :=
  match s with
  | EmptyString => 0
  | String c s' => match digit_of c with Some _ => 1 | None => 0 end + count_digits s'
  end.

(** [int(s)] in base ten; [None] stands for [ValueError].  A literal of more
    than 4300 digits is refused (the interpreter's default limit). *)
Definition py_int (s : string) : option Z :=
  let t := rstrip (lstrip s) in
  let '(neg, body) :=
    match t with
    | String "+" r => (false, r)
    | String "-" r => (true, r)
    | _ => (false, t)
    end in
  if (4300 <? count_digits body)%nat then None
  else match body with
       | EmptyString => None
       | String c r =>
           match digit_of c with
           | Some d => (fun v => if neg then (- v)%Z else v) <$> digits_from d r
           | None => None
           end
       end.

Definition quote : string := String Json.DQ EmptyString.

Definition get_java_version (completed : CompletedProcess)
    : version_error + option Z :=
  if negb (returncode completed =? 0)%Z then inr None
  else
    let result := stderr completed in
    let start := str_find result " version " 0 in
    if (start <? 0)%Z then inr None
    else
      let start := str_find result quote (start + 1) in
      if (start <? 0)%Z then inr None
      else
        let end_ := str_find result quote (start + 1) in
        if (end_ <? 0)%Z then inr None
        else
          let version := str_slice result (start + 1) end_ in
          let parts := str_split "." version in
          match parts with
          | p0 :: p1 :: _ =>
              match py_int (p0 +:+ p1) with
              | Some v => inr (Some v)
              | None => inl IntValueError
              end
          | _ => inl IndexError
          end.

End JavaVersion.


Section JavaVersionFacts.
Import JavaVersion.

(** [c] does not occur in [s]. *)
Fixpoint lacks (c : ascii) (s : string) : bool :=
  match s with
  | EmptyString => true
  | String x s' => negb (Ascii.eqb x c) && lacks c s'
  end.

(** Every character of [s] is a decimal digit. *)
Fixpoint digits_only (s : string) : bool :=
  match s with
  | EmptyString => true
  | String c s' => match digit_of c with Some _ => digits_only s' | None => false end
  end.

(** The number a run of digits denotes, continuing from [acc]. *)
Fixpoint value_from (acc : Z) (s : string) : Z :=
  match s with
  | EmptyString => acc
  | String c s' => value_from (10 * acc + default 0%Z (digit_of c)) s'
  end.

(** The last two lines of [get_java_version], on the text between the
    quotes. *)
Definition joined (version : string) : version_error + option Z :=
  match str_split "." version with
  | p0 :: p1 :: _ =>
      match py_int (p0 +:+ p1) with
      | Some v => inr (Some v)
      | None => inl IntValueError
      end
  | _ => inl IndexError
  end.

Lemma lacks_app c a b : lacks c (a +:+ b) = lacks c a && lacks c b.
Proof.
  induction a as [|x a IH]; cbn [String.append lacks]; [reflexivity|].
  now rewrite IH, andb_assoc.
Qed.

Lemma Zlen_app a b : Zlen (a +:+ b) = (Zlen a + Zlen b)%Z.
Proof. unfold Zlen. induction a as [|x a IH]; cbn [String.append String.length]; lia. Qed.

Lemma Zlen_nonneg s : (0 <= Zlen s)%Z.
Proof. unfold Zlen. lia. Qed.

Lemma app_assoc3 (a b c : string) : (a +:+ b) +:+ c = a +:+ b +:+ c.
Proof. induction a as [|x a IH]; cbn [String.append]; [reflexivity|]. now rewrite IH. Qed.

Lemma startswith_append sub b : startswith (sub +:+ b) sub = true.
Proof.
  unfold startswith. induction sub as [|x sub IH]; cbn; [reflexivity|].
  now rewrite Ascii.eqb_refl.
Qed.

Lemma find_in_eq sub s pos :
  find_in sub s pos
  = if startswith s sub then pos
    else match s with
         | EmptyString => (-1)%Z
         | String _ s' => find_in sub s' (pos + 1)%Z
         end.
Proof. now destruct s. Qed.

Lemma find_in_skip c sub0 x b pos :
  lacks c x = true ->
  find_in (String c sub0) (x +:+ String c sub0 +:+ b) pos = (pos + Zlen x)%Z.
Proof.
  revert pos. induction x as [|y x IH]; intros pos Hx.
  - rewrite find_in_eq.
    change ("" +:+ String c sub0 +:+ b) with (String c sub0 +:+ b).
    rewrite startswith_append. unfold Zlen. cbn. lia.
  - cbn in Hx. apply andb_true_iff in Hx as [Hy Hx].
    rewrite find_in_eq.
    change (String y x +:+ String c sub0 +:+ b) with (String y (x +:+ String c sub0 +:+ b)).
    unfold startswith at 1. cbn [Json.strip_prefix].
    rewrite Ascii.eqb_sym. apply negb_true_iff in Hy. rewrite Hy.
    rewrite IH by exact Hx. unfold Zlen. cbn [String.length]. lia.
Qed.

Lemma find_in_lacks c sub0 s pos :
  lacks c s = true -> find_in (String c sub0) s pos = (-1)%Z.
Proof.
  revert pos. induction s as [|y s IH]; intros pos Hs; rewrite find_in_eq.
  - reflexivity.
  - cbn in Hs. apply andb_true_iff in Hs as [Hy Hs].
    unfold startswith. cbn [Json.strip_prefix].
    rewrite Ascii.eqb_sym. apply negb_true_iff in Hy. rewrite Hy.
    now apply IH.
Qed.

Lemma string_drop_app a s : string_drop (String.length a) (a +:+ s) = s.
Proof. induction a as [|x a IH]; cbn; [now destruct s|exact IH]. Qed.

Lemma lacks_string_drop c n s : lacks c s = true -> lacks c (string_drop n s) = true.
Proof.
  revert s. induction n as [|n IH]; intros [|x s] Hs; cbn; try exact Hs.
  cbn in Hs. apply andb_true_iff in Hs as [_ Hs]. now apply IH.
Qed.

Lemma str_find_at s a x c sub0 b k :
  s = a +:+ x +:+ String c sub0 +:+ b -> k = Zlen a -> lacks c x = true ->
  str_find s (String c sub0) k = (k + Zlen x)%Z.
Proof.
  intros -> -> Hx. unfold str_find.
  pose proof (Zlen_nonneg a) as Ha.
  destruct (Z.ltb_spec (Zlen a) 0); [lia|].
  rewrite Zlen_app.
  pose proof (Zlen_nonneg (x +:+ String c sub0 +:+ b)).
  destruct (Z.ltb_spec (Zlen a + Zlen (x +:+ String c sub0 +:+ b)) (Zlen a)); [lia|].
  unfold Zlen at 1. rewrite Nat2Z.id, string_drop_app.
  now apply find_in_skip.
Qed.

Lemma str_find_lacks s c sub0 k :
  lacks c s = true -> str_find s (String c sub0) k = (-1)%Z.
Proof.
  intros Hs. unfold str_find.
  match goal with |- context [Z.ltb (Zlen s) ?k'] => destruct (Z.ltb (Zlen s) k') end;
    [reflexivity|].
  apply find_in_lacks. now apply lacks_string_drop.
Qed.

Lemma substring_prefix v b : String.substring 0 (String.length v) (v +:+ b) = v.
Proof. induction v as [|x v IH]; cbn; [now destruct b|]. now rewrite IH. Qed.

Lemma substring_skip a n s :
  String.substring (String.length a) n (a +:+ s) = String.substring 0 n s.
Proof. induction a as [|x a IH]; cbn; [reflexivity|exact IH]. Qed.

Lemma str_slice_at s a v b i j :
  s = a +:+ v +:+ b -> i = Zlen a -> j = (Zlen a + Zlen v)%Z -> str_slice s i j = v.
Proof.
  intros -> -> ->. unfold str_slice.
  pose proof (Zlen_nonneg a). pose proof (Zlen_nonneg v). pose proof (Zlen_nonneg b).
  destruct (Z.ltb_spec (Zlen a) 0); [lia|].
  destruct (Z.ltb_spec (Zlen a + Zlen v) 0); [lia|].
  rewrite !Zlen_app.
  rewrite (Z.min_l (Zlen a)) by lia. rewrite (Z.min_l (Zlen a + Zlen v)) by lia.
  destruct (Z.leb_spec (Zlen a + Zlen v) (Zlen a)) as [Hle|Hlt].
  - assert (Zlen v = 0%Z) as Hv by lia. unfold Zlen in Hv.
    destruct v; [reflexivity|cbn in Hv; lia].
  - replace (Zlen a + Zlen v - Zlen a)%Z with (Zlen v) by lia.
    unfold Zlen. rewrite !Nat2Z.id, substring_skip. apply substring_prefix.
Qed.

(** The banner [<pre> version "<v>"<rest>]: the text between the first pair
    of quotes after the word is what the last two lines work on. *)
Lemma get_java_version_banner pre v rest :
  lacks " " pre = true -> lacks Json.DQ v = true ->
  get_java_version
    (mkCompleted 0 (pre +:+ " version " +:+ quote +:+ v +:+ quote +:+ rest))
  = joined v.
Proof.
  intros Hpre Hv. unfold get_java_version. cbn [returncode stderr negb Z.eqb].
  cbv zeta. unfold quote.
  set (s := pre +:+ " version " +:+ String Json.DQ "" +:+ v +:+ String Json.DQ "" +:+ rest).
  rewrite (str_find_at s "" pre " " "version " (String Json.DQ "" +:+ v +:+ String Json.DQ "" +:+ rest) 0
             eq_refl eq_refl Hpre).
  pose proof (Zlen_nonneg pre) as Hp.
  destruct (Z.ltb_spec (0 + Zlen pre) 0); [lia|].
  rewrite (str_find_at s (pre +:+ " ") "version " Json.DQ "" (v +:+ String Json.DQ "" +:+ rest)
             (0 + Zlen pre + 1)); cycle 1.
  { unfold s. now rewrite app_assoc3. }
  { rewrite !Zlen_app. unfold Zlen. cbn [String.length]. lia. }
  { reflexivity. }
  destruct (Z.ltb_spec (0 + Zlen pre + 1 + Zlen "version ") 0);
    [unfold Zlen in *; cbn in *; lia|].
  rewrite (str_find_at s (pre +:+ " version " +:+ String Json.DQ "") v Json.DQ "" rest
             (0 + Zlen pre + 1 + Zlen "version " + 1)); cycle 1.
  { unfold s. now rewrite app_assoc3. }
  { rewrite !Zlen_app. unfold Zlen. cbn [String.length]. lia. }
  { exact Hv. }
  pose proof (Zlen_nonneg v).
  destruct (Z.ltb_spec (0 + Zlen pre + 1 + Zlen "version " + 1 + Zlen v) 0);
    [unfold Zlen in *; cbn in *; lia|].
  rewrite (str_slice_at s (pre +:+ " version " +:+ String Json.DQ "") v (String Json.DQ "" +:+ rest)).
  - reflexivity.
  - unfold s. now rewrite app_assoc3.
  - rewrite !Zlen_app. unfold Zlen. cbn [String.length]. lia.
  - rewrite !Zlen_app. unfold Zlen. cbn [String.length]. lia.
Qed.


Lemma str_split_lacks sep x : lacks sep x = true -> str_split sep x = [x].
Proof.
  induction x as [|c x IH]; [reflexivity|]. cbn [lacks str_split].
  intros [Hc Hx]%andb_true_iff. apply negb_true_iff in Hc. rewrite Hc.
  now rewrite IH.
Qed.

Lemma str_split_at sep x y :
  lacks sep x = true -> str_split sep (x +:+ String sep y) = x :: str_split sep y.
Proof.
  induction x as [|c x IH].
  - intros _. cbn [String.append str_split]. now rewrite Ascii.eqb_refl.
  - cbn [lacks String.append str_split].
    intros [Hc Hx]%andb_true_iff. apply negb_true_iff in Hc. rewrite Hc.
    now rewrite IH.
Qed.

Lemma digit_not_space c d : digit_of c = Some d -> isspace c = false.
Proof.
  destruct c as [[] [] [] [] [] [] [] []]; vm_compute; congruence.
Qed.

Lemma digits_only_lacks c s :
  digit_of c = None -> digits_only s = true -> lacks c s = true.
Proof.
  intros Hc. induction s as [|x s IH]; [reflexivity|]. cbn [digits_only lacks].
  destruct (digit_of x) eqn:Hx; [|discriminate]. intros Hs.
  rewrite IH by exact Hs.
  destruct (Ascii.eqb_spec x c) as [->|]; [congruence|reflexivity].
Qed.

Lemma digits_only_app a b :
  digits_only (a +:+ b) = digits_only a && digits_only b.
Proof.
  induction a as [|x a IH]; cbn [String.append digits_only]; [reflexivity|].
  now destruct (digit_of x).
Qed.

Lemma lstrip_digits c d r : digit_of c = Some d -> lstrip (String c r) = String c r.
Proof. intros Hc. cbn [lstrip]. now rewrite (digit_not_space c d Hc). Qed.

Lemma rstrip_digits s : digits_only s = true -> rstrip s = s.
Proof.
  induction s as [|c s IH]; [reflexivity|]. cbn [digits_only rstrip].
  destruct (digit_of c) eqn:Hc; [|discriminate]. intros Hs.
  rewrite IH by exact Hs. rewrite (digit_not_space c _ Hc). now destruct s.
Qed.

Lemma count_digits_only s : digits_only s = true -> count_digits s = String.length s.
Proof.
  induction s as [|c s IH]; [reflexivity|]. cbn [digits_only count_digits String.length].
  destruct (digit_of c); [|discriminate]. intros Hs. now rewrite IH.
Qed.

Lemma digits_from_value acc s :
  digits_only s = true -> digits_from acc s = Some (value_from acc s).
Proof.
  revert acc. induction s as [|c s IH]; intros acc; [reflexivity|].
  cbn [digits_only digits_from value_from].
  destruct (digit_of c); [|discriminate]. intros Hs. now apply IH.
Qed.

Lemma value_from_app acc a b :
  value_from acc (a +:+ b) = value_from (value_from acc a) b.
Proof.
  revert acc. induction a as [|x a IH]; intros acc; cbn [String.append value_from];
    [reflexivity|apply IH].
Qed.

Lemma value_from_shift acc s :
  value_from acc s = (acc * 10 ^ Zlen s + value_from 0 s)%Z.
Proof.
  revert acc. induction s as [|c s IH]; intros acc.
  - unfold Zlen. cbn. lia.
  - cbn [value_from]. rewrite IH. rewrite (IH (10 * 0 + _)%Z).
    replace (Zlen (String c s)) with (Z.succ (Zlen s))
      by (unfold Zlen; cbn [String.length]; lia).
    rewrite Z.pow_succ_r by apply Zlen_nonneg. lia.
Qed.

(** A run of digits is an integer literal: it has no sign, no blank and no
    underscore. *)
Lemma py_int_digits s :
  digits_only s = true -> s <> EmptyString -> (String.length s <= 4300)%nat ->
  py_int s = Some (value_from 0 s).
Proof.
  intros Hs Hne Hlen. destruct s as [|c r]; [congruence|].
  pose proof Hs as Hs'. cbn [digits_only] in Hs'.
  destruct (digit_of c) as [d|] eqn:Hc; [|discriminate].
  unfold py_int. rewrite (lstrip_digits c d r Hc), (rstrip_digits _ Hs).
  assert ((match String c r with
           | String "+" r0 => (false, r0)
           | String "-" r0 => (true, r0)
           | _ => (false, String c r)
           end) = (false, String c r)) as ->.
  { clear -Hc. destruct c as [[] [] [] [] [] [] [] []]; try reflexivity;
      vm_compute in Hc; discriminate. }
  rewrite (count_digits_only _ Hs).
  destruct (Nat.ltb_spec 4300 (String.length (String c r))); [lia|].
  rewrite Hc, (digits_from_value _ _ Hs'). cbn [fmap option_fmap option_map value_from].
  rewrite Hc. reflexivity.
Qed.

Lemma pretty_N_char_digit x :
  digit_of (pretty_N_char (x `mod` 10)) = Some (Z.of_N (x `mod` 10)).
Proof.
  pose proof (N.mod_lt x 10 ltac:(discriminate)) as Hlt.
  destruct (x `mod` 10)%N as [|p]; [reflexivity|].
  do 4 (destruct p as [p|p|]; try reflexivity; try lia).
Qed.

Lemma pretty_N_go_digits x s :
  digits_only s = true -> digits_only (pretty_N_go x s) = true.
Proof.
  revert s. induction (N.lt_wf_0 x) as [x _ IH]; intros s Hs.
  destruct (decide (x = 0)%N) as [->|Hx]; [now rewrite pretty_N_go_0|].
  rewrite pretty_N_go_step by lia. apply IH.
  - apply N.div_lt; lia.
  - cbn [digits_only]. now rewrite pretty_N_char_digit.
Qed.

Lemma pretty_N_go_value x s :
  value_from 0 (pretty_N_go x s) = value_from (Z.of_N x) s.
Proof.
  revert s. induction (N.lt_wf_0 x) as [x _ IH]; intros s.
  destruct (decide (x = 0)%N) as [->|Hx]; [now rewrite pretty_N_go_0|].
  rewrite pretty_N_go_step by lia. rewrite IH by (apply N.div_lt; lia).
  cbn [value_from]. rewrite pretty_N_char_digit. cbn [default].
  f_equal. unfold id. pose proof (N.div_mod x 10 ltac:(discriminate)). lia.
Qed.

Lemma pretty_N_go_longer x s :
  (String.length s <= String.length (pretty_N_go x s))%nat.
Proof.
  revert s. induction (N.lt_wf_0 x) as [x _ IH]; intros s.
  destruct (decide (x = 0)%N) as [->|Hx]; [now rewrite pretty_N_go_0|].
  rewrite pretty_N_go_step by lia.
  etransitivity; [|apply IH, N.div_lt; lia]. cbn [String.length]. lia.
Qed.

Lemma pretty_N_digits (x : N) : digits_only (pretty x) = true.
Proof.
  unfold pretty, pretty_N. destruct (decide (x = 0)%N); [reflexivity|].
  now apply pretty_N_go_digits.
Qed.

Lemma pretty_N_value (x : N) : value_from 0 (pretty x) = Z.of_N x.
Proof.
  unfold pretty, pretty_N. destruct (decide (x = 0)%N) as [->|]; [reflexivity|].
  now rewrite pretty_N_go_value.
Qed.

Lemma pretty_N_nonempty (x : N) : pretty x <> EmptyString.
Proof.
  unfold pretty, pretty_N. destruct (decide (x = 0)%N) as [->|Hx]; [discriminate|].
  rewrite pretty_N_go_step by lia. intros Heq.
  pose proof (pretty_N_go_longer (x `div` 10)
                (String (pretty_N_char (x `mod` 10)) "")) as Hlen.
  rewrite Heq in Hlen. cbn in Hlen. lia.
Qed.

(** Empty, or a further component of the version. *)
Definition further (tail : string) : bool :=
  match tail with
  | EmptyString => true
  | String c _ => Ascii.eqb c "."
  end.

Lemma str_split_minor p tail :
  lacks "." p = true -> further tail = true ->
  exists more, str_split "." (p +:+ tail) = p :: more.
Proof.
  intros Hp Ht. destruct tail as [|c t].
  - exists []. replace (p +:+ "") with p.
    + now apply str_split_lacks.
    + clear. induction p as [|x p IH]; cbn [String.append]; [reflexivity|now rewrite <- IH].
  - cbn [further] in Ht. apply Ascii.eqb_eq in Ht as ->.
    eexists. now apply str_split_at.
Qed.

(** X20.  A banner that names the version as [major.minor], alone or before
    further components, gives the number whose decimal digits are those of
    the major version followed by those of the minor one: 110 for
    [11.0.2], 18 for [1.8.0_201]. *)
Theorem java_version_joins_major_and_minor (pre rest tail : string) (a b : N) :
  lacks " " pre = true -> lacks Json.DQ tail = true -> further tail = true ->
  (String.length (pretty a) + String.length (pretty b) <= 4300)%nat ->
  get_java_version
    (mkCompleted 0
       (pre +:+ " version " +:+ quote
            +:+ (pretty a +:+ "." +:+ pretty b +:+ tail) +:+ quote +:+ rest))
  = inr (Some (Z.of_N a * 10 ^ Zlen (pretty b) + Z.of_N b)%Z).
Proof.
  intros Hpre Htail Hfur Hlen.
  pose proof (pretty_N_digits a) as Ha. pose proof (pretty_N_digits b) as Hb.
  rewrite get_java_version_banner; [|exact Hpre|].
  2:{ rewrite !lacks_app, Htail.
      rewrite (digits_only_lacks Json.DQ _ eq_refl Ha),
        (digits_only_lacks Json.DQ _ eq_refl Hb). reflexivity. }
  unfold joined.
  change ("." +:+ pretty b +:+ tail) with (String "." (pretty b +:+ tail)).
  rewrite str_split_at by now apply digits_only_lacks.
  destruct (str_split_minor (pretty b) tail) as [more ->];
    [now apply digits_only_lacks|exact Hfur|].
  rewrite py_int_digits.
  - rewrite value_from_app, pretty_N_value, value_from_shift, pretty_N_value.
    reflexivity.
  - now rewrite digits_only_app, Ha, Hb.
  - intros Heq. apply (pretty_N_nonempty a).
    destruct (pretty a); [reflexivity|discriminate].
  - unfold Zlen in *. pose proof (Zlen_app (pretty a) (pretty b)) as Happ.
    unfold Zlen in Happ. lia.
Qed.

(** X21.  A banner whose version has no dot, as [21] has, makes
    [get_java_version] raise [IndexError]: the split gives one part and the
    code reads the second. *)
Theorem java_version_without_minor_raises (pre v rest : string) :
  lacks " " pre = true -> lacks Json.DQ v = true -> lacks "." v = true ->
  get_java_version
    (mkCompleted 0 (pre +:+ " version " +:+ quote +:+ v +:+ quote +:+ rest))
  = inl IndexError.
Proof.
  intros Hpre Hq Hdot. rewrite get_java_version_banner by assumption.
  unfold joined. now rewrite str_split_lacks.
Qed.

(** X22.  When the command fails, or its error stream holds no double
    quote, [get_java_version] returns [None] and raises nothing. *)
Theorem java_version_none (completed : CompletedProcess) :
  returncode completed <> 0%Z \/ lacks Json.DQ (stderr completed) = true ->
  get_java_version completed = inr None.
Proof.
  intros H. unfold get_java_version.
  destruct (Z.eqb_spec (returncode completed) 0) as [Hz|Hnz]; cbn [negb]; [|reflexivity].
  destruct H as [H|H]; [contradiction|]. cbv zeta.
  destruct (_ <? 0)%Z; [reflexivity|].
  unfold quote. now rewrite str_find_lacks.
Qed.

End JavaVersionFacts.

Module JavaVersionExamples.
Import JavaVersion.

Lemma java_version_joins_major_and_minor_witness :
  get_java_version
    (mkCompleted 0
       ("openjdk" +:+ " version " +:+ quote
          +:+ (pretty 11%N +:+ "." +:+ pretty 0%N +:+ ".2") +:+ quote +:+ " 2019-01-15"))
  = inr (Some 110%Z).
Proof.
  apply (java_version_joins_major_and_minor "openjdk" " 2019-01-15" ".2" 11 0);
    vm_compute; try reflexivity; lia.
Defined.

Lemma java_version_without_minor_raises_witness :
  get_java_version
    (mkCompleted 0 ("openjdk" +:+ " version " +:+ quote +:+ "21" +:+ quote +:+ " 2023-09-19"))
  = inl IndexError.
Proof.
  apply (java_version_without_minor_raises "openjdk" "21" " 2023-09-19"); reflexivity.
Defined.

Lemma java_version_none_witness :
  get_java_version (mkCompleted 1 "Error: could not create the Java Virtual Machine.") = inr None.
Proof.
  apply (java_version_none (mkCompleted 1 "Error: could not create the Java Virtual Machine.")).
  left. discriminate.
Defined.

End JavaVersionExamples.
